(** * ai-code-gate: the scoring core and the score history store

    A shallow embedding of [scripts/score.py] and [scripts/score_store.py],
    and the properties the specification states about them.

    Modelling conventions.
    - A Python [float] is an exact rational ([Q]): rounding, infinities and
      NaN are outside the model.  Results are compared with [==] ([Qeq]).
      The conversion of an [int] that no float can hold raises
      [OverflowError], as in Python.
    - A Python [str] is a [string]; one [ascii] stands for one character.
    - An exception is a value of [exn], carried by [result]; a function that
      can raise returns [result A].
    - The file system, the clock and the SQLite database are explicit
      arguments: the content of a path, the timestamp of a call, the table
      [score_runs]. *)

From Stdlib Require Import ZArith QArith Qround Qminmax Lia Lqa.
From Stdlib Require Import Ascii String.
From stdpp Require Import base option list strings gmap sorting pretty.

Set Warnings "-register-all".

Local Open Scope Q_scope.

(** ** Python values and exceptions *)

Module Py.

Inductive exn : Type :=
| ZeroDivisionError
| AttributeError
| TypeError
| ValueError
| KeyError
| OSError
| OverflowError.

Inductive result (A : Type) : Type :=
| Ok (a : A)
| Raise (e : exn).
Arguments Ok {A} a.
Arguments Raise {A} e.

Definition default_or {A : Type} (o : option A) (d : A) : A :=
  match o with
  | Some a => a
  | None => d
  end.

Definition bind {A B : Type} (k : A -> result B) (r : result A) : result B :=
  match r with
  | Ok a => k a
  | Raise e => Raise e
  end.

(** [for x in l: ...] with a body that can raise; the results are
    collected in order. *)
Fixpoint for_each {A B : Type} (f : A -> result B) (l : list A)
    : result (list B) :=
  match l with
  | [] => Ok []
  | x :: l' =>
      match f x with
      | Ok y =>
          match for_each f l' with
          | Ok ys => Ok (y :: ys)
          | Raise e => Raise e
          end
      | Raise e => Raise e
      end
  end.

(** A loop that threads an accumulator through a body that can raise. *)
Fixpoint fold_m {A B : Type} (f : B -> A -> result B) (l : list A) (b : B)
    : result B :=
  match l with
  | [] => Ok b
  | x :: l' =>
      match f b x with
      | Ok b' => fold_m f l' b'
      | Raise e => Raise e
      end
  end.

(** *** Numbers *)

(** [a / b]: true division, [ZeroDivisionError] on a zero divisor. *)
Definition div (a b : Q) : result Q :=
  if Qeq_bool b 0 then Raise ZeroDivisionError else Ok (a / b).

(** [float(n)] on an int: [OverflowError] from 2^1024 - 2^970 on, where
    the nearest float would be infinite. *)
Definition float_limit : Z := 2 ^ 1024 - 2 ^ 970.

Definition float_of_int (n : Z) : result Q :=
  if (Z.abs n <? float_limit)%Z then Ok (inject_Z n)
  else Raise OverflowError.

(** [a >= b], [a > b], [a < b] *)
Definition ge (a b : Q) : bool := Qle_bool b a.
Definition gt (a b : Q) : bool := negb (Qle_bool a b).
Definition lt (a b : Q) : bool := negb (Qle_bool b a).

(** The integer nearest to [x], ties to the even one. *)
Definition round_half_even (x : Q) : Z :=
  let f := Qfloor x in
  match Qcompare (x - inject_Z f) (1 # 2) with
  | Lt => f
  | Gt => (f + 1)%Z
  | Eq => if Z.even f then f else (f + 1)%Z
  end.

(** [round(x, ndigits)] *)
Definition round (x : Q) (ndigits : nat) : Q :=
  let scale := (10 ^ Z.of_nat ndigits)%Z in
  inject_Z (round_half_even (x * inject_Z scale)) / inject_Z scale.

(** [int(x)] on a float: truncation toward zero. *)
Definition trunc (x : Q) : Z := Z.quot (Qnum x) (Z.pos (Qden x)).

(** A number whose Python type matters: [int] or [float]. *)
Inductive num : Type :=
| Int (n : Z)
| Float (x : Q).

Definition to_Q (v : num) : Q :=
  match v with
  | Int n => inject_Z n
  | Float x => x
  end.

(** [x or y] on ints *)
Definition int_or (x y : Z) : Z := if Z.eqb x 0 then y else x.

(** *** Strings *)

Definition ascii_in (c : ascii) (codes : list nat) : bool :=
  bool_decide (nat_of_ascii c ∈ codes).

(** [c.isspace()] *)
Definition isspace (c : ascii) : bool :=
  ascii_in c [9; 10; 11; 12; 13; 28; 29; 30; 31; 32; 133; 160]%nat.

Fixpoint lstrip (s : string) : string :=
  match s with
  | EmptyString => EmptyString
  | String c s' => if isspace c then lstrip s' else s
  end.

Fixpoint rstrip (s : string) : string :=
  match s with
  | EmptyString => EmptyString
  | String c s' =>
      match rstrip s' with
      | EmptyString => if isspace c then EmptyString else String c EmptyString
      | t => String c t
      end
  end.

(** [s.strip()] *)
Definition strip (s : string) : string := rstrip (lstrip s).

(** [s.startswith(p)] *)
Definition startswith (s p : string) : bool := String.prefix p s.

(** [p in s] on strings *)
Fixpoint contains (s p : string) : bool :=
  String.prefix p s ||
  match s with
  | EmptyString => false
  | String _ s' => contains s' p
  end.

(** [s.replace(a, b)] for one-character [a] and [b]. *)
Fixpoint replace (s : string) (a b : ascii) : string :=
  match s with
  | EmptyString => EmptyString
  | String c s' => String (if Ascii.eqb c a then b else c) (replace s' a b)
  end.

(** [s[:n]] *)
Fixpoint slice_to (n : nat) (s : string) : string :=
  match n, s with
  | O, _ => EmptyString
  | S _, EmptyString => EmptyString
  | S n', String c s' => String c (slice_to n' s')
  end.

(** The line boundaries of [str.splitlines]. *)
Definition is_linebreak (c : ascii) : bool :=
  ascii_in c [10; 11; 12; 13; 28; 29; 30; 133]%nat.

Definition carriage_return : ascii := ascii_of_nat 13.
Definition newline : ascii := ascii_of_nat 10.

(** [cur] holds the characters of the line being read, last first. *)
Fixpoint splitlines_go (s : string) (cur : list ascii) : list string :=
  match s with
  | EmptyString =>
      match cur with
      | [] => []
      | _ => [string_of_list_ascii (rev cur)]
      end
  | String c s' =>
      if is_linebreak c then
        string_of_list_ascii (rev cur) ::
        (if Ascii.eqb c carriage_return then
           match s' with
           | String d s'' =>
               if Ascii.eqb d newline then splitlines_go s'' []
               else splitlines_go s' []
           | EmptyString => splitlines_go s' []
           end
         else splitlines_go s' [])
      else splitlines_go s' (c :: cur)
  end.

(** [s.splitlines()] *)
Definition splitlines (s : string) : list string := splitlines_go s [].

Fixpoint split_go (s : string) (sep : ascii) (cur : list ascii)
    : list string :=
  match s with
  | EmptyString => [string_of_list_ascii (rev cur)]
  | String c s' =>
      if Ascii.eqb c sep then
        string_of_list_ascii (rev cur) :: split_go s' sep []
      else split_go s' sep (c :: cur)
  end.

(** [s.split(sep)] for a one-character [sep]. *)
Definition split (s : string) (sep : ascii) : list string :=
  split_go s sep [].

(** [sep.join(l)] *)
Fixpoint join (sep : string) (l : list string) : string :=
  match l with
  | [] => EmptyString
  | [x] => x
  | x :: l' => x +:+ sep +:+ join sep l'
  end.

Definition upper_char (c : ascii) : ascii :=
  let n := nat_of_ascii c in
  if (97 <=? n)%nat && (n <=? 122)%nat then ascii_of_nat (n - 32) else c.

(** [s.upper()] (ASCII letters) *)
Fixpoint upper (s : string) : string :=
  match s with
  | EmptyString => EmptyString
  | String c s' => String (upper_char c) (upper s')
  end.

(** [if s:] on an optional string: neither [None] nor empty. *)
Definition given (s : option string) : option string :=
  match s with
  | Some p => if String.eqb p "" then None else Some p
  | None => None
  end.

(** [s.endswith(p)] *)
Definition endswith (s p : string) : bool :=
  String.prefix (String.rev p) (String.rev s).

(** *** Formatting *)

(** [str(n)] on an int *)
Definition str_int (n : Z) : string := pretty n.

Fixpoint zeros (n : nat) : string :=
  match n with
  | O => EmptyString
  | S n' => String "0" (zeros n')
  end.

(** [format(x, ".<d>f")]: [x] rounded to [d] decimals, ties to even. *)
Definition format_fixed (d : nat) (x : Q) : string :=
  let scale := (10 ^ Z.of_nat d)%Z in
  let n := Z.abs (round_half_even (x * inject_Z scale)) in
  let digits := pretty n in
  let padded := zeros (S d - String.length digits) +:+ digits in
  let k := (String.length padded - d)%nat in
  let whole := slice_to k padded in
  let frac := String.substring k d padded in
  (if lt x 0 then "-" else "") +:+ whole +:+
  (match d with O => "" | S _ => "." +:+ frac end).

End Py.

Import Py.

#[global] Instance result_bind : MBind Py.result := @Py.bind.
#[global] Instance result_ret : MRet Py.result := @Py.Ok.

(** ** scripts/score.py *)

Module Score.

(** *** Decoded documents and files *)

(** A value decoded by [json.loads]. *)
Inductive json : Type :=
| JNull
| JBool (b : bool)
| JInt (n : Z)
| JFloat (x : Q)
| JStr (s : string)
| JArr (l : list json)
| JObj (d : gmap string json).

(** A value decoded by [tomllib.load]. *)
Inductive toml : Type :=
| TStr (s : string)
| TInt (n : Z)
| TFloat (x : Q)
| TBool (b : bool)
| TDate (s : string)
| TArr (l : list toml)
| TTable (d : gmap string toml).

(** What a path holds, as its decoder sees it. *)
Inductive file (A : Type) : Type :=
| Missing                  (* [path.exists()] is false *)
| Unreadable               (* opening or reading raises [OSError] *)
| Malformed (err : string) (* the text is read and the decoder raises its
                              decode error, with message [err] *)
| Undecodable (err : string) (* the bytes are not text: reading them as
                                text raises [UnicodeDecodeError], a
                                [ValueError], with message [err] *)
| Parsed (a : A).
Arguments Missing {A}.
Arguments Unreadable {A}.
Arguments Malformed {A} err.
Arguments Undecodable {A} err.
Arguments Parsed {A} a.

(** [v.get(k, default)] *)
Definition json_get (v : json) (k : string) (default : json) : result json :=
  match v with
  | JObj d => Ok (default_or (d !! k) default)
  | _ => Raise AttributeError
  end.

(** [len(v)] *)
Definition json_len (v : json) : result Z :=
  match v with
  | JArr l => Ok (Z.of_nat (length l))
  | JStr s => Ok (Z.of_nat (String.length s))
  | JObj d => Ok (Z.of_nat (size d))
  | _ => Raise TypeError
  end.

(** [v[:n]], as the sequence a [for] loop then walks.  A dict cannot be
    sliced; the other values have failed [len] before. *)
Definition json_slice_to (n : nat) (v : json) : result (list json) :=
  match v with
  | JArr l => Ok (take n l)
  | JStr s =>
      Ok (map (fun c => JStr (String c EmptyString))
              (list_ascii_of_string (slice_to n s)))
  | _ => Raise TypeError
  end.

(** [v.get(k, default)] *)
Definition toml_get (v : toml) (k : string) (default : toml) : result toml :=
  match v with
  | TTable d => Ok (default_or (d !! k) default)
  | _ => Raise AttributeError
  end.

Definition is_str (k : string) (v : toml) : bool :=
  match v with
  | TStr s => String.eqb s k
  | _ => false
  end.

(** [k in v] *)
Definition toml_in (k : string) (v : toml) : result bool :=
  match v with
  | TTable d => Ok (bool_decide (is_Some (d !! k)))
  | TStr s => Ok (contains s k)
  | TArr l => Ok (existsb (is_str k) l)
  | _ => Raise TypeError
  end.

(** [v[k]] for a string [k] *)
Definition toml_index (v : toml) (k : string) : result toml :=
  match v with
  | TTable d =>
      match d !! k with
      | Some x => Ok x
      | None => Raise KeyError
      end
  | _ => Raise TypeError
  end.

(** *** Default thresholds *)

Definition DEFAULT_COMPLEXITY_EXCELLENT : Z := 5.
Definition DEFAULT_COMPLEXITY_ACCEPTABLE : Z := 10.
Definition DEFAULT_COMPLEXITY_POOR : Z := 20.

Definition DEFAULT_COVERAGE_EXCELLENT : Z := 90.
Definition DEFAULT_COVERAGE_ACCEPTABLE : Z := 70.
Definition DEFAULT_COVERAGE_POOR : Z := 40.

Definition DEFAULT_ANTIPATTERN_EXCELLENT : Z := 0.
Definition DEFAULT_ANTIPATTERN_ACCEPTABLE : Z := 2.
Definition DEFAULT_ANTIPATTERN_POOR : Z := 5.

(** Directories excluded from LOC counting. *)
Definition LOC_EXCLUDE_DIRS : gset string :=
  {[ "tests"; "test"; "scripts"; "fuzz"; ".venv"; "venv"; "node_modules";
     "__pycache__" ]}.

(** *** Data model *)

Record ScoreBreakdown : Type := {
  complexity_score : Q;
  coverage_score : Q;
  antipattern_score : Q;
  complexity_detail : string;
  coverage_detail : string;
  antipattern_detail : string;
  warnings : list string;
  languages : list string
}.

Definition total (b : ScoreBreakdown) : Q :=
  complexity_score b + coverage_score b + antipattern_score b.

(** *** Helpers *)

(** [lerp_score]: linear interpolation between thresholds. *)
Definition lerp_score (value excellent acceptable poor max_pts : Q)
    (invert : bool) : result Q :=
  let '(value, excellent, acceptable, poor) :=
    if invert then (- value, - excellent, - acceptable, - poor)
    else (value, excellent, acceptable, poor) in
  if Py.ge value excellent then Ok max_pts
  else if Py.ge value acceptable then
    frac ← Py.div (value - acceptable) (excellent - acceptable);
    Ok (max_pts * 0.5 + max_pts * 0.5 * frac)
  else if Py.ge value poor then
    frac ← Py.div (value - poor) (acceptable - poor);
    Ok (max_pts * 0.5 * frac)
  else Ok 0.0.

(** The branch of [lerp_score] a call takes: its three tests, in order. *)
Inductive branch : Type :=
| Full        (* [return max_pts] *)
| UpperHalf   (* divides by [excellent - acceptable] *)
| LowerHalf   (* divides by [acceptable - poor] *)
| Zero.       (* [return 0.0] *)

Definition lerp_branch (value excellent acceptable poor : Q)
    (invert : bool) : branch :=
  let '(value, excellent, acceptable, poor) :=
    if invert then (- value, - excellent, - acceptable, - poor)
    else (value, excellent, acceptable, poor) in
  if Py.ge value excellent then Full
  else if Py.ge value acceptable then UpperHalf
  else if Py.ge value poor then LowerHalf
  else Zero.

(** *** Builtins that are not modelled

    The number grammar of [int(s)] and [float(s)] on a string, and the
    text of [str(x)] for a float, a list or a dict, are taken as given. *)

Section Builtins.

Variable int_of_str : string -> result Z.
Variable float_of_str : string -> result Q.
Variable str_float : Q -> string.
Variable str_container : json -> string.

(** [int(v)] *)
Definition toml_int (v : toml) : result Z :=
  match v with
  | TInt n => Ok n
  | TFloat x => Ok (trunc x)
  | TBool b => Ok (if b then 1 else 0)%Z
  | TStr s => int_of_str s
  | _ => Raise TypeError
  end.

(** [float(v)] *)
Definition toml_float (v : toml) : result Q :=
  match v with
  | TInt n => float_of_int n
  | TFloat x => Ok x
  | TBool b => Ok (if b then 1 else 0)
  | TStr s => float_of_str s
  | _ => Raise TypeError
  end.

(** [format(v, "")] of a decoded JSON value *)
Definition json_str (v : json) : string :=
  match v with
  | JStr s => s
  | JInt n => str_int n
  | JBool b => if b then "True" else "False"
  | JNull => "None"
  | JFloat x => str_float x
  | _ => str_container v
  end.

(** [format(v, "")] of a number *)
Definition num_str (v : num) : string :=
  match v with
  | Int n => str_int n
  | Float x => str_float x
  end.

(** *** pyproject.toml config loader *)

(** [Path.cwd() / name] *)
Definition in_cwd (cwd name : string) : string :=
  if endswith cwd "/" then cwd +:+ name else cwd +:+ "/" +:+ name.

Definition exists_ {A : Type} (f : file A) : bool :=
  match f with
  | Missing => false
  | _ => true
  end.

(** The inner loop: one key of one section. *)
Definition read_key (sub : toml) (prefix : string)
    (result : gmap string num) (key : string) : Py.result (gmap string num) :=
  present ← toml_in key sub;
  if present : bool then
    v ← toml_index sub key;
    x ← toml_float v;
    Ok (<[prefix +:+ "_" +:+ key := Float x]> result)
  else Ok result.

(** The outer loop: one section. *)
Definition read_section (gate : toml) (result : gmap string num)
    (sp : string * string) : Py.result (gmap string num) :=
  let '(section, prefix) := sp in
  sub ← toml_get gate section (TTable ∅);
  fold_m (read_key sub prefix) ["excellent"; "acceptable"; "poor"] result.

Definition load_pyproject_config (cwd : string)
    (fs : string -> file (gmap string toml)) (config_path : option string)
    : Py.result (gmap string num) :=
  let discovered :=
    match config_path with
    | None =>
        let candidate := in_cwd cwd "pyproject.toml" in
        if negb (exists_ (fs candidate)) then None else Some candidate
    | Some p => Some p
    end in
  match discovered with
  | None => Ok ∅
  | Some config_path =>
      match fs config_path with
      | Missing => Ok ∅
      | Unreadable => Ok ∅
      | Malformed _ => Ok ∅
      | Undecodable _ => Ok ∅
      | Parsed data =>
          let tool := default_or (data !! "tool") (TTable ∅) in
          gate ← toml_get tool "ai-gate" (TTable ∅);
          has_threshold ← toml_in "threshold" gate;
          result ←
            (if has_threshold : bool then
               v ← toml_index gate "threshold";
               n ← toml_int v;
               Ok (<["threshold" := Int n]> ∅)
             else Ok ∅);
          fold_m (read_section gate)
            [("complexity", "complexity"); ("coverage", "coverage");
             ("antipatterns", "antipattern")] result
      end
  end.

(** *** Signal: semgrep anti-patterns *)

(** An entry below the source root: its path relative to the root, and
    its text ([None] when reading it raises [OSError]). *)
Record entry : Type := {
  rel_parts : list string;
  read_text : option string
}.

(** [root.rglob("*.py")] *)
Definition rglob_py (tree : list entry) : list entry :=
  List.filter (fun p => match last (rel_parts p) with
                        | Some name => endswith name ".py"
                        | None => false
                        end) tree.

(** The source lines of one text: neither blank nor a comment. *)
Definition count_lines (text : string) : Z :=
  Z.of_nat (length (List.filter (fun line =>
    let stripped := strip line in
    negb (String.eqb stripped "") && negb (startswith stripped "#"))
    (splitlines text))).

(** [rel.parts and rel.parts[0] in LOC_EXCLUDE_DIRS] *)
Definition excluded (p : entry) : bool :=
  match rel_parts p with
  | first :: _ => bool_decide (first ∈ LOC_EXCLUDE_DIRS)
  | [] => false
  end.

Definition _count_loc (tree : list entry) : Z :=
  let total :=
    fold_left (fun total p =>
      if excluded p then total
      else match read_text p with
           | Some text => (total + count_lines text)%Z
           | None => total
           end) (rglob_py tree) 0%Z in
  Z.max total 1.

(** The warning of one finding. *)
Definition finding_warning (r : json) : result string :=
  path_str ← json_get r "path" (JStr "?");
  start ← json_get r "start" (JObj ∅);
  line ← json_get start "line" (JStr "?");
  extra ← json_get r "extra" (JObj ∅);
  check_id ← json_get r "check_id" (JStr "unknown");
  msg ← json_get extra "message" check_id;
  match msg with
  | JStr msg =>
      let msg := slice_to 120 (replace msg newline " ") in
      Ok ("`" +:+ json_str path_str +:+ ":" +:+ json_str line +:+
          "` — " +:+ msg)
  | _ => Raise AttributeError
  end.

Definition measure_antipatterns (semgrep_json : file json)
    (tree : list entry) : result (Q * string * list string) :=
  match semgrep_json with
  | Missing =>
      Ok (0.0, "semgrep-results.json not found — semgrep not run", [])
  | Unreadable => Raise OSError
  | Malformed e => Ok (0.0, "Could not parse semgrep results: " +:+ e, [])
  | Undecodable _ => Raise ValueError
  | Parsed data =>
      results ← json_get data "results" (JArr []);
      finding_count ← json_len results;
      let loc := _count_loc tree in
      density ←
        (if (0 <? loc)%Z then
           q ← Py.div (inject_Z finding_count) (inject_Z loc);
           Ok (q * 100)
         else Ok 0.0);
      let detail :=
        "**" +:+ str_int finding_count +:+ "** anti-pattern findings (" +:+
        format_fixed 2 density +:+ " per 100 LOC, ~" +:+ str_int loc +:+
        " source lines)" in
      first ← json_slice_to 10 results;
      warnings ← for_each finding_warning first;
      let warnings :=
        if (10 <? finding_count)%Z then
          warnings ++
          ["...and " +:+ str_int (finding_count - 10) +:+
           " more findings (see semgrep-results.json)"]
        else warnings in
      Ok (density, detail, warnings)
  end.

(** *** Badge generation *)

Record Badge : Type := {
  schemaVersion : Z;
  label : string;
  message : string;
  color : string;
  namedLogo : string
}.

Definition generate_badge_json (score threshold : Q) : Badge :=
  let color :=
    if Py.ge score 90 then "brightgreen"
    else if Py.ge score 70 then "green"
    else if Py.ge score 50 then "yellow"
    else "red" in
  let passed := Py.ge score threshold in
  let label := "AI Gate" in
  let message :=
    format_fixed 0 score +:+ "/100 " +:+ (if passed then "✓" else "✗") in
  {| schemaVersion := 1; label := label; message := message;
     color := color; namedLogo := "github-actions" |}.

(** *** Report generation *)

Definition build_report (breakdown : ScoreBreakdown) (threshold : num)
    : string :=
  let total := total breakdown in
  let passed := Py.ge total (to_Q threshold) in
  let status_icon := if passed then "✅" else "❌" in
  let status_word := if passed then "PASSED" else "BLOCKED" in
  let lang_str :=
    match languages breakdown with
    | [] => "Python"
    | langs => upper (join ", " langs)
    end in
  let lines :=
    [ "## " +:+ status_icon +:+ " AI Code Quality Gate — " +:+ status_word;
      "";
      "**Languages analysed:** " +:+ lang_str;
      "";
      "| Signal | Score | Detail |";
      "|--------|------:|--------|";
      "| Complexity (40 pts) | " +:+
        format_fixed 1 (complexity_score breakdown) +:+ " | " +:+
        complexity_detail breakdown +:+ " |";
      "| Coverage (35 pts)   | " +:+
        format_fixed 1 (coverage_score breakdown) +:+ " | " +:+
        coverage_detail breakdown +:+ " |";
      "| Anti-patterns (25 pts) | " +:+
        format_fixed 1 (antipattern_score breakdown) +:+ " | " +:+
        antipattern_detail breakdown +:+ " |";
      "| **Total** | **" +:+ format_fixed 1 total +:+
        " / 100** | Threshold: " +:+ num_str threshold +:+ " |";
      "" ] in
  let lines :=
    match warnings breakdown with
    | [] => lines
    | ws => lines ++ ["### Findings"; ""] ++
            map (fun w => "- " +:+ w) ws ++ [""]
    end in
  let lines :=
    if negb passed then
      lines ++
      ["> **Merge blocked.** Resolve the findings above and re-push to re-run the gate.";
       ""]
    else lines in
  join (String newline "") lines.

(** *** Main *)

(** The parsed command line. *)
Record Args : Type := {
  arg_coverage : string;
  arg_semgrep : string;
  arg_src : string;
  arg_threshold : option Z;
  arg_output : option string;
  arg_score_output : option string;
  arg_badge_output : option string;
  arg_fail_on_threshold : bool;
  arg_config : option string;
  arg_js_complexity : option string;
  arg_languages : string;
  arg_complexity_excellent : option Q;
  arg_complexity_acceptable : option Q;
  arg_complexity_poor : option Q;
  arg_coverage_excellent : option Q;
  arg_coverage_acceptable : option Q;
  arg_coverage_poor : option Q;
  arg_antipattern_excellent : option Q;
  arg_antipattern_acceptable : option Q;
  arg_antipattern_poor : option Q
}.

(** What one invocation finds around it.  The complexity and coverage
    extractors run an external analyzer or decode a file of their own;
    their results are taken as given. *)
Record Env : Type := {
  env_cwd : string;
  env_toml : string -> file (gmap string toml);
  env_json : string -> file json;
  env_tree : string -> list entry;
  measure_complexity : string -> option string ->
                       result (Q * string * list string);
  measure_coverage : string -> result (Q * string)
}.

(** What is written to a file. *)
Inductive content : Type :=
| Text (s : string)
| BadgeJson (b : Badge).

(** What one invocation leaves behind. *)
Record Outcome : Type := {
  out_stdout : list string;
  out_files : list (string * content);
  out_exit : Z
}.

(** [resolve], with the config [cfg] of the enclosing [main]. *)
Definition resolve (cfg : gmap string num) (cli_val : option Q)
    (cfg_key : string) (default : Z) : Q :=
  match cli_val with
  | Some v => v
  | None => to_Q (default_or (cfg !! cfg_key) (Int default))
  end.

(** The effective thresholds of one invocation. *)
Record Thresholds : Type := {
  threshold : num;
  cx_exc : Q; cx_acc : Q; cx_poor : Q;
  cov_exc : Q; cov_acc : Q; cov_poor : Q;
  ap_exc : Q; ap_acc : Q; ap_poor : Q
}.

(** [main], from the loading of the config to the last [resolve]. *)
Definition main_thresholds (cfg : gmap string num) (args : Args)
    : Thresholds :=
  {| threshold :=
       match arg_threshold args with
       | Some t => Int t
       | None => default_or (cfg !! "threshold") (Int 70)
       end;
     cx_exc := resolve cfg (arg_complexity_excellent args)
                 "complexity_excellent" DEFAULT_COMPLEXITY_EXCELLENT;
     cx_acc := resolve cfg (arg_complexity_acceptable args)
                 "complexity_acceptable" DEFAULT_COMPLEXITY_ACCEPTABLE;
     cx_poor := resolve cfg (arg_complexity_poor args)
                 "complexity_poor" DEFAULT_COMPLEXITY_POOR;
     cov_exc := resolve cfg (arg_coverage_excellent args)
                  "coverage_excellent" DEFAULT_COVERAGE_EXCELLENT;
     cov_acc := resolve cfg (arg_coverage_acceptable args)
                  "coverage_acceptable" DEFAULT_COVERAGE_ACCEPTABLE;
     cov_poor := resolve cfg (arg_coverage_poor args)
                  "coverage_poor" DEFAULT_COVERAGE_POOR;
     ap_exc := resolve cfg (arg_antipattern_excellent args)
                 "antipattern_excellent" DEFAULT_ANTIPATTERN_EXCELLENT;
     ap_acc := resolve cfg (arg_antipattern_acceptable args)
                 "antipattern_acceptable" DEFAULT_ANTIPATTERN_ACCEPTABLE;
     ap_poor := resolve cfg (arg_antipattern_poor args)
                  "antipattern_poor" DEFAULT_ANTIPATTERN_POOR |}.

(** [main], from the languages to the last signal. *)
Definition main_breakdown (env : Env) (args : Args) (t : Thresholds)
    : result ScoreBreakdown :=
  let languages :=
    List.filter (fun lang => negb (String.eqb lang ""))
      (map strip (split (arg_languages args) ",")) in
  '(avg_cc, cc_detail, cc_warnings) ←
    measure_complexity env (arg_src args) (arg_js_complexity args);
  complexity_score ←
    lerp_score avg_cc (cx_exc t) (cx_acc t) (cx_poor t) 40 true;
  '(pct, cov_detail) ← measure_coverage env (arg_coverage args);
  coverage_score ←
    lerp_score pct (cov_exc t) (cov_acc t) (cov_poor t) 35 false;
  '(density, ap_detail, ap_warnings) ←
    measure_antipatterns (env_json env (arg_semgrep args))
      (env_tree env (arg_src args));
  antipattern_score ←
    lerp_score density (ap_exc t) (ap_acc t) (ap_poor t) 25 true;
  Ok {| complexity_score := complexity_score;
        coverage_score := coverage_score;
        antipattern_score := antipattern_score;
        complexity_detail := cc_detail;
        coverage_detail := cov_detail;
        antipattern_detail := ap_detail;
        warnings := cc_warnings ++ ap_warnings;
        languages := languages |}.

(** [main], from the report to the exit. *)
Definition main_finish (args : Args) (breakdown : ScoreBreakdown)
    (threshold : num) : Outcome :=
  let report := build_report breakdown threshold in
  let total := total breakdown in
  let '(files, stdout) :=
    match given (arg_output args) with
    | Some p => ([(p, Text report)], ["Score report written to " +:+ p])
    | None => ([], [])
    end in
  let files :=
    match given (arg_score_output args) with
    | Some p => files ++ [(p, Text (format_fixed 2 total))]
    | None => files
    end in
  let '(files, stdout) :=
    match given (arg_badge_output args) with
    | Some p =>
        let badge := generate_badge_json total (to_Q threshold) in
        (files ++ [(p, BadgeJson badge)],
         stdout ++ ["Badge JSON written to " +:+ p])
    | None => (files, stdout)
    end in
  let stdout := stdout ++ [report] in
  {| out_stdout := stdout;
     out_files := files;
     out_exit :=
       if arg_fail_on_threshold args && Py.lt total (to_Q threshold)
       then 1 else 0 |}.

Definition main (env : Env) (args : Args) : result Outcome :=
  cfg ← load_pyproject_config (env_cwd env) (env_toml env)
           (arg_config args);
  let t := main_thresholds cfg args in
  breakdown ← main_breakdown env args t;
  Ok (main_finish args breakdown (threshold t)).

End Builtins.

End Score.

(** ** scripts/score_store.py *)

Module ScoreStore.

(** A column value of SQLite. *)
Inductive value : Type :=
| VNull
| VInt (n : Z)
| VReal (x : Q)
| VText (s : string).

(** One row of the table [score_runs]. *)
Record Row : Type := {
  id : Z;
  recorded_at : string;
  repo : string;
  branch : string;
  pr : option Z;
  sha : string;
  score : Q;
  passed : Z;
  threshold : Q;
  complexity_score : option Q;
  coverage_score : option Q;
  antipattern_score : option Q
}.

(** The table, in rowid order.  A path that holds no database yet is the
    empty table: [get_connection] creates the schema if it is missing,
    and leaves an existing table as it is. *)
Definition Table : Type := list Row.

Definition get_connection (db : Table) : Table := db.

(** [INTEGER PRIMARY KEY AUTOINCREMENT]: one more than the largest rowid
    the table has held; no row is ever deleted, so that is the largest
    rowid it holds. *)
Definition next_rowid (db : Table) : Z :=
  (fold_right Z.max 0 (map id db) + 1)%Z.

(** *** Write *)

(** [now] is the value of [datetime.now(UTC).isoformat()] at the call. *)
Definition record_run (db : Table) (now : string) (score : Q)
    (repo branch : string) (pr : option Z) (sha : string) (threshold : Q)
    (complexity_score coverage_score antipattern_score : option Q)
    : Table * Z :=
  let conn := get_connection db in
  let passed := if Py.ge score threshold then 1%Z else 0%Z in
  let lastrowid := next_rowid conn in
  let row :=
    {| id := lastrowid; recorded_at := now; repo := repo;
       branch := branch; pr := pr; sha := sha; score := score;
       passed := passed; threshold := threshold;
       complexity_score := complexity_score;
       coverage_score := coverage_score;
       antipattern_score := antipattern_score |} in
  (conn ++ [row], int_or lastrowid 0).

(** *** Query helpers *)

(** [r1] comes before [r2] under [ORDER BY recorded_at DESC].  Text
    compares byte by byte; rows of one timestamp come in the order of the
    index on (repo, recorded_at) read backwards, larger rowid first. *)
Definition before (r1 r2 : Row) : bool :=
  String.ltb (recorded_at r2) (recorded_at r1) ||
  (String.eqb (recorded_at r1) (recorded_at r2) && (id r2 <? id r1)%Z).

Fixpoint insert_desc (r : Row) (l : list Row) : list Row :=
  match l with
  | [] => [r]
  | x :: l' => if before r x then r :: l else x :: insert_desc r l'
  end.

(** [ORDER BY recorded_at DESC] *)
Definition order_by_recorded_at_desc (l : list Row) : list Row :=
  fold_right insert_desc [] l.

(** [LIMIT n]: a negative [n] is no limit. *)
Definition sql_limit (n : Z) (l : list Row) : list Row :=
  if (n <? 0)%Z then l else take (Z.to_nat n) l.

(** The columns selected by [query_trend]. *)
Record TrendRow : Type := {
  t_recorded_at : string;
  t_branch : string;
  t_pr : option Z;
  t_sha : string;
  t_score : Q;
  t_passed : Z;
  t_threshold : Q
}.

Definition select_trend (r : Row) : TrendRow :=
  {| t_recorded_at := recorded_at r; t_branch := branch r; t_pr := pr r;
     t_sha := sha r; t_score := score r; t_passed := passed r;
     t_threshold := threshold r |}.

(** Return the last [limit] runs for a repo, oldest first. *)
Definition query_trend (db : Table) (repo_ : string) (limit : Z)
    : list TrendRow :=
  let conn := get_connection db in
  let rows :=
    sql_limit limit
      (order_by_recorded_at_desc
         (List.filter (fun r => String.eqb (repo r) repo_) conn)) in
  map select_trend (rev rows).

(** Return the most recent run for a repo (optionally filtered by
    branch). *)
Definition query_latest (db : Table) (repo_ : string)
    (branch_ : option string) : option Row :=
  let conn := get_connection db in
  let row :=
    match given branch_ with
    | Some b =>
        head (sql_limit 1
          (order_by_recorded_at_desc
             (List.filter (fun r => String.eqb (repo r) repo_ &&
                                    String.eqb (branch r) b) conn)))
    | None =>
        head (sql_limit 1
          (order_by_recorded_at_desc
             (List.filter (fun r => String.eqb (repo r) repo_) conn)))
    end in
  row.

(** The aggregates of [query_stats] over the selected rows. *)
Definition sql_count (l : list Row) : Z := Z.of_nat (length l).

Definition sql_sum_passed (l : list Row) : value :=
  match l with
  | [] => VNull
  | _ => VInt (fold_right Z.add 0%Z (map passed l))
  end.

(** [AVG(score)].  SQLite sums and divides in floating point; the exact
    mean stands for its result, and nothing is stated here about where
    a rounded mean falls. *)
Definition sql_avg_score (l : list Row) : value :=
  match l with
  | [] => VNull
  | _ => VReal (fold_right Qplus 0 (map score l) / inject_Z (sql_count l))
  end.

Definition sql_max_score (l : list Row) : value :=
  match l with
  | [] => VNull
  | r :: l' => VReal (fold_right Qmax (score r) (map score l'))
  end.

Definition sql_min_score (l : list Row) : value :=
  match l with
  | [] => VNull
  | r :: l' => VReal (fold_right Qmin (score r) (map score l'))
  end.

(** [a - b] in SQL: [NULL] if either side is. *)
Definition sql_sub (a b : value) : value :=
  match a, b with
  | VInt x, VInt y => VInt (x - y)
  | _, _ => VNull
  end.

(** [a / b * 100] on two values of the result row, in Python. *)
Definition percent (a b : value) : result Q :=
  match a, b with
  | VInt x, VInt y => q ← Py.div (inject_Z x) (inject_Z y); Ok (q * 100)
  | _, _ => Raise TypeError
  end.

(** Return aggregate statistics for a repo. *)
Definition query_stats (db : Table) (repo_ : string)
    : result (gmap string value) :=
  let conn := get_connection db in
  let sel := List.filter (fun r => String.eqb (repo r) repo_) conn in
  let total_runs := VInt (sql_count sel) in
  let passed_runs := sql_sum_passed sel in
  let row : gmap string value :=
    <["blocked_runs" := sql_sub total_runs passed_runs]>
    (<["passed_runs" := passed_runs]>
    (<["worst_score" := sql_min_score sel]>
    (<["best_score" := sql_max_score sel]>
    (<["avg_score" := sql_avg_score sel]>
    (<["total_runs" := total_runs]> ∅))))) in
  if (sql_count sel =? 0)%Z then Ok ∅
  else
    let stats := row in
    rate ← percent passed_runs total_runs;
    Ok (<["pass_rate" := VReal (Py.round rate 1)]> stats).

End ScoreStore.

(** ** scripts/score.py: the complexity and coverage extractors *)

Module Signals.

Import Score.

(** How the call of the external analyzer ends: [subprocess.run] raises
    [FileNotFoundError] or [TimeoutExpired], or returns. *)
Inductive lizard_run : Type :=
| NotInstalled
| TimedOut
| Completed (returncode : Z) (stdout stderr : string).

(** [bool(v)] *)
Definition json_truthy (v : json) : bool :=
  match v with
  | JNull => false
  | JBool b => b
  | JInt n => negb (n =? 0)%Z
  | JFloat x => negb (Qeq_bool x 0)
  | JStr s => negb (String.eqb s "")
  | JArr l => negb (Nat.eqb (length l) 0)
  | JObj d => negb (Nat.eqb (size d) 0)
  end.

(** [max(l)] for a list that starts with [first]. *)
Definition max_of (first : Q) (rest : list Q) : Q :=
  fold_left (fun m x => if Py.gt x m then x else m) rest first.

(** [sum(l)] *)
Definition sum_of (l : list Q) : Q := fold_left Qplus l 0.

Section Builtins.

Variable int_of_str : string -> result Z.
Variable float_of_str : string -> result Q.
(** The message of the [ValueError] that [float(s)] raises. *)
Variable float_error : string -> string.
Variable str_float : Q -> string.
Variable str_container : json -> string.

(** [float(v)] *)
Definition json_float (v : json) : result Q :=
  match v with
  | JInt n => float_of_int n
  | JFloat x => Ok x
  | JBool b => Ok (if b then 1 else 0)
  | JStr s => float_of_str s
  | _ => Raise TypeError
  end.

(** [int(v)] *)
Definition json_int (v : json) : result Z :=
  match v with
  | JInt n => Ok n
  | JFloat x => Ok (trunc x)
  | JBool b => Ok (if b then 1 else 0)%Z
  | JStr s => int_of_str s
  | _ => Raise TypeError
  end.

(** *** Signal: complexity via lizard (Python) + optional JS/TS JSON *)

(** One line of the analyzer's CSV, in the loop of
    [_measure_python_complexity]: [acc] holds [complexities] and
    [warnings]. *)
Definition scan_line (acc : list Q * list string) (line : string)
    : result (list Q * list string) :=
  let '(complexities, warnings) := acc in
  let parts := split line "," in
  if (length parts <? 3)%nat then Ok acc
  else
    match float_of_str (nth 2 parts "") with
    | Ok cc =>
        let func_name :=
          if (1 <? length parts)%nat then strip (nth 1 parts "")
          else "unknown" in
        let complexities := complexities ++ [cc] in
        let warnings :=
          if Py.gt cc (inject_Z DEFAULT_COMPLEXITY_POOR) then
            warnings ++
            ["Very high complexity (" +:+ format_fixed 0 cc +:+ ") in `" +:+
             func_name +:+ "` — consider splitting"]
          else warnings in
        Ok (complexities, warnings)
    | Raise ValueError => Ok acc
    | Raise e => Raise e
    end.

Definition _measure_python_complexity (run : lizard_run)
    : result (Q * string * list string) :=
  match run with
  | NotInstalled =>
      Ok (0.0, "lizard not installed — skipped",
          ["lizard not found; install via `pip install lizard`"])
  | TimedOut =>
      Ok (0.0, "lizard timed out after 120s", ["lizard analysis timed out"])
  | Completed returncode stdout stderr =>
      if negb ((returncode =? 0)%Z || (returncode =? 1)%Z) then
        Ok (0.0, "lizard error: " +:+ slice_to 200 stderr, [])
      else
        let lines :=
          List.filter (fun ln => negb (String.eqb ln ""))
            (splitlines (strip stdout)) in
        match lines with
        | [] => Ok (0.0, "No Python files analysed", [])
        | _ =>
            '(complexities, warnings) ← fold_m scan_line lines ([], []);
            match complexities with
            | [] => Ok (0.0, "No functions found by lizard", [])
            | first :: rest =>
                avg ← Py.div (sum_of complexities)
                             (inject_Z (Z.of_nat (length complexities)));
                let worst := max_of first rest in
                let detail :=
                  "avg cyclomatic complexity: **" +:+ format_fixed 1 avg +:+
                  "** (worst: " +:+ format_fixed 0 worst +:+ " across " +:+
                  str_int (Z.of_nat (length complexities)) +:+
                  " functions)" in
                Ok (avg, detail, warnings)
            end
        end
  end.

(** Load pre-computed JS/TS complexity. *)
Definition _load_js_complexity (fs : string -> file json)
    (js_complexity_json : option string) : result (Q * string) :=
  match given js_complexity_json with
  | None => Ok (0.0, "")
  | Some path =>
      match fs path with
      | Missing => Ok (0.0, "")
      | Unreadable => Raise OSError
      | Malformed _ => Ok (0.0, "")
      | Undecodable _ => Raise ValueError
      | Parsed data =>
          error ← json_get data "error" JNull;
          if json_truthy error then
            Ok (0.0, "JS/TS analysis: " +:+
                     json_str str_float str_container error)
          else
            a ← json_get data "avg_complexity" (JInt 0);
            avg ← json_float a;
            w ← json_get data "worst_complexity" (JInt 0);
            worst ← json_float w;
            c ← json_get data "function_count" (JInt 0);
            count ← json_int c;
            let detail :=
              "JS/TS avg complexity: **" +:+ format_fixed 1 avg +:+
              "** (worst: " +:+ format_fixed 0 worst +:+ " across " +:+
              str_int count +:+ " functions)" in
            Ok (avg, detail)
      end
  end.

Definition measure_complexity (run : lizard_run) (fs : string -> file json)
    (js_complexity_json : option string)
    : result (Q * string * list string) :=
  '(python_avg, python_detail, python_warnings) ←
    _measure_python_complexity run;
  '(js_avg, js_detail) ← _load_js_complexity fs js_complexity_json;
  if Py.gt js_avg 0 && Py.gt python_avg 0 then
    blended ← Py.div (python_avg + js_avg) 2;
    let detail :=
      "Python: " +:+ python_detail +:+ " | JS/TS: " +:+ js_detail in
    Ok (blended, detail, python_warnings)
  else if Py.gt js_avg 0 then Ok (js_avg, js_detail, [])
  else Ok (python_avg, python_detail, python_warnings).

(** *** Signal: coverage *)

Definition coverage_detail_of (pct : Q) : string :=
  "branch+line coverage: **" +:+ format_fixed 1 pct +:+ "%**".

Definition measure_coverage (coverage_json : file json)
    : result (Q * string) :=
  match coverage_json with
  | Missing => Ok (0.0, "coverage.json not found — run `coverage json` first")
  | Unreadable => Raise OSError
  | Malformed e => Ok (0.0, "Could not parse coverage.json: " +:+ e)
  | Undecodable e => Ok (0.0, "Could not parse coverage.json: " +:+ e)
  | Parsed data =>
      totals ← json_get data "totals" (JObj ∅);
      display ← json_get totals "percent_covered_display" (JInt 0);
      pct ← json_get totals "percent_covered" display;
      match json_float pct with
      | Ok pct => Ok (pct, coverage_detail_of pct)
      | Raise ValueError =>
          match pct with
          | JStr s =>
              Ok (0.0, "Could not parse coverage.json: " +:+ float_error s)
          | _ => Raise ValueError
          end
      | Raise e => Raise e
      end
  end.

(** *** The surroundings of one invocation, with these extractors *)

(** What [main] finds around it: the working directory, the files it
    decodes, the source trees, and how the analyzer ends on a source
    path. *)
Record World : Type := {
  world_cwd : string;
  world_toml : string -> file (gmap string toml);
  world_json : string -> file json;
  world_tree : string -> list entry;
  world_lizard : string -> lizard_run
}.

Definition env_of (w : World) : Env :=
  {| env_cwd := world_cwd w;
     env_toml := world_toml w;
     env_json := world_json w;
     env_tree := world_tree w;
     Score.measure_complexity := fun src_path js_complexity_json =>
       measure_complexity (world_lizard w src_path) (world_json w)
         js_complexity_json;
     Score.measure_coverage := fun coverage_json =>
       measure_coverage (world_json w coverage_json) |}.

(** [main] of scripts/score.py, extractors included. *)
Definition main (w : World) (args : Args) : result Outcome :=
  Score.main int_of_str float_of_str str_float str_container (env_of w) args.

End Builtins.

End Signals.

(** ** The specification's wording *)

Module Spec.

(** A signal in the "higher is better" orientation: an inverted signal
    is negated. *)
Definition orient (invert : bool) (x : Q) : Q := if invert then - x else x.

(** The piecewise-linear curve of the score aggregator, range by range,
    for a value and thresholds in the "higher is better" orientation:
    [r] is the number of points it gives. *)
Definition curve (value excellent acceptable poor max_points r : Q) : Prop :=
  (excellent <= value -> r == max_points) /\
  (acceptable <= value < excellent ->
     r == max_points * 0.5 +
          max_points * 0.5 * (value - acceptable) / (excellent - acceptable)) /\
  (poor <= value < acceptable ->
     r == max_points * 0.5 * (value - poor) / (acceptable - poor)) /\
  (value < poor -> r == 0).

(** A call returns, and its value is the number [q]. *)
Definition returns (r : result Q) (q : Q) : Prop :=
  exists x, r = Ok x /\ x == q.

(** The first line of a report says that the gate passed. *)
Definition report_passed (report : string) : bool :=
  startswith report "## ✅ AI Code Quality Gate — PASSED".

(** The first line of a report says that the gate blocked the merge. *)
Definition report_blocked (report : string) : bool :=
  startswith report "## ❌ AI Code Quality Gate — BLOCKED".







(** [c] occurs in [s]. *)
Fixpoint has_char (c : ascii) (s : string) : bool :=
  match s with
  | EmptyString => false
  | String d s' => Ascii.eqb d c || has_char c s'
  end.

(** The message of a finding: its [extra.message], or else its
    [check_id], or else "unknown". *)
Definition finding_message (r : Score.json) : option Score.json :=
  match r with
  | Score.JObj d =>
      let fallback :=
        default_or (d !! "check_id") (Score.JStr "unknown") in
      match d !! "extra" with
      | Some (Score.JObj e) => Some (default_or (e !! "message") fallback)
      | Some _ => None
      | None => Some fallback
      end
  | _ => None
  end.

(** A finding with a message that is text, and a [start] that is an
    object if it is there. *)
Definition well_formed_finding (r : Score.json) : Prop :=
  exists d,
    r = Score.JObj d /\
    (d !! "start" = None \/ exists s, d !! "start" = Some (Score.JObj s)) /\
    exists m, finding_message r = Some (Score.JStr m).

(** The rollup warning for [n] findings beyond the first ten. *)
Definition rollup (n : Z) : string :=
  "...and " +:+ str_int n +:+ " more findings (see semgrep-results.json)".

(** Timestamps are ISO-8601 text in UTC, compared as text: [t1] is
    strictly earlier than [t2], and [t1] is not later than [t2]. *)
Definition earlier (t1 t2 : string) : Prop := String.ltb t1 t2 = true.
Definition not_later (t1 t2 : string) : Prop := String.leb t1 t2 = true.


(** Rows that go from the newest to the oldest. *)
Definition newest_first : list ScoreStore.Row -> Prop :=
  StronglySorted (fun r1 r2 => not_later (ScoreStore.recorded_at r2)
                                         (ScoreStore.recorded_at r1)).

(** The stored runs of one repository. *)
Definition rows_of (repo_ : string) (db : ScoreStore.Table)
    : list ScoreStore.Row :=
  List.filter (fun r => String.eqb (ScoreStore.repo r) repo_) db.

(** [record_run] with the defaults of its optional arguments. *)
Definition record (db : ScoreStore.Table) (now : string) (score : Q)
    (repo_ : string) : ScoreStore.Table * Z :=
  ScoreStore.record_run db now score repo_ "" None "" 70 None None None.

(** [r] is [x] rounded to one decimal: a whole number of tenths, at most
    half a tenth away. *)
Definition rounded_to_tenth (x r : Q) : Prop :=
  (exists k : Z, r == inject_Z k / 10) /\
  x - (1 # 20) <= r <= x + (1 # 20).

End Spec.

(** ** Sample inputs *)

Module Sample.

Import Score.

(** The command line with no option given but, if [strict],
    [--fail-on-threshold]. *)
Definition args_with (strict : bool) : Args :=
  {| arg_coverage := "coverage.json";
     arg_semgrep := "semgrep-results.json";
     arg_src := ".";
     arg_threshold := None;
     arg_output := None;
     arg_score_output := None;
     arg_badge_output := None;
     arg_fail_on_threshold := strict;
     arg_config := None;
     arg_js_complexity := None;
     arg_languages := "python";
     arg_complexity_excellent := None;
     arg_complexity_acceptable := None;
     arg_complexity_poor := None;
     arg_coverage_excellent := None;
     arg_coverage_acceptable := None;
     arg_coverage_poor := None;
     arg_antipattern_excellent := None;
     arg_antipattern_acceptable := None;
     arg_antipattern_poor := None |}.

Definition no_args : Args := args_with false.

(** A breakdown whose total is 70. *)
Definition at_threshold : ScoreBreakdown :=
  {| complexity_score := 30;
     coverage_score := 25;
     antipattern_score := 15;
     complexity_detail := "";
     coverage_detail := "";
     antipattern_detail := "";
     warnings := [];
     languages := ["python"] |}.

(** A checkout with no config file, an empty findings file, and the two
    other extractors reporting complexity 4 and coverage 95. *)
Definition clean_env : Env :=
  {| env_cwd := "/repo";
     env_toml := fun _ => Missing;
     env_json := fun _ => Parsed (JObj {[ "results" := JArr [] ]});
     env_tree := fun _ => [];
     measure_complexity := fun _ _ => Ok (4, "avg 4.0", []);
     measure_coverage := fun _ => Ok (95, "95.0%") |}.

(** Builtins for the samples, which call none of them on a string, a
    float or a container. *)
(** One finding, as semgrep reports it. *)
Definition finding (line : Z) (msg : string) : json :=
  JObj (list_to_map
    [("path", JStr "src/main.py");
     ("start", JObj {[ "line" := JInt line ]});
     ("extra", JObj {[ "message" := JStr msg ]});
     ("check_id", JStr "test-rule")]).

(** A findings file with [n] findings. *)
Definition findings_file (n : nat) : file json :=
  Parsed (JObj (list_to_map
    [("results", JArr (map (fun i => finding (Z.of_nat i) "bad pattern")
                           (seq 0 n)));
     ("errors", JArr [])])).

(** [n] source lines. *)
Definition source_text (n : nat) : string :=
  join (String newline "") (map (fun i => "x = " +:+ pretty i) (seq 0 n)).

(** A source tree of 100 lines, beside a test directory, a script
    directory and a text file that do not count. *)
Definition hundred_line_tree : list entry :=
  [ {| rel_parts := ["src"; "main.py"];
       read_text := Some (source_text 100) |};
    {| rel_parts := ["tests"; "test_main.py"];
       read_text := Some (source_text 40) |};
    {| rel_parts := ["scripts"; "tool.py"];
       read_text := Some (source_text 7) |};
    {| rel_parts := ["README.txt"]; read_text := Some (source_text 3) |} ].

(** The pyproject.toml
    [[tool.ai-gate]]
    [complexity = 10]
    decoded, and a file system that holds it. *)
Definition scalar_section : gmap string toml :=
  {[ "tool" := TTable {[ "ai-gate" := TTable {[ "complexity" := TInt 10 ]} ]} ]}.

Definition scalar_section_fs (path : string) : file (gmap string toml) :=
  if String.eqb path "pyproject.toml" then Parsed scalar_section
  else Missing.





(** A store whose clock stepped back: a run of 60 recorded on the 2nd,
    then a run of 85 recorded on the 1st. *)
Definition stepped_back : ScoreStore.Table * Z :=
  Spec.record
    (fst (Spec.record [] "2026-01-02T09:00:00+00:00" 60 "org/repo"))
    "2026-01-01T09:00:00+00:00" 85 "org/repo".

Definition no_int : string -> result Z := fun _ => Raise ValueError.
Definition no_float : string -> result Q := fun _ => Raise ValueError.
Definition no_str_float : Q -> string := fun _ => "".
Definition no_str_container : json -> string := fun _ => "".

End Sample.

(** ** Notions used by the further properties *)

Module Laws.

Import Score.

(** The rank of a badge color, from failing to brightest. *)
Definition tier (color : string) : nat :=
  if String.eqb color "brightgreen" then 3
  else if String.eqb color "green" then 2
  else if String.eqb color "yellow" then 1
  else 0.

(** The badge message of a score, with its pass or fail glyph. *)
Definition pass_message (score : Q) : string :=
  format_fixed 0 score +:+ "/100 ✓".
Definition fail_message (score : Q) : string :=
  format_fixed 0 score +:+ "/100 ✗".

(** The keys an override set can hold. *)
Definition override_keys : list string :=
  [ "threshold";
    "complexity_excellent"; "complexity_acceptable"; "complexity_poor";
    "coverage_excellent"; "coverage_acceptable"; "coverage_poor";
    "antipattern_excellent"; "antipattern_acceptable"; "antipattern_poor" ].

(** The overrides a set may hold: known keys, an int under "threshold"
    and a float under the others. *)
Definition known (cfg : gmap string num) : Prop :=
  forall k v,
    cfg !! k = Some v ->
    k ∈ override_keys /\
    ((k = "threshold" /\ exists n, v = Int n) \/
     (k <> "threshold" /\ exists x, v = Float x)).

(** The sections of the gate table, each with the prefix of its override
    keys, and the keys of a section. *)
Definition sections : list (string * string) :=
  [("complexity", "complexity"); ("coverage", "coverage");
   ("antipatterns", "antipattern")].
Definition section_keys : list string := ["excellent"; "acceptable"; "poor"].

(** The override key of a section's key. *)
Definition override_key (prefix key : string) : string :=
  prefix +:+ "_" +:+ key.

(** Two tables hold the same under the keys [keys]. *)
Definition same_under (keys : list string) (m m' : gmap string toml) : Prop :=
  forall k, k ∈ keys -> m !! k = m' !! k.

(** Two gate tables say the same where the loader looks: the threshold,
    and each section, whole or, for two tables, under the three keys. *)
Definition same_settings (g g' : gmap string toml) : Prop :=
  g !! "threshold" = g' !! "threshold" /\
  forall section prefix,
    (section, prefix) ∈ sections ->
    g !! section = g' !! section \/
    exists s s',
      g !! section = Some (TTable s) /\ g' !! section = Some (TTable s') /\
      same_under section_keys s s'.

(** A pyproject.toml, decoded, with the gate table [g], and a file
    system that holds one decoded file. *)
Definition pyproject (g : gmap string toml) : gmap string toml :=
  {[ "tool" := TTable {[ "ai-gate" := TTable g ]} ]}.

Definition one_file {A : Type} (path : string) (content : A)
    (p : string) : file A :=
  if String.eqb p path then Parsed content else Missing.

(** A gate table with a threshold and two coverage thresholds, and the
    same with entries the loader does not know. *)
Definition gate_sample : gmap string toml :=
  {[ "threshold" := TInt 80;
     "coverage" := TTable {[ "excellent" := TInt 95;
                             "poor" := TFloat 50.5 ]} ]}.

Definition gate_sample_noisy : gmap string toml :=
  {[ "threshold" := TInt 80;
     "verbose" := TBool true;
     "coverage" := TTable {[ "excellent" := TInt 95;
                             "poor" := TFloat 50.5;
                             "unit" := TStr "percent" ]} ]}.

(** An entry that [rglob("*.py")] yields. *)
Definition is_python (p : entry) : bool :=
  match last (rel_parts p) with
  | Some name => endswith name ".py"
  | None => false
  end.

(** The source lines an entry adds to the count: those of a readable
    Python file outside the excluded top-level directories. *)
Definition source_lines_of (p : entry) : Z :=
  if is_python p && negb (excluded p) then
    match read_text p with
    | Some text => count_lines text
    | None => 0%Z
    end
  else 0%Z.

Definition source_lines (tree : list entry) : Z :=
  fold_right Z.add 0%Z (map source_lines_of tree).

(** A findings file with the findings [l]. *)
Definition findings (l : list json) : file json :=
  Parsed (JObj {[ "results" := JArr l ]}).

(** Eleven findings, and the same with the eleventh not even an
    object. *)
Definition eleven_findings : list json :=
  map (fun i => Sample.finding (Z.of_nat i) "bad pattern") (seq 0 11).
Definition ten_findings_and_null : list json :=
  map (fun i => Sample.finding (Z.of_nat i) "bad pattern") (seq 0 10) ++
  [JNull].

(** A Python file in a directory named like a noise directory, but
    below the top level. *)
Definition nested_tests_file : entry :=
  {| rel_parts := ["src"; "tests"; "helpers.py"];
     read_text := Some (Sample.source_text 5) |}.

(** The stores that calls of [record_run] build, from the empty one. *)
Inductive recorded : ScoreStore.Table -> Prop :=
| recorded_empty : recorded []
| recorded_run db now score repo_ branch_ pr_ sha_ thr cs cov ap :
    recorded db ->
    recorded (fst (ScoreStore.record_run db now score repo_ branch_ pr_
                     sha_ thr cs cov ap)).

(** The runs of a repository, or of one of its branches, that
    [query_latest] chooses from. *)
Definition candidates (repo_ : string) (branch_ : option string)
    (db : ScoreStore.Table) : list ScoreStore.Row :=
  match given branch_ with
  | Some b =>
      List.filter (fun r => String.eqb (ScoreStore.repo r) repo_ &&
                            String.eqb (ScoreStore.branch r) b) db
  | None => Spec.rows_of repo_ db
  end.

(** The runs of a list that passed. *)
Definition passing (l : list ScoreStore.Row) : list ScoreStore.Row :=
  List.filter (fun r => Py.ge (ScoreStore.score r) (ScoreStore.threshold r))
    l.

(** The store after two runs of one repository and one of another. *)
Definition three_runs : ScoreStore.Table :=
  let db1 := fst (ScoreStore.record_run [] "2026-01-01T09:00:00+00:00" 60
                    "org/repo" "main" None "abc" 70 None None None) in
  let db2 := fst (ScoreStore.record_run db1 "2026-01-02T09:00:00+00:00" 85
                    "org/repo" "dev" (Some 7%Z) "def" 70 None None None) in
  fst (ScoreStore.record_run db2 "2026-01-03T09:00:00+00:00" 90
         "org/other" "main" None "123" 70 None None None).

(** *** The complexity and coverage extractors *)

(** [float(s)] on a string raises nothing but [ValueError]. *)
Definition float_like (float_of_str : string -> result Q) : Prop :=
  forall s e, float_of_str s = Raise e -> e = ValueError.

(** The lines of the analyzer's output that the extractor walks. *)
Definition analyzer_lines (stdout : string) : list string :=
  List.filter (fun ln => negb (String.eqb ln ""))
    (splitlines (strip stdout)).

(** The complexity a line carries: its third field, for a line of three
    fields or more whose third field reads as a number. *)
Definition complexity_of (float_of_str : string -> result Q) (line : string)
    : option Q :=
  let parts := split line "," in
  if (length parts <? 3)%nat then None
  else
    match float_of_str (nth 2 parts "") with
    | Ok cc => Some cc
    | Raise _ => None
    end.

(** The complexities a run of the analyzer yields: none unless it
    completes with the return code 0 or 1. *)
Definition complexities_of (float_of_str : string -> result Q)
    (run : Signals.lizard_run) : list Q :=
  match run with
  | Signals.Completed returncode stdout _ =>
      if (returncode =? 0)%Z || (returncode =? 1)%Z then
        omap (complexity_of float_of_str) (analyzer_lines stdout)
      else []
  | _ => []
  end.

(** The complexities above 20. *)
Definition very_high (l : list Q) : list Q :=
  List.filter (fun c => Py.gt c 20) l.






(** The paths of the files [main] is asked to write, in the order it
    writes them. *)
Definition requested (args : Args) : list string :=
  omap given [arg_output args; arg_score_output args;
              arg_badge_output args].

(** [float(s)] for a string of digits, spaces around them allowed. *)
Fixpoint digits_value (s : string) (acc : Z) : option Z :=
  match s with
  | EmptyString => Some acc
  | String c s' =>
      let n := nat_of_ascii c in
      if (48 <=? n)%nat && (n <=? 57)%nat then
        digits_value s' (10 * acc + Z.of_nat (n - 48))%Z
      else None
  end.

Definition float_of_digits (s : string) : result Q :=
  match strip s with
  | EmptyString => Raise ValueError
  | t =>
      match digits_value t 0 with
      | Some n => Ok (inject_Z n)
      | None => Raise ValueError
      end
  end.

Definition no_float_error : string -> string := fun _ => "".

(** The output of the analyzer for two functions, under a header line,
    and a run that prints it. *)
Definition two_functions_csv : string :=
  "nloc,name,ccn" +:+ String newline
  ("12,parse,25" +:+ String newline "3,load,4").

Definition two_functions : Signals.lizard_run :=
  Signals.Completed 0 two_functions_csv "".


(** A JS/TS report with an average, as the only file. *)
Definition js_report : string -> file json :=
  one_file "js.json"
    (JObj {[ "avg_complexity" := JFloat 6.5; "worst_complexity" := JInt 9;
             "function_count" := JInt 4 ]}).

(** A coverage report with both percentages, one with the display
    percentage only, and one with a null percentage. *)
Definition coverage_totals : gmap string json :=
  {[ "percent_covered" := JFloat 87.5;
     "percent_covered_display" := JStr "88" ]}.
Definition coverage_report : gmap string json :=
  {[ "totals" := JObj coverage_totals ]}.
Definition coverage_display : gmap string json :=
  {[ "percent_covered_display" := JStr "88" ]}.
Definition coverage_display_only : gmap string json :=
  {[ "totals" := JObj coverage_display ]}.

(** The command line that asks for the files [output], [score] and
    [badge], and gives no other option. *)
Definition args_writing (output score badge : option string) : Args :=
  {| arg_coverage := "coverage.json";
     arg_semgrep := "semgrep-results.json";
     arg_src := ".";
     arg_threshold := None;
     arg_output := output;
     arg_score_output := score;
     arg_badge_output := badge;
     arg_fail_on_threshold := false;
     arg_config := None;
     arg_js_complexity := None;
     arg_languages := "python";
     arg_complexity_excellent := None;
     arg_complexity_acceptable := None;
     arg_complexity_poor := None;
     arg_coverage_excellent := None;
     arg_coverage_acceptable := None;
     arg_coverage_poor := None;
     arg_antipattern_excellent := None;
     arg_antipattern_acceptable := None;
     arg_antipattern_poor := None |}.


End Laws.

(** ** Properties of scripts/score.py *)

Module ScoreProps.

Import Score Spec.

Lemma ge_true a b : Py.ge a b = true <-> b <= a.
Proof. unfold Py.ge. apply Qle_bool_iff. Qed.

Lemma ge_false a b : Py.ge a b = false <-> a < b.
Proof.
  unfold Py.ge. split; intros H.
  - apply Qnot_le_lt. intros Hle. apply Qle_bool_iff in Hle. congruence.
  - destruct (Qle_bool b a) eqn:E; [|reflexivity].
    apply Qle_bool_iff in E. exfalso. exact (Qlt_not_le _ _ H E).
Qed.

Lemma lt_true a b : Py.lt a b = true <-> a < b.
Proof.
  unfold Py.lt. rewrite negb_true_iff. apply (ge_false a b).
Qed.

Lemma div_nonzero a b : ~ b == 0 -> Py.div a b = Ok (a / b).
Proof.
  intros H. unfold Py.div. destruct (Qeq_bool b 0) eqn:E; [|reflexivity].
  apply Qeq_bool_iff in E. contradiction.
Qed.

(** Cases on the tests of [lerp_score], as order facts. *)
Ltac ge_cases :=
  repeat match goal with
  | |- context [Py.ge ?a ?b] =>
      let E := fresh "E" in
      destruct (Py.ge a b) eqn:E;
      [apply ge_true in E | apply ge_false in E]
  end.

(** Cases on a statement that can raise, in a run that returns. *)
Ltac step H :=
  match type of H with
  | (mbind _ ?r = Ok _) =>
      let E := fresh "E" in
      destruct r as [?|?] eqn:E; [|discriminate H];
      cbn [mbind result_bind Py.bind] in H
  end.

Lemma json_get_ok v k default x :
  json_get v k default = Ok x ->
  exists d, v = JObj d /\ x = default_or (d !! k) default.
Proof.
  destruct v; try discriminate. cbn. intros [= <-]. eauto.
Qed.

(** [lerp_score] is what its branch says. *)
Lemma lerp_score_by_branch v e a p m inv :
  lerp_score v e a p m inv =
  match lerp_branch v e a p inv with
  | Full => Ok m
  | UpperHalf =>
      frac ← Py.div (orient inv v - orient inv a)
                    (orient inv e - orient inv a);
      Ok (m * 0.5 + m * 0.5 * frac)
  | LowerHalf =>
      frac ← Py.div (orient inv v - orient inv p)
                    (orient inv a - orient inv p);
      Ok (m * 0.5 * frac)
  | Zero => Ok 0.0
  end.
Proof.
  unfold lerp_score, lerp_branch, orient.
  destruct inv; ge_cases; reflexivity.
Qed.

Lemma lerp_branch_orient v e a p inv :
  lerp_branch v e a p inv =
  lerp_branch (orient inv v) (orient inv e) (orient inv a) (orient inv p)
              false.
Proof. destruct inv; reflexivity. Qed.

Lemma branch_upper v e a p :
  lerp_branch v e a p false = UpperHalf <-> a <= v < e.
Proof.
  unfold lerp_branch. ge_cases; split; try discriminate; intros H;
    try reflexivity; try (split; assumption); destruct H as [H1 H2];
    exfalso.
  - exact (Qlt_not_le _ _ H2 E).
  - exact (Qlt_not_le _ _ E0 H1).
  - exact (Qlt_not_le _ _ E0 H1).
Qed.

Lemma branch_lower v e a p :
  lerp_branch v e a p false = LowerHalf <-> (p <= v < a /\ v < e).
Proof.
  unfold lerp_branch. ge_cases; split; try discriminate; intros H;
    try reflexivity; try (repeat split; assumption);
    destruct H as [[H1 H2] H3]; exfalso.
  - exact (Qlt_not_le _ _ H3 E).
  - exact (Qlt_not_le _ _ H2 E0).
  - exact (Qlt_not_le _ _ E1 H1).
Qed.

Lemma curve_of_lerp_score v e a p m :
  p < a -> a < e ->
  exists r, lerp_score v e a p m false = Ok r /\ curve v e a p m r.
Proof.
  intros Hpa Hae. rewrite lerp_score_by_branch. unfold lerp_branch, orient.
  ge_cases.
  - exists m. split; [reflexivity|].
    repeat split; intros; try reflexivity; exfalso; lra.
  - rewrite div_nonzero by lra. eexists. split; [reflexivity|].
    repeat split; intros; try (exfalso; lra). field. lra.
  - rewrite div_nonzero by lra. eexists. split; [reflexivity|].
    repeat split; intros; try (exfalso; lra). field. lra.
  - exists 0.0. split; [reflexivity|].
    repeat split; intros; try reflexivity; exfalso; lra.
Qed.

Lemma lerp_score_invert v e a p m :
  lerp_score v e a p m true = lerp_score (- v) (- e) (- a) (- p) m false.
Proof. reflexivity. Qed.

(** C1.  [lerp_score] computes the piecewise-linear curve of the
    specification.  With [invert] set it is the "higher is better" logic
    on the negated value and thresholds.  For thresholds ordered
    excellent > acceptable > poor after orientation, it returns
    [max_pts] from excellent on, the upper linear half between acceptable
    and excellent, the lower linear half between poor and acceptable, and
    0 below poor.  The six values of the specification follow: 35, 17.5
    and 0 for coverage at 90, 70 and 40 with 35 points, and 40, 20 and 0
    for an inverted signal at 5, 10 and 20 with 40 points. *)
Theorem lerp_score_curve :
  (forall v e a p m,
     lerp_score v e a p m true =
     lerp_score (- v) (- e) (- a) (- p) m false) /\
  (forall v e a p m inv,
     orient inv p < orient inv a -> orient inv a < orient inv e ->
     exists r,
       lerp_score v e a p m inv = Ok r /\
       curve (orient inv v) (orient inv e) (orient inv a) (orient inv p)
             m r) /\
  returns (lerp_score 90 90 70 40 35 false) 35 /\
  returns (lerp_score 70 90 70 40 35 false) 17.5 /\
  returns (lerp_score 40 90 70 40 35 false) 0 /\
  returns (lerp_score 5 5 10 20 40 true) 40 /\
  returns (lerp_score 10 5 10 20 40 true) 20 /\
  returns (lerp_score 20 5 10 20 40 true) 0.
Proof.
  split; [exact lerp_score_invert|].
  split.
  - intros v e a p m inv Hpa Hae.
    destruct inv; [rewrite lerp_score_invert|];
      apply curve_of_lerp_score; assumption.
  - repeat split; eexists; (split; [vm_compute; reflexivity|]);
      vm_compute; reflexivity.
Qed.

(** The curve on the default coverage thresholds, at 80 percent. *)
Lemma lerp_score_curve_witness :
  orient false 40 < orient false 70 /\ orient false 70 < orient false 90 /\
  exists r, lerp_score 80 90 70 40 35 false = Ok r /\
            curve (orient false 80) (orient false 90) (orient false 70)
                  (orient false 40) 35 r.
Proof.
  assert (H1 : orient false 40 < orient false 70) by reflexivity.
  assert (H2 : orient false 70 < orient false 90) by reflexivity.
  split; [exact H1|]. split; [exact H2|].
  exact (proj1 (proj2 lerp_score_curve) 80 90 70 40 35 false H1 H2).
Defined.

(** C10.  [lerp_score] is total and never divides by zero, degenerate
    thresholds included.  It divides by (excellent - acceptable) only
    for acceptable <= value < excellent, and by (acceptable - poor) only
    for poor <= value < acceptable; a divisor is then positive.  On a
    zero-width interval the value at the boundary gets the result of the
    higher branch: [max_pts] at value = excellent = acceptable, and half
    of [max_pts] at value = acceptable = poor below excellent. *)
Theorem lerp_score_total :
  forall v e a p m inv,
    let v' := orient inv v in
    let e' := orient inv e in
    let a' := orient inv a in
    let p' := orient inv p in
    (exists r, lerp_score v e a p m inv = Ok r) /\
    (lerp_branch v e a p inv = UpperHalf ->
       (a' <= v' < e') /\ 0 < e' - a' /\
       lerp_score v e a p m inv =
         Ok (m * 0.5 + m * 0.5 * ((v' - a') / (e' - a')))) /\
    (lerp_branch v e a p inv = LowerHalf ->
       (p' <= v' < a') /\ 0 < a' - p' /\
       lerp_score v e a p m inv = Ok (m * 0.5 * ((v' - p') / (a' - p')))) /\
    (e' == a' -> lerp_branch v e a p inv <> UpperHalf) /\
    (a' == p' -> lerp_branch v e a p inv <> LowerHalf) /\
    (e' == a' -> v' == e' -> lerp_score v e a p m inv = Ok m) /\
    (a' == p' -> v' == a' -> v' < e' ->
       returns (lerp_score v e a p m inv) (m * 0.5)).
Proof.
  intros v e a p m inv v' e' a' p'.
  assert (Hup : lerp_branch v e a p inv = UpperHalf ->
            (a' <= v' < e') /\ 0 < e' - a' /\
            lerp_score v e a p m inv =
              Ok (m * 0.5 + m * 0.5 * ((v' - a') / (e' - a')))).
  { intros Hb. rewrite lerp_score_by_branch, Hb.
    rewrite lerp_branch_orient in Hb. apply branch_upper in Hb.
    fold v' e' a' p' in Hb |- *. split; [exact Hb|].
    split; [lra|]. rewrite div_nonzero by lra. reflexivity. }
  assert (Hlo : lerp_branch v e a p inv = LowerHalf ->
            (p' <= v' < a') /\ 0 < a' - p' /\
            lerp_score v e a p m inv =
              Ok (m * 0.5 * ((v' - p') / (a' - p')))).
  { intros Hb. rewrite lerp_score_by_branch, Hb.
    rewrite lerp_branch_orient in Hb. apply branch_lower in Hb.
    fold v' e' a' p' in Hb |- *. destruct Hb as [Hb _]. split; [exact Hb|].
    split; [lra|]. rewrite div_nonzero by lra. reflexivity. }
  split; [|split; [exact Hup|split; [exact Hlo|]]].
  - destruct (lerp_branch v e a p inv) eqn:Hb.
    + rewrite lerp_score_by_branch, Hb. eauto.
    + destruct (Hup eq_refl) as (_ & _ & ->). eauto.
    + destruct (Hlo eq_refl) as (_ & _ & ->). eauto.
    + rewrite lerp_score_by_branch, Hb. eauto.
  - split; [|split; [|split]].
    + intros Heq Hb. destruct (Hup Hb) as (_ & Hpos & _). lra.
    + intros Heq Hb. destruct (Hlo Hb) as (_ & Hpos & _). lra.
    + intros Hea Hve. rewrite lerp_score_by_branch, lerp_branch_orient.
      fold v' e' a' p'. unfold lerp_branch.
      assert (E : Py.ge v' e' = true) by (apply ge_true; lra).
      rewrite E. reflexivity.
    + intros Hap Hva Hve.
      assert (Hb : lerp_branch v e a p inv = UpperHalf).
      { rewrite lerp_branch_orient. apply branch_upper.
        fold v' e' a'. lra. }
      destruct (Hup Hb) as (_ & Hpos & ->).
      eexists. split; [reflexivity|].
      assert (Hz : v' - a' == 0) by lra.
      rewrite Hz. field. lra.
Qed.

(** The step at excellent = acceptable = 70, for coverage at 70. *)
Lemma lerp_score_total_witness :
  Spec.orient false 90 == Spec.orient false 90 /\
  lerp_score 70 70 70 40 35 false = Ok 35 /\
  Spec.returns (lerp_score 40 90 40 40 35 false) (35 * 0.5).
Proof.
  split; [reflexivity|]. split.
  - exact (proj1 (proj2 (proj2 (proj2 (proj2 (proj2
             (lerp_score_total 70 70 70 40 35 false))))))
             (Qeq_refl 70) (Qeq_refl 70)).
  - exact (proj2 (proj2 (proj2 (proj2 (proj2 (proj2
             (lerp_score_total 40 90 40 40 35 false))))))
             (Qeq_refl 40) (Qeq_refl 40) eq_refl).
Defined.

(** *** The gate and the exit code *)

Section Gate.

Variable int_of_str : string -> result Z.
Variable float_of_str : string -> result Q.
Variable str_float : Q -> string.
Variable str_container : json -> string.

Lemma build_report_first_line b thr :
  exists rest,
    build_report str_float b thr =
    (if Py.ge (total b) (to_Q thr)
     then "## ✅ AI Code Quality Gate — PASSED"
     else "## ❌ AI Code Quality Gate — BLOCKED") +:+ String newline rest.
Proof.
  unfold build_report.
  destruct (Py.ge (total b) (to_Q thr)); destruct (warnings b);
    eexists; cbn [negb app join String.append]; reflexivity.
Qed.

Lemma main_finish_exit args b thr :
  out_exit (main_finish str_float args b thr) =
  if arg_fail_on_threshold args && Py.lt (total b) (to_Q thr) then 1%Z
  else 0%Z.
Proof.
  unfold main_finish.
  destruct (given (arg_output args)), (given (arg_score_output args)),
    (given (arg_badge_output args)); reflexivity.
Qed.

(** C2.  The gate passes exactly when the total is at least the
    threshold, a total equal to the threshold included: the report is
    headed PASSED then, and BLOCKED exactly when the total is below.  The
    process exits with 1 exactly when [--fail-on-threshold] is set and the
    total is strictly below the threshold, and with 0 in every other
    case. *)
Theorem gate_passes_iff :
  forall (b : ScoreBreakdown) (thr : num) (args : Args),
    let report := build_report str_float b thr in
    let code := out_exit (main_finish str_float args b thr) in
    (report_passed report = true <-> to_Q thr <= total b) /\
    (report_blocked report = true <-> total b < to_Q thr) /\
    (total b == to_Q thr -> report_passed report = true) /\
    (code = 1%Z <->
       arg_fail_on_threshold args = true /\ total b < to_Q thr) /\
    (~ (arg_fail_on_threshold args = true /\ total b < to_Q thr) ->
       code = 0%Z).
Proof.
  intros b thr args report code.
  destruct (build_report_first_line b thr) as [rest Hrep].
  fold report in Hrep.
  assert (Hexit := main_finish_exit args b thr). fold code in Hexit.
  assert (Hp : report_passed report = true <-> to_Q thr <= total b).
  { rewrite Hrep. destruct (Py.ge (total b) (to_Q thr)) eqn:E.
    - apply ge_true in E. split; [intros _; exact E|intros _; reflexivity].
    - apply ge_false in E. split; [discriminate|].
      intros H. exfalso. exact (Qlt_not_le _ _ E H). }
  split; [exact Hp|]. split; [|split; [|split]].
  - rewrite Hrep. destruct (Py.ge (total b) (to_Q thr)) eqn:E.
    + apply ge_true in E. split; [discriminate|].
      intros H. exfalso. exact (Qlt_not_le _ _ H E).
    + apply ge_false in E. split; [intros _; exact E|intros _; reflexivity].
  - intros Heq. apply Hp. rewrite Heq. apply Qle_refl.
  - rewrite Hexit. destruct (arg_fail_on_threshold args); cbn [andb].
    + destruct (Py.lt (total b) (to_Q thr)) eqn:E.
      * apply lt_true in E. split; [intros _; split; [reflexivity|exact E]|].
        intros _. reflexivity.
      * split; [discriminate|]. intros [_ H]. apply lt_true in H. congruence.
    + split; [discriminate|]. intros [H _]. discriminate.
  - intros Hn. rewrite Hexit.
    destruct (arg_fail_on_threshold args); cbn [andb]; [|reflexivity].
    destruct (Py.lt (total b) (to_Q thr)) eqn:E; [|reflexivity].
    apply lt_true in E. exfalso. apply Hn. split; [reflexivity|exact E].
Qed.

End Gate.

(** A total of 70 against the threshold 70, with [--fail-on-threshold]. *)
Lemma gate_passes_iff_witness :
  total Sample.at_threshold == to_Q (Int 70) /\
  report_passed (build_report Sample.no_str_float Sample.at_threshold
                   (Int 70)) = true /\
  out_exit (main_finish Sample.no_str_float (Sample.args_with true)
              Sample.at_threshold (Int 70)) = 0%Z.
Proof.
  assert (H : total Sample.at_threshold == to_Q (Int 70)) by reflexivity.
  pose proof (gate_passes_iff Sample.no_str_float Sample.at_threshold
                (Int 70) (Sample.args_with true)) as (_ & _ & H1 & _ & H2).
  split; [exact H|]. split; [exact (H1 H)|].
  apply H2. intros [_ Hlt]. rewrite H in Hlt.
  exact (Qlt_irrefl _ Hlt).
Defined.

(** *** Threshold resolution *)

Section Resolution.

Variable int_of_str : string -> result Z.
Variable float_of_str : string -> result Q.
Variable str_float : Q -> string.
Variable str_container : json -> string.


(** What [main] scores: each signal against its effective thresholds,
    complexity and anti-pattern density inverted. *)
Lemma main_breakdown_scores env args t b :
  main_breakdown str_float str_container env args t = Ok b ->
  exists avg_cc cc_detail cc_warnings pct cov_detail density ap_detail
         ap_warnings,
    measure_complexity env (arg_src args) (arg_js_complexity args) =
      Ok (avg_cc, cc_detail, cc_warnings) /\
    measure_coverage env (arg_coverage args) = Ok (pct, cov_detail) /\
    measure_antipatterns str_float str_container
      (env_json env (arg_semgrep args)) (env_tree env (arg_src args)) =
      Ok (density, ap_detail, ap_warnings) /\
    lerp_score avg_cc (cx_exc t) (cx_acc t) (cx_poor t) 40 true =
      Ok (complexity_score b) /\
    lerp_score pct (cov_exc t) (cov_acc t) (cov_poor t) 35 false =
      Ok (coverage_score b) /\
    lerp_score density (ap_exc t) (ap_acc t) (ap_poor t) 25 true =
      Ok (antipattern_score b).
Proof.
  unfold main_breakdown. intros H.
  step H. destruct a as [[avg_cc cc_detail] cc_warnings].
  step H. step H. destruct a0 as [pct cov_detail].
  step H. step H. destruct a1 as [[density ap_detail] ap_warnings].
  step H. injection H as <-.
  exists avg_cc, cc_detail, cc_warnings, pct, cov_detail, density, ap_detail,
    ap_warnings.
  cbn [complexity_score coverage_score antipattern_score].
  repeat split; assumption.
Qed.

End Resolution.

(** *** Anti-pattern density *)

Section Antipatterns.

Variable str_float : Q -> string.
Variable str_container : json -> string.

Lemma count_loc_floor tree : (1 <= _count_loc tree)%Z.
Proof. unfold _count_loc. apply Z.le_max_r. Qed.

Lemma div_by_loc n tree :
  Py.div (inject_Z n) (inject_Z (_count_loc tree)) =
  Ok (inject_Z n / inject_Z (_count_loc tree)).
Proof.
  apply div_nonzero. intros H.
  assert (Hloc := count_loc_floor tree).
  assert (H1 : 1 <= inject_Z (_count_loc tree)).
  { rewrite <- (Zle_Qle 1). exact Hloc. }
  lra.
Qed.

Lemma finding_warning_raises r e :
  finding_warning str_float str_container r = Raise e -> e = AttributeError.
Proof.
  unfold finding_warning. intros H.
  repeat match type of H with
  | (mbind _ ?x = Raise _) =>
      let E := fresh "E" in
      destruct x as [?|?] eqn:E; cbn [mbind result_bind Py.bind] in H;
      [|injection H as <-;
        match type of E with
        | json_get ?v _ _ = _ => destruct v; cbn in E; congruence
        end]
  end.
  destruct a4; congruence.
Qed.

Lemma for_each_raises {A B} (f : A -> result B) l e :
  Py.for_each f l = Raise e -> exists x, x ∈ l /\ f x = Raise e.
Proof.
  induction l as [|x l IH]; cbn; [discriminate|].
  destruct (f x) eqn:Ex.
  - destruct (Py.for_each f l) eqn:El; [discriminate|].
    intros [= <-]. destruct (IH eq_refl) as (y & Hy & Hfy).
    exists y. split; [apply elem_of_cons; right; exact Hy|exact Hfy].
  - intros [= <-]. exists x. split; [apply elem_of_cons; left; reflexivity|exact Ex].
Qed.

Lemma for_each_ok {A B} (f : A -> result B) l ys :
  Py.for_each f l = Ok ys -> Forall2 (fun x y => f x = Ok y) l ys.
Proof.
  revert ys. induction l as [|x l IH]; cbn; intros ys.
  - intros [= <-]. constructor.
  - destruct (f x) eqn:Ex; [|discriminate].
    destruct (Py.for_each f l) eqn:El; [|discriminate].
    intros [= <-]. constructor; [exact Ex|]. apply IH. reflexivity.
Qed.

(** What [measure_antipatterns] returns for a decoded findings file. *)
Lemma measure_antipatterns_parsed data tree density detail ws :
  measure_antipatterns str_float str_container (Parsed data) tree =
    Ok (density, detail, ws) ->
  exists results n first individual,
    json_get data "results" (JArr []) = Ok results /\
    json_len results = Ok n /\
    density = inject_Z n / inject_Z (_count_loc tree) * 100 /\
    json_slice_to 10 results = Ok first /\
    Py.for_each (finding_warning str_float str_container) first =
      Ok individual /\
    ws = individual ++ (if (10 <? n)%Z then [rollup (n - 10)] else []).
Proof.
  unfold measure_antipatterns. intros H.
  destruct (json_get data "results" (JArr [])) as [results|] eqn:E1;
    cbn [mbind result_bind Py.bind] in H; [|discriminate].
  destruct (json_len results) as [n|] eqn:E2;
    cbn [mbind result_bind Py.bind] in H; [|discriminate].
  assert (Hloc := count_loc_floor tree).
  destruct (0 <? _count_loc tree)%Z eqn:E3;
    [|apply Z.ltb_ge in E3; lia].
  rewrite div_by_loc in H. cbn [mbind result_bind Py.bind] in H.
  destruct (json_slice_to 10 results) as [first|] eqn:E4;
    cbn [mbind result_bind Py.bind] in H; [|discriminate].
  destruct (Py.for_each _ first) as [individual|] eqn:E5;
    cbn [mbind result_bind Py.bind] in H; [|discriminate].
  injection H as <- _ <-.
  exists results, n, first, individual.
  repeat split; try assumption; try reflexivity.
  unfold rollup. destruct (10 <? n)%Z; [reflexivity|].
  symmetry. apply app_nil_r.
Qed.

(** C5.  The line count is at least 1, so the density division never
    divides by zero: the extractor raises no [ZeroDivisionError] on any
    findings file and source tree.  For a decoded findings file the
    density it returns is findings / LOC x 100.  Two findings over a
    100-line source tree, noise directories left out, give density 2.0
    and two warnings. *)
Theorem antipattern_density :
  (forall tree, (1 <= _count_loc tree)%Z) /\
  (forall semgrep_json tree,
     measure_antipatterns str_float str_container semgrep_json tree <>
     Raise ZeroDivisionError) /\
  (forall data tree density detail ws,
     measure_antipatterns str_float str_container (Parsed data) tree =
       Ok (density, detail, ws) ->
     exists results n,
       json_get data "results" (JArr []) = Ok results /\
       json_len results = Ok n /\
       density == inject_Z n / inject_Z (_count_loc tree) * 100) /\
  (_count_loc Sample.hundred_line_tree = 100%Z /\
   exists density detail ws,
     measure_antipatterns str_float str_container (Sample.findings_file 2)
       Sample.hundred_line_tree = Ok (density, detail, ws) /\
     density == 2 /\ length ws = 2%nat).
Proof.
  split; [exact count_loc_floor|]. split; [|split].
  - intros f tree H. destruct f as [| |err|err|data]; try discriminate H.
    unfold measure_antipatterns in H.
    destruct (json_get data "results" (JArr [])) as [results|] eqn:E1;
      cbn [mbind result_bind Py.bind] in H;
      [|destruct data; cbn in E1; congruence].
    destruct (json_len results) as [n|] eqn:E2;
      cbn [mbind result_bind Py.bind] in H;
      [|destruct results; cbn in E2; congruence].
    assert (Hloc := count_loc_floor tree).
    destruct (0 <? _count_loc tree)%Z eqn:E3;
      [|apply Z.ltb_ge in E3; lia].
    rewrite div_by_loc in H. cbn [mbind result_bind Py.bind] in H.
    destruct (json_slice_to 10 results) as [first|] eqn:E4;
      cbn [mbind result_bind Py.bind] in H;
      [|destruct results; cbn in E4; congruence].
    destruct (Py.for_each _ first) as [individual|] eqn:E5;
      cbn [mbind result_bind Py.bind] in H; [discriminate|].
    injection H as ->.
    apply for_each_raises in E5. destruct E5 as (r & _ & Hr).
    apply finding_warning_raises in Hr. discriminate.
  - intros data tree density detail ws H.
    destruct (measure_antipatterns_parsed _ _ _ _ _ H)
      as (results & n & first & individual & H1 & H2 & -> & _).
    exists results, n. repeat split; try assumption; try reflexivity.
  - split; [vm_compute; reflexivity|].
    do 3 eexists. split; [vm_compute; reflexivity|].
    split; reflexivity.
Qed.

End Antipatterns.

(** The two findings over the 100-line tree. *)
Lemma antipattern_density_witness :
  exists density detail ws,
    measure_antipatterns Sample.no_str_float Sample.no_str_container
      (Sample.findings_file 2) Sample.hundred_line_tree =
      Ok (density, detail, ws) /\
    exists results n,
      json_get
        (JObj (list_to_map
          [("results", JArr (map (fun i =>
                          Sample.finding (Z.of_nat i) "bad pattern")
                          (seq 0 2)));
           ("errors", JArr [])]))
        "results" (JArr []) = Ok results /\
      json_len results = Ok n /\
      density == inject_Z n / inject_Z (_count_loc Sample.hundred_line_tree)
                 * 100.
Proof.
  assert (exists density detail ws,
            measure_antipatterns Sample.no_str_float Sample.no_str_container
              (Sample.findings_file 2) Sample.hundred_line_tree =
            Ok (density, detail, ws)) as (density & detail & ws & E)
    by (vm_compute; do 3 eexists; reflexivity).
  exists density, detail, ws. split; [exact E|].
  exact (proj1 (proj2 (proj2 (antipattern_density Sample.no_str_float
           Sample.no_str_container))) _ _ _ _ _ E).
Defined.

(** *** Anti-pattern warnings *)

Section Warnings.

Variable str_float : Q -> string.
Variable str_container : json -> string.

Lemma slice_to_length n s : (String.length (slice_to n s) <= n)%nat.
Proof.
  revert s. induction n as [|n IH]; intros s; cbn; [lia|].
  destruct s as [|c s]; cbn; [lia|]. specialize (IH s). lia.
Qed.

Lemma replace_has_char s a b : a <> b -> has_char a (replace s a b) = false.
Proof.
  intros Hab. induction s as [|c s IH]; cbn; [reflexivity|].
  rewrite IH, orb_false_r.
  destruct (Ascii.eqb c a) eqn:E; [|exact E].
  apply Ascii.eqb_neq. congruence.
Qed.

Lemma slice_to_has_char n s c :
  has_char c s = false -> has_char c (slice_to n s) = false.
Proof.
  revert s. induction n as [|n IH]; intros s; cbn; [reflexivity|].
  destruct s as [|d s]; cbn; [reflexivity|].
  intros H. apply orb_false_iff in H as [H1 H2].
  rewrite H1. cbn. apply IH. exact H2.
Qed.

(** What the warning of one finding looks like. *)
Lemma finding_warning_shape r w :
  finding_warning str_float str_container r = Ok w ->
  exists path line m msg,
    finding_message r = Some (JStr m) /\
    msg = slice_to 120 (replace m newline " ") /\
    w = "`" +:+ path +:+ ":" +:+ line +:+ "` — " +:+ msg /\
    (String.length msg <= 120)%nat /\
    has_char newline msg = false.
Proof.
  unfold finding_warning. intros H.
  step H. step H. step H. step H. step H. step H.
  destruct a4 as [| | | |m| |]; try discriminate H. injection H as <-.
  apply json_get_ok in E as (d & -> & _).
  apply json_get_ok in E4 as (e & -> & Hm).
  cbn [json_get] in E2, E3. injection E3 as <-.
  exists (json_str str_float str_container a),
    (json_str str_float str_container a1), m,
    (slice_to 120 (replace m newline " ")).
  split.
  { cbn [finding_message]. destruct (d !! "extra") as [x|];
      cbn [default_or] in E2; injection E2 as E2.
    - subst x. rewrite Hm. reflexivity.
    - subst e. rewrite Hm, lookup_empty. reflexivity. }
  split; [reflexivity|]. split; [reflexivity|].
  split; [apply slice_to_length|].
  apply slice_to_has_char, replace_has_char. discriminate.
Qed.

Lemma finding_warning_ok r :
  well_formed_finding r ->
  exists w, finding_warning str_float str_container r = Ok w.
Proof.
  intros (d & -> & Hstart & m & Hm).
  unfold finding_warning. cbn [json_get mbind result_bind Py.bind].
  assert (Hline : exists s,
            default_or (d !! "start") (JObj ∅) = JObj s).
  { destruct Hstart as [-> | [s ->]]; cbn; eauto. }
  destruct Hline as [s ->]. cbn [json_get mbind result_bind Py.bind].
  cbn [finding_message] in Hm.
  destruct (d !! "extra") as [extra|]; cbn [default_or].
  - destruct extra; try discriminate Hm. injection Hm as Hm.
    cbn [json_get mbind result_bind Py.bind]. rewrite Hm. eauto.
  - injection Hm as Hm.
    cbn [json_get mbind result_bind Py.bind].
    rewrite lookup_empty. cbn [default_or]. rewrite Hm. eauto.
Qed.

Lemma for_each_all_ok {A B} (f : A -> result B) l :
  Forall (fun x => exists y, f x = Ok y) l ->
  exists ys, Py.for_each f l = Ok ys.
Proof.
  induction 1 as [|x l [y Hy] _ [ys IH]]; cbn; [eauto|].
  rewrite Hy, IH. eauto.
Qed.

(** C6.  For a findings list the extractor emits one warning for each of
    the first ten findings at most, plus one rollup warning that states
    the remainder, exactly when there are more than ten.  The message of
    each individual warning is the finding's message with newlines made
    spaces, cut to 120 characters at most.  Findings that are well formed
    do give warnings: the extractor returns.  A findings file with 15
    entries gives 11 warnings, the last one stating 5 more. *)
Theorem antipattern_warnings :
  (forall (d : gmap string json) (l : list json) tree density detail ws,
     d !! "results" = Some (JArr l) ->
     measure_antipatterns str_float str_container (Parsed (JObj d)) tree =
       Ok (density, detail, ws) ->
     exists individual,
       ws = individual ++
            (if bool_decide (10 < length l)%nat
             then [rollup (Z.of_nat (length l) - 10)] else []) /\
       length individual = Nat.min (length l) 10 /\
       length ws = (Nat.min (length l) 10 +
                    (if bool_decide (10 < length l)%nat then 1 else 0))%nat /\
       Forall2 (fun r w =>
         exists path line m msg,
           finding_message r = Some (JStr m) /\
           msg = slice_to 120 (replace m newline " ") /\
           w = "`" +:+ path +:+ ":" +:+ line +:+ "` — " +:+ msg /\
           (String.length msg <= 120)%nat /\
           has_char newline msg = false)
         (take 10 l) individual) /\
  (forall (d : gmap string json) (l : list json) tree,
     d !! "results" = Some (JArr l) ->
     Forall well_formed_finding (take 10 l) ->
     exists density detail ws,
       measure_antipatterns str_float str_container (Parsed (JObj d)) tree =
       Ok (density, detail, ws)) /\
  (exists density detail ws,
     measure_antipatterns str_float str_container (Sample.findings_file 15)
       Sample.hundred_line_tree = Ok (density, detail, ws) /\
     length ws = 11%nat /\
     last ws = Some "...and 5 more findings (see semgrep-results.json)").
Proof.
  split; [|split].
  - intros d l tree density detail ws Hres H.
    destruct (measure_antipatterns_parsed _ _ _ _ _ _ _ H)
      as (results & n & first & individual & H1 & H2 & _ & H4 & H5 & ->).
    cbn [json_get] in H1. rewrite Hres in H1. cbn [default_or] in H1.
    injection H1 as <-. cbn [json_len json_slice_to] in H2, H4.
    injection H2 as <-. injection H4 as <-.
    apply for_each_ok in H5.
    assert (Hlen : length individual = Nat.min (length l) 10).
    { rewrite <- (Forall2_length _ _ _ H5), length_take. lia. }
    assert (Hroll : (10 <? Z.of_nat (length l))%Z =
                    bool_decide (10 < length l)%nat).
    { destruct (10 <? Z.of_nat (length l))%Z eqn:E.
      - apply Z.ltb_lt in E. symmetry. apply bool_decide_eq_true. lia.
      - apply Z.ltb_ge in E. symmetry. apply bool_decide_eq_false. lia. }
    exists individual. rewrite Hroll.
    split; [reflexivity|]. split; [exact Hlen|]. split.
    + rewrite length_app, Hlen.
      destruct (bool_decide (10 < length l)%nat); reflexivity.
    + eapply Forall2_impl; [exact H5|].
      intros r w Hw. cbv beta in Hw.
      exact (finding_warning_shape r w Hw).
  - intros d l tree Hres Hwf.
    unfold measure_antipatterns.
    cbn [json_get]. rewrite Hres.
    cbn [default_or json_len json_slice_to mbind result_bind Py.bind].
    assert (Hloc := count_loc_floor tree).
    destruct (0 <? _count_loc tree)%Z eqn:E3;
      [|apply Z.ltb_ge in E3; lia].
    rewrite div_by_loc. cbn [mbind result_bind Py.bind].
    destruct (for_each_all_ok (finding_warning str_float str_container)
                (take 10 l)) as [individual ->].
    { eapply Forall_impl; [exact Hwf|]. intros r Hr.
      apply finding_warning_ok. exact Hr. }
    cbn [mbind result_bind Py.bind]. eauto.
  - do 3 eexists. split; [vm_compute; reflexivity|].
    split; reflexivity.
Qed.

End Warnings.

(** The fifteen findings over the 100-line tree. *)
Lemma antipattern_warnings_witness :
  exists density detail ws individual,
    measure_antipatterns Sample.no_str_float Sample.no_str_container
      (Sample.findings_file 15) Sample.hundred_line_tree =
      Ok (density, detail, ws) /\
    ws = individual ++ [rollup 5] /\ length individual = 10%nat.
Proof.
  assert (exists density detail ws,
            measure_antipatterns Sample.no_str_float Sample.no_str_container
              (Sample.findings_file 15) Sample.hundred_line_tree =
            Ok (density, detail, ws)) as (density & detail & ws & E)
    by (vm_compute; do 3 eexists; reflexivity).
  pose (l := map (fun i => Sample.finding (Z.of_nat i) "bad pattern")
                 (seq 0 15)).
  pose (d := list_to_map [("results", JArr l); ("errors", JArr [])]
             : gmap string json).
  assert (Hres : d !! "results" = Some (JArr l)) by reflexivity.
  destruct (proj1 (antipattern_warnings Sample.no_str_float
                     Sample.no_str_container) d l _ _ _ _ Hres E)
    as (individual & Hws & Hlen & _).
  exists density, detail, ws, individual.
  split; [exact E|]. split; [exact Hws|exact Hlen].
Defined.

(** *** The config loader *)

Section Config.

Variable int_of_str : string -> result Z.
Variable float_of_str : string -> result Q.

(** A file that is missing, unreadable, not text or not TOML gives no
    override, and so does a file without the gate section. *)
Lemma load_pyproject_config_degrades cwd fs path :
  fs path = Missing \/ fs path = Unreadable \/
  (exists err, fs path = Malformed err) \/
  (exists err, fs path = Undecodable err) \/
  (exists data, fs path = Parsed data /\ data !! "tool" = None) ->
  load_pyproject_config int_of_str float_of_str cwd fs (Some path) = Ok ∅.
Proof.
  unfold load_pyproject_config.
  intros [-> | [-> | [[err ->] | [[err ->] | (data & -> & Hno)]]]];
    try reflexivity.
  rewrite Hno. reflexivity.
Qed.

Lemma load_pyproject_config_undiscovered cwd fs :
  fs (in_cwd cwd "pyproject.toml") = Missing ->
  load_pyproject_config int_of_str float_of_str cwd fs None = Ok ∅.
Proof. unfold load_pyproject_config. intros ->. reflexivity. Qed.

(** C3, at the input where the code departs from it.  A well-formed
    pyproject.toml whose gate section gives [complexity] as a number and
    not as a table makes [load_pyproject_config] raise [TypeError]: only
    the decoding of the file is guarded, the reading of the decoded
    values is not. *)
Theorem load_pyproject_config_raises :
  load_pyproject_config int_of_str float_of_str "/repo"
    Sample.scalar_section_fs (Some "pyproject.toml") = Raise TypeError.
Proof. vm_compute. reflexivity. Qed.

End Config.

End ScoreProps.

(** ** Properties of scripts/score_store.py *)

Module StoreProps.

Import ScoreStore Spec.

(** *** The order of timestamps *)

Lemma ascii_compare_refl a : Ascii.compare a a = Eq.
Proof. unfold Ascii.compare. apply N.compare_refl. Qed.

Lemma ascii_compare_lt_trans a b c :
  Ascii.compare a b = Lt -> Ascii.compare b c = Lt -> Ascii.compare a c = Lt.
Proof.
  unfold Ascii.compare. rewrite !N.compare_lt_iff. apply N.lt_trans.
Qed.

Lemma string_compare_refl s : String.compare s s = Eq.
Proof.
  induction s as [|a s IH]; cbn; [reflexivity|].
  rewrite ascii_compare_refl. exact IH.
Qed.

Lemma string_compare_lt_trans s1 s2 s3 :
  String.compare s1 s2 = Lt -> String.compare s2 s3 = Lt ->
  String.compare s1 s3 = Lt.
Proof.
  revert s2 s3. induction s1 as [|a s1 IH]; intros [|b s2] [|c s3]; cbn;
    try discriminate; try reflexivity.
  destruct (Ascii.compare a b) eqn:E1; try discriminate;
    destruct (Ascii.compare b c) eqn:E2; try discriminate.
  - apply Ascii.compare_eq_iff in E1, E2. subst.
    rewrite ascii_compare_refl. apply IH.
  - apply Ascii.compare_eq_iff in E1. subst. rewrite E2. reflexivity.
  - apply Ascii.compare_eq_iff in E2. subst. rewrite E1. reflexivity.
  - rewrite (ascii_compare_lt_trans _ _ _ E1 E2). reflexivity.
Qed.

Lemma earlier_trans t1 t2 t3 : earlier t1 t2 -> earlier t2 t3 -> earlier t1 t3.
Proof.
  unfold earlier, String.ltb. intros H1 H2.
  destruct (String.compare t1 t2) eqn:E1; try discriminate.
  destruct (String.compare t2 t3) eqn:E2; try discriminate.
  rewrite (string_compare_lt_trans _ _ _ E1 E2). reflexivity.
Qed.

Lemma earlier_not_later t1 t2 : earlier t1 t2 -> not_later t1 t2.
Proof.
  unfold earlier, not_later, String.ltb, String.leb.
  destruct (String.compare t1 t2); [discriminate|reflexivity|discriminate].
Qed.

Lemma not_later_cases t1 t2 : not_later t1 t2 <-> earlier t1 t2 \/ t1 = t2.
Proof.
  unfold earlier, not_later, String.ltb, String.leb. split.
  - destruct (String.compare t1 t2) eqn:E; try discriminate.
    + right. apply String.compare_eq_iff. exact E.
    + left. reflexivity.
  - intros [H | ->]; [|rewrite string_compare_refl; reflexivity].
    destruct (String.compare t1 t2); [reflexivity|reflexivity|discriminate].
Qed.

#[local] Instance not_later_trans : Transitive not_later.
Proof.
  intros t1 t2 t3 H1 H2.
  apply not_later_cases in H1, H2. apply not_later_cases.
  destruct H1 as [H1 | ->], H2 as [H2 | ->]; eauto using earlier_trans.
Qed.

Lemma earlier_asym t1 t2 : earlier t1 t2 -> String.ltb t2 t1 = false.
Proof.
  unfold earlier, String.ltb. rewrite (String.compare_antisym t2 t1).
  destruct (String.compare t1 t2); cbn; [discriminate|reflexivity|discriminate].
Qed.

Lemma earlier_neq t1 t2 : earlier t1 t2 -> String.eqb t2 t1 = false.
Proof.
  unfold earlier, String.ltb. intros H. apply String.eqb_neq. intros ->.
  rewrite string_compare_refl in H. discriminate.
Qed.

(** A row with an earlier timestamp does not come before. *)
Lemma before_earlier r1 r2 :
  earlier (recorded_at r1) (recorded_at r2) -> before r1 r2 = false.
Proof.
  intros H. unfold before.
  rewrite (earlier_asym _ _ H).
  rewrite String.eqb_sym, (earlier_neq _ _ H). reflexivity.
Qed.

(** A row that comes before has a timestamp that is not earlier. *)
Lemma before_not_later r1 r2 :
  before r1 r2 = true -> not_later (recorded_at r2) (recorded_at r1).
Proof.
  unfold before. intros H. apply orb_true_iff in H as [H | H].
  - apply earlier_not_later. exact H.
  - apply andb_true_iff in H as [H _]. apply String.eqb_eq in H.
    rewrite H. apply not_later_cases. right. reflexivity.
Qed.

Lemma not_before_not_later r1 r2 :
  before r1 r2 = false -> not_later (recorded_at r1) (recorded_at r2).
Proof.
  unfold before. intros H. apply orb_false_iff in H as [H _].
  unfold not_later, String.leb. unfold String.ltb in H.
  rewrite String.compare_antisym.
  destruct (String.compare (recorded_at r2) (recorded_at r1));
    cbn; [reflexivity|discriminate|reflexivity].
Qed.

(** *** ORDER BY and LIMIT *)

Lemma insert_desc_perm r l : insert_desc r l ≡ₚ r :: l.
Proof.
  induction l as [|x l IH]; cbn; [reflexivity|].
  destruct (before r x); [reflexivity|].
  rewrite IH. apply Permutation_swap.
Qed.

Lemma order_by_perm l : order_by_recorded_at_desc l ≡ₚ l.
Proof.
  induction l as [|x l IH]; cbn; [reflexivity|].
  rewrite insert_desc_perm, IH. reflexivity.
Qed.

Lemma insert_desc_sorted r l : newest_first l -> newest_first (insert_desc r l).
Proof.
  unfold newest_first. induction l as [|x l IH]; cbn; intros Hs.
  - repeat constructor.
  - apply StronglySorted_inv in Hs as [Hs Hx].
    destruct (before r x) eqn:E.
    + constructor; [constructor; assumption|].
      constructor; [apply before_not_later; exact E|].
      eapply Forall_impl; [exact Hx|]. intros y Hy. cbv beta in *.
      etransitivity; [exact Hy|]. apply before_not_later. exact E.
    + constructor; [apply IH; exact Hs|].
      rewrite insert_desc_perm. constructor; [|exact Hx].
      apply not_before_not_later. exact E.
Qed.

Lemma order_by_sorted l : newest_first (order_by_recorded_at_desc l).
Proof.
  induction l as [|x l IH]; cbn; [constructor|].
  apply insert_desc_sorted. exact IH.
Qed.





Lemma rows_of_elem repo_ db r :
  r ∈ rows_of repo_ db <-> r ∈ db /\ repo r = repo_.
Proof.
  unfold rows_of. rewrite !list_elem_of_In, filter_In, String.eqb_eq.
  reflexivity.
Qed.

Lemma rows_of_none repo_ db :
  (forall r, r ∈ db -> repo r <> repo_) -> rows_of repo_ db = [].
Proof.
  intros H. destruct (rows_of repo_ db) as [|r l] eqn:E; [reflexivity|].
  assert (Hr : r ∈ rows_of repo_ db) by (rewrite E; apply elem_of_cons; auto).
  apply rows_of_elem in Hr as [Hr1 Hr2]. destruct (H r Hr1 Hr2).
Qed.

Lemma rows_of_app repo_ db1 db2 :
  rows_of repo_ (db1 ++ db2) = rows_of repo_ db1 ++ rows_of repo_ db2.
Proof. apply List.filter_app. Qed.

(** *** The trend *)

Lemma query_trend_eq db repo_ limit :
  query_trend db repo_ limit =
  map select_trend
    (rev (sql_limit limit (order_by_recorded_at_desc (rows_of repo_ db)))).
Proof. reflexivity. Qed.


Lemma order_by_earlier_last l new :
  (forall r, r ∈ l -> earlier (recorded_at r) (recorded_at new)) ->
  exists rest, order_by_recorded_at_desc (l ++ [new]) = new :: rest.
Proof.
  unfold order_by_recorded_at_desc.
  induction l as [|x l IH]; intros H; cbn; [eauto|].
  destruct IH as [rest ->].
  { intros r Hr. apply H, elem_of_cons. auto. }
  cbn. rewrite before_earlier; [eauto|].
  apply H, elem_of_cons. auto.
Qed.



(** *** An empty repository, and the pass rate *)

Lemma filter_none {A} (f : A -> bool) l :
  (forall x, x ∈ l -> f x = false) -> List.filter f l = [].
Proof.
  induction l as [|x l IH]; intros H; cbn; [reflexivity|].
  rewrite (H x) by (apply elem_of_cons; auto).
  apply IH. intros y Hy. apply H, elem_of_cons. auto.
Qed.

Lemma round_half_even_near y :
  y - (1 # 2) <= inject_Z (Py.round_half_even y) /\
  inject_Z (Py.round_half_even y) <= y + (1 # 2).
Proof.
  unfold Py.round_half_even.
  assert (Hlo := Qfloor_le y). assert (Hhi := Qlt_floor y).
  rewrite inject_Z_plus in Hhi. change (inject_Z 1) with 1 in Hhi.
  destruct (Qcompare (y - inject_Z (Qfloor y)) (1 # 2)) eqn:E.
  - apply Qeq_alt in E.
    destruct (Z.even (Qfloor y)); rewrite ?inject_Z_plus;
      change (inject_Z 1) with 1; split; lra.
  - apply Qlt_alt in E. split; lra.
  - apply Qgt_alt in E. rewrite inject_Z_plus.
    change (inject_Z 1) with 1. split; lra.
Qed.

Lemma round_tenth x : rounded_to_tenth x (Py.round x 1).
Proof.
  unfold rounded_to_tenth, Py.round.
  change (inject_Z (10 ^ Z.of_nat 1)) with 10.
  split; [eexists; reflexivity|].
  destruct (round_half_even_near (x * 10)) as [H1 H2].
  set (k := inject_Z (Py.round_half_even (x * 10))) in *.
  assert (Hk : k / 10 == k * (1 # 10)) by (field).
  rewrite Hk. split; lra.
Qed.

(** C8.  For a repository with no recorded run, [query_trend] returns the
    empty sequence, [query_latest] returns nothing and raises nothing, and
    [query_stats] returns the aggregate with no key.  For a repository
    with runs, [query_stats] returns an aggregate with keys, among them
    [pass_rate] = passed_runs / total_runs x 100 rounded to one
    decimal. *)
Theorem empty_repository :
  (forall db repo_ limit branch_,
     (forall r, r ∈ db -> repo r <> repo_) ->
     query_trend db repo_ limit = [] /\
     query_latest db repo_ branch_ = None /\
     query_stats db repo_ = Ok ∅) /\
  (forall db repo_,
     rows_of repo_ db <> [] ->
     let total_runs := Z.of_nat (length (rows_of repo_ db)) in
     let passed_runs := fold_right Z.add 0%Z (map passed (rows_of repo_ db)) in
     let rate := inject_Z passed_runs / inject_Z total_runs * 100 in
     exists stats,
       query_stats db repo_ = Ok stats /\
       stats <> ∅ /\
       stats !! "total_runs" = Some (VInt total_runs) /\
       stats !! "passed_runs" = Some (VInt passed_runs) /\
       stats !! "pass_rate" = Some (VReal (Py.round rate 1)) /\
       rounded_to_tenth rate (Py.round rate 1)).
Proof.
  split.
  - intros db repo_ limit branch_ Hnone.
    assert (Hrows := rows_of_none _ _ Hnone).
    split; [|split].
    + rewrite query_trend_eq, Hrows. unfold sql_limit.
      destruct (limit <? 0)%Z; [reflexivity|].
      destruct (Z.to_nat limit); reflexivity.
    + unfold query_latest, get_connection. fold (rows_of repo_ db).
      rewrite Hrows. destruct (given branch_) as [b|]; [|reflexivity].
      rewrite filter_none; [reflexivity|].
      intros r Hr. apply andb_false_iff. left. apply String.eqb_neq.
      apply Hnone. exact Hr.
    + unfold query_stats, get_connection. fold (rows_of repo_ db).
      rewrite Hrows. reflexivity.
  - intros db repo_ Hrows total_runs passed_runs rate.
    unfold query_stats, get_connection. fold (rows_of repo_ db).
    assert (Hpos : (0 < total_runs)%Z).
    { subst total_runs. destruct (rows_of repo_ db); [congruence|cbn; lia]. }
    unfold sql_count. fold total_runs.
    destruct (total_runs =? 0)%Z eqn:E; [apply Z.eqb_eq in E; lia|].
    assert (Hsum : sql_sum_passed (rows_of repo_ db) = VInt passed_runs).
    { unfold sql_sum_passed. destruct (rows_of repo_ db); [congruence|].
      reflexivity. }
    rewrite Hsum. cbn [percent].
    rewrite ScoreProps.div_nonzero.
    2:{ intros H. assert (0 < inject_Z total_runs).
        { rewrite <- (Zlt_Qlt 0). exact Hpos. }
        lra. }
    cbn [mbind result_bind Py.bind]. fold rate.
    eexists. split; [reflexivity|].
    split.
    { intros H. apply (f_equal (fun m => m !! "pass_rate")) in H.
      rewrite lookup_insert_eq, lookup_empty in H. discriminate. }
    split; [reflexivity|]. split; [reflexivity|].
    split; [apply lookup_insert_eq|apply round_tenth].
Qed.

(** One passing run out of three. *)
Lemma empty_repository_witness :
  let db1 := fst (record [] "2026-01-01T09:00:00+00:00" 60 "org/repo") in
  let db2 := fst (record db1 "2026-01-02T09:00:00+00:00" 80 "org/repo") in
  let db3 := fst (record db2 "2026-01-03T09:00:00+00:00" 50 "org/repo") in
  rows_of "org/repo" db3 <> [] /\
  exists stats,
    query_stats db3 "org/repo" = Ok stats /\
    stats !! "pass_rate" = Some (VReal (Py.round (1 / 3 * 100) 1)) /\
    Py.round (1 / 3 * 100) 1 == 33.3.
Proof.
  intros db1 db2 db3.
  assert (Hrows : rows_of "org/repo" db3 <> []) by discriminate.
  split; [exact Hrows|].
  destruct (proj2 empty_repository db3 "org/repo" Hrows)
    as (stats & H1 & _ & _ & _ & H2 & _).
  exists stats. split; [exact H1|]. split; [exact H2|]. reflexivity.
Defined.

(** *** Record, then latest *)

Lemma next_rowid_above db r : r ∈ db -> (id r < next_rowid db)%Z.
Proof.
  unfold next_rowid. induction db as [|x db IH]; intros Hr.
  - apply elem_of_nil in Hr. destruct Hr.
  - cbn. apply elem_of_cons in Hr as [-> | Hr]; [lia|].
    specialize (IH Hr). lia.
Qed.

Lemma next_rowid_positive db : (0 < next_rowid db)%Z.
Proof.
  unfold next_rowid. induction db as [|x db IH]; cbn; lia.
Qed.

Lemma latest_of_appended (f : Row -> bool) db new repo_ :
  (forall r, f r = true -> repo r = repo_) ->
  f new = true ->
  (forall r, r ∈ db -> repo r = repo_ ->
             earlier (recorded_at r) (recorded_at new)) ->
  head (sql_limit 1 (order_by_recorded_at_desc (List.filter f (db ++ [new]))))
  = Some new.
Proof.
  intros Hf Hnew Hearlier.
  rewrite List.filter_app. cbn [List.filter]. rewrite Hnew.
  destruct (order_by_earlier_last (List.filter f db) new) as [rest ->].
  - intros r Hr. apply list_elem_of_In, filter_In in Hr as [Hr1 Hr2].
    apply Hearlier; [apply list_elem_of_In; exact Hr1|apply Hf; exact Hr2].
  - reflexivity.
Qed.

(** C9.  A run recorded by [record_run] is the one [query_latest] returns
    for its repository right after, with or without its branch as a
    filter, the score and every other column unchanged, when the clock has
    moved on: its timestamp is later than those stored for the repository.
    The row id that [record_run] returns is strictly greater than the id
    of every run recorded before in the same store. *)
Theorem record_then_latest :
  forall db now score_ repo_ branch_ pr_ sha_ thr cs cov ap,
    let db' := fst (record_run db now score_ repo_ branch_ pr_ sha_ thr
                      cs cov ap) in
    let row_id := snd (record_run db now score_ repo_ branch_ pr_ sha_ thr
                         cs cov ap) in
    ((0 < row_id)%Z /\ forall r, r ∈ db -> (id r < row_id)%Z) /\
    ((forall r, r ∈ db -> repo r = repo_ -> earlier (recorded_at r) now) ->
     forall b, b = None \/ b = Some branch_ ->
     exists row,
       query_latest db' repo_ b = Some row /\
       score row = score_ /\ id row = row_id /\
       recorded_at row = now /\ repo row = repo_ /\ branch row = branch_ /\
       pr row = pr_ /\ sha row = sha_ /\ threshold row = thr /\
       passed row = (if Py.ge score_ thr then 1 else 0)%Z /\
       complexity_score row = cs /\ coverage_score row = cov /\
       antipattern_score row = ap).
Proof.
  intros db now score_ repo_ branch_ pr_ sha_ thr cs cov ap db' row_id.
  assert (Hid : row_id = next_rowid db).
  { subst row_id. unfold record_run, get_connection, int_or. cbn [snd].
    assert (Hpos := next_rowid_positive db).
    destruct (next_rowid db =? 0)%Z eqn:E; [apply Z.eqb_eq in E; lia|].
    reflexivity. }
  split.
  - rewrite Hid. split; [apply next_rowid_positive|].
    intros r Hr. apply next_rowid_above. exact Hr.
  - intros Hclock b Hb.
    subst db'. unfold record_run, get_connection. cbn [fst].
    set (new := {| id := next_rowid db; recorded_at := now |}).
    exists new. split.
    + unfold query_latest, get_connection.
      destruct (given b) as [b'|] eqn:Eb.
      * assert (b = Some branch_ /\ b' = branch_) as [-> ->].
        { destruct Hb as [-> | ->]; [discriminate|].
          cbn in Eb. destruct (String.eqb branch_ ""); [discriminate|].
          injection Eb as <-. auto. }
        apply (latest_of_appended _ db new repo_).
        -- intros r Hr. apply andb_true_iff in Hr as [Hr _].
           apply String.eqb_eq. exact Hr.
        -- cbn [new repo branch]. rewrite !String.eqb_refl. reflexivity.
        -- exact Hclock.
      * apply (latest_of_appended _ db new repo_).
        -- intros r Hr. apply String.eqb_eq. exact Hr.
        -- cbn [new repo]. apply String.eqb_refl.
        -- exact Hclock.
    + rewrite Hid. repeat split; reflexivity.
Qed.

(** A second run, a day after the first. *)
Lemma record_then_latest_witness :
  let db1 := fst (record [] "2026-01-01T09:00:00+00:00" 60 "org/repo") in
  let db2 := fst (record db1 "2026-01-02T09:00:00+00:00" 85 "org/repo") in
  exists row,
    query_latest db2 "org/repo" None = Some row /\
    score row = 85 /\ id row = 2%Z.
Proof.
  intros db1 db2.
  assert (Hclock : forall r, r ∈ db1 -> repo r = "org/repo" ->
            earlier (recorded_at r) "2026-01-02T09:00:00+00:00").
  { intros r Hr _. apply list_elem_of_singleton in Hr. subst r. reflexivity. }
  destruct (proj2 (record_then_latest db1 "2026-01-02T09:00:00+00:00" 85
                     "org/repo" "" None "" 70 None None None)
              Hclock None (or_introl eq_refl))
    as (row & H1 & H2 & H3 & _).
  exists row. split; [exact H1|]. split; [exact H2|exact H3].
Defined.

(** Without the clock moving on, the round trip fails: in a store whose
    clock stepped back, the run recorded last, with id 2 and score 85, is
    not the one [query_latest] returns right after.  It returns the run
    with id 1 and score 60, whose timestamp is the later one. *)
Lemma record_then_latest_counterexample :
  snd Sample.stepped_back = 2%Z /\
  exists row,
    query_latest (fst Sample.stepped_back) "org/repo" None = Some row /\
    id row = 1%Z /\ score row = 60 /\
    ~ (id row = snd Sample.stepped_back /\ score row == 85).
Proof.
  assert (Hid : snd Sample.stepped_back = 2%Z) by reflexivity.
  split; [exact Hid|].
  assert (E : exists row,
            query_latest (fst Sample.stepped_back) "org/repo" None =
              Some row /\ id row = 1%Z /\ score row = 60)
    by (vm_compute; eexists; repeat split; reflexivity).
  destruct E as (row & E & H1 & H2).
  exists row. repeat split; try assumption.
  intros [H _]. rewrite H1, Hid in H. discriminate H.
Qed.

End StoreProps.

(** ** Further properties of the score aggregator *)

Module ScoreLaws.

Import Score Spec ScoreProps.

(** The position of a value inside an interval of positive width. *)
Lemma frac_bounds lo hi v :
  lo <= v -> v < hi -> 0 <= (v - lo) / (hi - lo) /\ (v - lo) / (hi - lo) <= 1.
Proof.
  intros H1 H2. split.
  - apply Qle_shift_div_l; lra.
  - apply Qle_shift_div_r; lra.
Qed.

Lemma frac_mono lo hi v1 v2 :
  lo < hi -> v1 <= v2 -> (v1 - lo) / (hi - lo) <= (v2 - lo) / (hi - lo).
Proof.
  intros H1 H2. unfold Qdiv. apply Qmult_le_compat_r; [lra|].
  apply Qinv_le_0_compat. lra.
Qed.

Lemma half_scaled m f : 0 <= m -> 0 <= f -> f <= 1 ->
  0 <= m * 0.5 * f /\ m * 0.5 * f <= m * 0.5.
Proof.
  intros Hm H0 H1. split.
  - apply Qmult_le_0_compat; lra.
  - rewrite <- (Qmult_1_r (m * 0.5)) at 2.
    rewrite (Qmult_comm (m * 0.5) f), (Qmult_comm (m * 0.5) 1).
    apply Qmult_le_compat_r; lra.
Qed.

Lemma half_scaled_mono m f1 f2 : 0 <= m -> f1 <= f2 ->
  m * 0.5 * f1 <= m * 0.5 * f2.
Proof.
  intros Hm H.
  rewrite (Qmult_comm (m * 0.5) f1), (Qmult_comm (m * 0.5) f2).
  apply Qmult_le_compat_r; lra.
Qed.

Lemma branch_full v e a p : lerp_branch v e a p false = Full <-> e <= v.
Proof.
  unfold lerp_branch. ge_cases; split; try discriminate; intros H;
    try reflexivity; try assumption; exfalso; lra.
Qed.

Lemma branch_zero v e a p :
  lerp_branch v e a p false = Zero <-> (v < e /\ v < a /\ v < p).
Proof.
  unfold lerp_branch. ge_cases; split; try discriminate; intros H;
    try reflexivity; try (repeat split; assumption);
    destruct H as (H1 & H2 & H3); exfalso; lra.
Qed.

(** The value [lerp_score] returns, by branch, higher is better. *)
Lemma lerp_score_value v e a p m :
  match lerp_branch v e a p false with
  | Full => e <= v /\ lerp_score v e a p m false = Ok m
  | UpperHalf =>
      (a <= v < e) /\
      lerp_score v e a p m false =
        Ok (m * 0.5 + m * 0.5 * ((v - a) / (e - a)))
  | LowerHalf =>
      (p <= v < a /\ v < e) /\
      lerp_score v e a p m false = Ok (m * 0.5 * ((v - p) / (a - p)))
  | Zero => (v < e /\ v < a /\ v < p) /\ lerp_score v e a p m false = Ok 0.0
  end.
Proof.
  rewrite lerp_score_by_branch. unfold orient.
  destruct (lerp_branch v e a p false) eqn:Hb.
  - apply branch_full in Hb. auto.
  - apply branch_upper in Hb. rewrite div_nonzero by lra. auto.
  - apply branch_lower in Hb. rewrite div_nonzero by lra. auto.
  - apply branch_zero in Hb. auto.
Qed.

Lemma lerp_score_bounded_up v e a p m :
  0 <= m ->
  exists r, lerp_score v e a p m false = Ok r /\ 0 <= r /\ r <= m.
Proof.
  intros Hm. assert (H := lerp_score_value v e a p m).
  destruct (lerp_branch v e a p false).
  - destruct H as [_ ->]. exists m. split; [reflexivity|]. split; lra.
  - destruct H as [[H1 H2] ->]. eexists. split; [reflexivity|].
    destruct (frac_bounds a e v H1 H2) as [F0 F1].
    destruct (half_scaled m _ Hm F0 F1). split; lra.
  - destruct H as [[[H1 H2] _] ->]. eexists. split; [reflexivity|].
    destruct (frac_bounds p a v H1 H2) as [F0 F1].
    destruct (half_scaled m _ Hm F0 F1). split; lra.
  - destruct H as [_ ->]. exists 0.0. split; [reflexivity|]. split; lra.
Qed.

Lemma lerp_score_range v e a p m inv :
  0 <= m ->
  exists r, lerp_score v e a p m inv = Ok r /\ 0 <= r /\ r <= m.
Proof.
  intros Hm.
  destruct inv; [rewrite lerp_score_invert|];
    apply lerp_score_bounded_up; exact Hm.
Qed.

(** X1.  Whatever the value and the thresholds, ordered or not, and
    whatever the orientation, [lerp_score] returns a number of points
    between 0 and [max_pts], for a [max_pts] that is not negative. *)
Theorem lerp_score_bounded :
  forall v e a p m inv,
    0 <= m ->
    exists r, lerp_score v e a p m inv = Ok r /\ 0 <= r /\ r <= m.
Proof.
  intros v e a p m inv Hm.
  destruct inv; [rewrite lerp_score_invert|];
    apply lerp_score_bounded_up; exact Hm.
Qed.

(** Thresholds in the wrong order, and 35 points. *)
Lemma lerp_score_bounded_witness :
  0 <= 35 /\
  exists r, lerp_score 55 40 90 70 35 true = Ok r /\ 0 <= r /\ r <= 35.
Proof.
  assert (H : 0 <= 35) by discriminate.
  split; [exact H|]. exact (lerp_score_bounded 55 40 90 70 35 true H).
Defined.

Lemma lerp_score_monotone_up e a p m v1 v2 :
  0 <= m -> v1 <= v2 ->
  exists r1 r2,
    lerp_score v1 e a p m false = Ok r1 /\
    lerp_score v2 e a p m false = Ok r2 /\ r1 <= r2.
Proof.
  intros Hm Hv.
  assert (H1 := lerp_score_value v1 e a p m).
  assert (H2 := lerp_score_value v2 e a p m).
  destruct (lerp_branch v1 e a p false);
    destruct (lerp_branch v2 e a p false);
    destruct H1 as [C1 ->]; destruct H2 as [C2 ->];
    do 2 eexists; (split; [reflexivity|]); (split; [reflexivity|]);
    try lra.
  - destruct C1 as [A1 A2].
    destruct (frac_bounds a e v1 A1 A2) as [F0 F1].
    destruct (half_scaled m _ Hm F0 F1). lra.
  - destruct C1 as [A1 A2], C2 as [B1 B2].
    assert (F := frac_mono a e v1 v2 ltac:(lra) Hv).
    assert (G := half_scaled_mono m _ _ Hm F). lra.
  - destruct C1 as [[A1 A2] _].
    destruct (frac_bounds p a v1 A1 A2) as [F0 F1].
    destruct (half_scaled m _ Hm F0 F1). lra.
  - destruct C1 as [[A1 A2] _], C2 as [B1 B2].
    destruct (frac_bounds p a v1 A1 A2) as [F0 F1].
    destruct (half_scaled m _ Hm F0 F1).
    destruct (frac_bounds a e v2 B1 B2) as [G0 G1].
    destruct (half_scaled m _ Hm G0 G1). lra.
  - destruct C1 as [[A1 A2] _], C2 as [[B1 B2] _].
    assert (F := frac_mono p a v1 v2 ltac:(lra) Hv).
    assert (G := half_scaled_mono m _ _ Hm F). lra.
  - destruct C2 as [B1 B2].
    destruct (frac_bounds a e v2 B1 B2) as [G0 G1].
    destruct (half_scaled m _ Hm G0 G1). lra.
  - destruct C2 as [[B1 B2] _].
    destruct (frac_bounds p a v2 B1 B2) as [G0 G1].
    destruct (half_scaled m _ Hm G0 G1). lra.
Qed.

(** X2.  [lerp_score] is monotone in the value, whatever the thresholds:
    a larger value never gives fewer points to a higher-is-better signal,
    and never gives more points to an inverted one. *)
Theorem lerp_score_monotone :
  forall e a p m v1 v2,
    0 <= m -> v1 <= v2 ->
    (exists r1 r2,
       lerp_score v1 e a p m false = Ok r1 /\
       lerp_score v2 e a p m false = Ok r2 /\ r1 <= r2) /\
    (exists r1 r2,
       lerp_score v1 e a p m true = Ok r1 /\
       lerp_score v2 e a p m true = Ok r2 /\ r2 <= r1).
Proof.
  intros e a p m v1 v2 Hm Hv. split.
  - apply lerp_score_monotone_up; assumption.
  - rewrite !lerp_score_invert.
    destruct (lerp_score_monotone_up (- e) (- a) (- p) m (- v2) (- v1) Hm)
      as (r2 & r1 & H2 & H1 & Hr); [lra|].
    exists r1, r2. auto.
Qed.

(** Coverage 60 and 80, complexity 8 and 12, on the default thresholds. *)
Lemma lerp_score_monotone_witness :
  (exists r1 r2,
     lerp_score 60 90 70 40 35 false = Ok r1 /\
     lerp_score 80 90 70 40 35 false = Ok r2 /\ r1 <= r2) /\
  (exists r1 r2,
     lerp_score 8 5 10 20 40 true = Ok r1 /\
     lerp_score 12 5 10 20 40 true = Ok r2 /\ r2 <= r1).
Proof.
  split.
  - exact (proj1 (lerp_score_monotone 90 70 40 35 60 80
                    ltac:(discriminate) ltac:(discriminate))).
  - exact (proj2 (lerp_score_monotone 5 10 20 40 8 12
                    ltac:(discriminate) ltac:(discriminate))).
Defined.

Section Totals.

Variable str_float : Q -> string.
Variable str_container : json -> string.

(** X3.  Whatever the thresholds and the measured values, the breakdown
    that [main] builds gives each signal between 0 and its budget (40, 35
    and 25 points), and a total between 0 and 100. *)
Theorem breakdown_within_budget :
  forall env args t b,
    main_breakdown str_float str_container env args t = Ok b ->
    (0 <= complexity_score b /\ complexity_score b <= 40) /\
    (0 <= coverage_score b /\ coverage_score b <= 35) /\
    (0 <= antipattern_score b /\ antipattern_score b <= 25) /\
    (0 <= total b /\ total b <= 100).
Proof.
  intros env args t b H.
  destruct (main_breakdown_scores _ _ _ _ _ _ H)
    as (avg_cc & _ & _ & pct & _ & density & _ & _ & _ & _ & _ &
        H1 & H2 & H3).
  destruct (lerp_score_range avg_cc (cx_exc t) (cx_acc t) (cx_poor t) 40
              true ltac:(discriminate)) as (r1 & E1 & B1).
  destruct (lerp_score_range pct (cov_exc t) (cov_acc t) (cov_poor t) 35
              false ltac:(discriminate)) as (r2 & E2 & B2).
  destruct (lerp_score_range density (ap_exc t) (ap_acc t) (ap_poor t) 25
              true ltac:(discriminate)) as (r3 & E3 & B3).
  rewrite H1 in E1. rewrite H2 in E2. rewrite H3 in E3.
  injection E1 as <-. injection E2 as <-. injection E3 as <-.
  unfold total. repeat split; lra.
Qed.

End Totals.

(** The clean checkout scored against the defaults. *)
Lemma breakdown_within_budget_witness :
  exists b,
    main_breakdown Sample.no_str_float Sample.no_str_container
      Sample.clean_env Sample.no_args
      (main_thresholds ∅ Sample.no_args) = Ok b /\
    0 <= total b /\ total b <= 100.
Proof.
  assert (exists b,
            main_breakdown Sample.no_str_float Sample.no_str_container
              Sample.clean_env Sample.no_args
              (main_thresholds ∅ Sample.no_args) = Ok b) as [b E]
    by (vm_compute; eexists; reflexivity).
  exists b. split; [exact E|].
  exact (proj2 (proj2 (proj2 (breakdown_within_budget _ _ _ _ _ _ E)))).
Defined.

(** *** The badge *)

Lemma append_inv_l s a b : s +:+ a = s +:+ b -> a = b.
Proof.
  induction s as [|c s IH]; cbn; [auto|]. intros [= H]. auto.
Qed.

(** X4.  The badge and the report give one verdict: the badge message
    carries the pass glyph exactly when the report of the same breakdown
    and threshold is headed PASSED, and the fail glyph exactly when it is
    headed BLOCKED. *)
Theorem badge_agrees_with_report :
  forall (str_float : Q -> string) (b : ScoreBreakdown) (thr : num),
    let badge := generate_badge_json (total b) (to_Q thr) in
    let report := build_report str_float b thr in
    (message badge = Laws.pass_message (total b) <->
     report_passed report = true) /\
    (message badge = Laws.fail_message (total b) <->
     report_blocked report = true).
Proof.
  intros str_float b thr badge report.
  destruct (build_report_first_line str_float b thr) as [rest Hrep].
  fold report in Hrep. rewrite Hrep.
  subst badge. unfold generate_badge_json, Laws.pass_message,
    Laws.fail_message. cbn [message].
  destruct (Py.ge (total b) (to_Q thr)); split; split; intros H;
    try reflexivity; try discriminate H;
    apply append_inv_l in H; discriminate H.
Qed.

(** A total of 70 against the threshold 70. *)
Lemma badge_agrees_with_report_witness :
  report_passed (build_report Sample.no_str_float Sample.at_threshold
                   (Int 70)) = true.
Proof.
  pose proof (badge_agrees_with_report Sample.no_str_float
                Sample.at_threshold (Int 70)) as H.
  cbv zeta in H. apply (proj1 H). reflexivity.
Defined.

(** X5.  The badge color is a matter of the score alone: the threshold
    has no part in it.  It is one of four colors, brightgreen from 90,
    green from 70, yellow from 50 and red below, so that a higher score
    never gets a lower color. *)
Theorem badge_color_tiers :
  (forall score t1 t2,
     color (generate_badge_json score t1) =
     color (generate_badge_json score t2)) /\
  (forall score t,
     let c := color (generate_badge_json score t) in
     (c = "brightgreen" <-> 90 <= score) /\
     (c = "green" <-> 70 <= score < 90) /\
     (c = "yellow" <-> 50 <= score < 70) /\
     (c = "red" <-> score < 50)) /\
  (forall s1 s2 t1 t2,
     s1 <= s2 ->
     (Laws.tier (color (generate_badge_json s1 t1)) <=
      Laws.tier (color (generate_badge_json s2 t2)))%nat).
Proof.
  split; [reflexivity|]. split.
  - intros score t c. subst c. unfold generate_badge_json. cbn [color].
    ge_cases; (split; [|split; [|split]]); (split; intros H);
      try discriminate H; try reflexivity; try assumption; try lra;
      try (split; lra); try (destruct H; lra).
  - intros s1 s2 t1 t2 Hs. unfold generate_badge_json. cbn [color].
    ge_cases; cbn; try lia; exfalso; lra.
Qed.

(** A score of 75 and one of 92, against any thresholds. *)
Lemma badge_color_tiers_witness :
  (Laws.tier (color (generate_badge_json 75 80)) <=
   Laws.tier (color (generate_badge_json 92 70)))%nat.
Proof.
  exact (proj2 (proj2 badge_color_tiers) 75 92 80 70 ltac:(discriminate)).
Defined.

End ScoreLaws.

(** ** Further properties of the config loader *)

Module ConfigLaws.

Import Score Spec ScoreProps.

Lemma fold_m_invariant {A B} (P : B -> Prop) (f : B -> A -> result B) l :
  (forall b x b', x ∈ l -> P b -> f b x = Ok b' -> P b') ->
  forall b0 b, P b0 -> Py.fold_m f l b0 = Ok b -> P b.
Proof.
  induction l as [|x l IH]; intros Hstep b0 b H0; cbn.
  - intros [= <-]. exact H0.
  - destruct (f b0 x) as [b1|] eqn:E; [|discriminate].
    apply IH.
    + intros b2 y b' Hy. apply Hstep, elem_of_cons. auto.
    + eapply Hstep; [apply elem_of_cons; left; reflexivity|exact H0|exact E].
Qed.

Lemma fold_m_ext {A B} (f g : B -> A -> result B) l :
  (forall b x, x ∈ l -> f b x = g b x) ->
  forall b, Py.fold_m f l b = Py.fold_m g l b.
Proof.
  induction l as [|x l IH]; intros H b; cbn; [reflexivity|].
  rewrite (H b x) by (apply elem_of_cons; auto).
  destruct (g b x); [|reflexivity].
  apply IH. intros b' y Hy. apply H, elem_of_cons. auto.
Qed.

Lemma append_inv s a b : s +:+ a = s +:+ b -> a = b.
Proof.
  induction s as [|c s IH]; cbn; [auto|]. intros [= H]. auto.
Qed.

Section Loader.

Variable int_of_str : string -> result Z.
Variable float_of_str : string -> result Q.

(** One key, read from a section that is a table. *)
Lemma read_key_table t prefix acc key :
  read_key float_of_str (TTable t) prefix acc key =
  match t !! key with
  | None => Ok acc
  | Some v =>
      x ← toml_float float_of_str v;
      Ok (<[Laws.override_key prefix key := Float x]> acc)
  end.
Proof.
  unfold read_key. cbn [toml_in toml_index mbind result_bind Py.bind].
  destruct (t !! key) as [v|] eqn:E.
  - rewrite bool_decide_eq_true_2 by eauto. reflexivity.
  - rewrite bool_decide_eq_false_2; [reflexivity|].
    intros [v Hv]. discriminate.
Qed.

(** One key touches its own override and no other. *)
Lemma read_key_frame sub prefix acc key acc' :
  read_key float_of_str sub prefix acc key = Ok acc' ->
  forall k, k <> Laws.override_key prefix key -> acc' !! k = acc !! k.
Proof.
  unfold read_key. intros H k Hk.
  step H. destruct a.
  - step H. step H. injection H as <-.
    apply lookup_insert_ne. auto.
  - injection H as <-. reflexivity.
Qed.

(** The override it writes is a float. *)
Lemma read_key_written sub prefix acc key acc' :
  read_key float_of_str sub prefix acc key = Ok acc' ->
  acc' !! Laws.override_key prefix key = acc !! Laws.override_key prefix key \/
  exists x, acc' !! Laws.override_key prefix key = Some (Float x).
Proof.
  unfold read_key. intros H.
  step H. destruct a.
  - step H. step H. injection H as <-.
    right. eexists. apply lookup_insert_eq.
  - injection H as <-. auto.
Qed.

(** The override keys are those of [Laws.override_keys], apart from one
    another and from the threshold. *)
Lemma override_key_known section prefix key :
  (section, prefix) ∈ Laws.sections -> key ∈ Laws.section_keys ->
  Laws.override_key prefix key ∈ Laws.override_keys /\
  Laws.override_key prefix key <> "threshold".
Proof.
  unfold Laws.sections, Laws.section_keys. intros Hs Hk.
  repeat (apply elem_of_cons in Hs as [Hs | Hs]);
    try (apply elem_of_nil in Hs; destruct Hs);
    injection Hs as -> ->;
    repeat (apply elem_of_cons in Hk as [Hk | Hk]);
    try (apply elem_of_nil in Hk; destruct Hk); subst key;
    (split; [|discriminate]); unfold Laws.override_keys; cbn;
    repeat (apply elem_of_cons; first [left; reflexivity | right]).
Qed.

Lemma override_key_apart s1 p1 k1 s2 p2 k2 :
  (s1, p1) ∈ Laws.sections -> k1 ∈ Laws.section_keys ->
  (s2, p2) ∈ Laws.sections -> k2 ∈ Laws.section_keys ->
  Laws.override_key p1 k1 = Laws.override_key p2 k2 ->
  s1 = s2 /\ p1 = p2 /\ k1 = k2.
Proof.
  unfold Laws.sections, Laws.section_keys. intros Hs1 Hk1 Hs2 Hk2.
  repeat (apply elem_of_cons in Hs1 as [Hs1 | Hs1]);
    try (apply elem_of_nil in Hs1; destruct Hs1);
    injection Hs1 as -> ->;
    repeat (apply elem_of_cons in Hs2 as [Hs2 | Hs2]);
    try (apply elem_of_nil in Hs2; destruct Hs2);
    injection Hs2 as -> ->;
    repeat (apply elem_of_cons in Hk1 as [Hk1 | Hk1]);
    try (apply elem_of_nil in Hk1; destruct Hk1); subst k1;
    repeat (apply elem_of_cons in Hk2 as [Hk2 | Hk2]);
    try (apply elem_of_nil in Hk2; destruct Hk2); subst k2;
    cbn; intros H; try discriminate H; auto.
Qed.

(** The keys of one section, read in turn. *)
Lemma read_keys_frame sub prefix keys acc acc' :
  Py.fold_m (read_key float_of_str sub prefix) keys acc = Ok acc' ->
  forall k, (forall key, key ∈ keys -> k <> Laws.override_key prefix key) ->
            acc' !! k = acc !! k.
Proof.
  revert acc. induction keys as [|key keys IH]; cbn [Py.fold_m];
    intros acc H k Hk.
  - injection H as <-. reflexivity.
  - destruct (read_key float_of_str sub prefix acc key) as [a1|] eqn:E;
      [|discriminate].
    rewrite (IH a1 H k).
    + eapply read_key_frame; [exact E|].
      apply Hk, elem_of_cons. auto.
    + intros key' Hkey'. apply Hk, elem_of_cons. auto.
Qed.

Lemma read_keys_table t prefix keys acc acc' :
  NoDup keys ->
  Py.fold_m (read_key float_of_str (TTable t) prefix) keys acc = Ok acc' ->
  forall key, key ∈ keys ->
    match t !! key with
    | None =>
        acc' !! Laws.override_key prefix key =
        acc !! Laws.override_key prefix key
    | Some v =>
        exists x, toml_float float_of_str v = Ok x /\
                  acc' !! Laws.override_key prefix key = Some (Float x)
    end.
Proof.
  intros Hnd. revert acc.
  induction Hnd as [|k0 keys Hk0 Hnd IH]; cbn [Py.fold_m];
    intros acc H key Hkey.
  - apply elem_of_nil in Hkey. destruct Hkey.
  - destruct (read_key float_of_str (TTable t) prefix acc k0) as [a1|] eqn:E;
      [|discriminate H].
    apply elem_of_cons in Hkey as [-> | Hkey].
    + assert (Hframe : acc' !! Laws.override_key prefix k0 =
                       a1 !! Laws.override_key prefix k0).
      { eapply read_keys_frame; [exact H|].
        intros key' Hkey' Heq. apply append_inv, append_inv in Heq.
        subst key'. contradiction. }
      rewrite Hframe. rewrite read_key_table in E.
      destruct (t !! k0) as [v|].
      * step E. injection E as <-. exists a. split; [reflexivity|].
        apply lookup_insert_eq.
      * injection E as <-. reflexivity.
    + specialize (IH a1 H key Hkey).
      assert (Hne : key <> k0) by (intros ->; contradiction).
      assert (Hframe : a1 !! Laws.override_key prefix key =
                       acc !! Laws.override_key prefix key).
      { eapply read_key_frame; [exact E|].
        intros Heq. apply append_inv, append_inv in Heq. auto. }
      destruct (t !! key); [exact IH|]. rewrite IH. exact Hframe.
Qed.

Lemma section_keys_nodup : NoDup Laws.section_keys.
Proof.
  unfold Laws.section_keys.
  repeat (apply NoDup_cons; split;
          [rewrite ?elem_of_cons, elem_of_nil; intros H;
           repeat destruct H as [H | H]; try discriminate H; exact H|]).
  apply NoDup_nil. exact I.
Qed.

(** One section of a gate table. *)
Lemma read_section_spec g acc section prefix acc' :
  read_section float_of_str (TTable g) acc (section, prefix) = Ok acc' ->
  (forall k,
     (forall key, key ∈ Laws.section_keys ->
                  k <> Laws.override_key prefix key) ->
     acc' !! k = acc !! k) /\
  (forall key,
     key ∈ Laws.section_keys ->
     match g !! section with
     | None =>
         acc' !! Laws.override_key prefix key =
         acc !! Laws.override_key prefix key
     | Some sub =>
         forall t, sub = TTable t ->
           match t !! key with
           | None =>
               acc' !! Laws.override_key prefix key =
               acc !! Laws.override_key prefix key
           | Some v =>
               exists x, toml_float float_of_str v = Ok x /\
                         acc' !! Laws.override_key prefix key =
                         Some (Float x)
           end
     end).
Proof.
  unfold read_section. cbn [toml_get mbind result_bind Py.bind].
  fold Laws.section_keys. intros H. split.
  - intros k Hk. eapply read_keys_frame; [exact H|exact Hk].
  - intros key Hkey. destruct (g !! section) as [sub|]; cbn [default_or] in H.
    + intros t ->.
      exact (read_keys_table _ _ _ _ _ section_keys_nodup H key Hkey).
    + assert (Ht := read_keys_table _ _ _ _ _ section_keys_nodup H key Hkey).
      rewrite lookup_empty in Ht. exact Ht.
Qed.

Lemma load_parsed cwd fs path data :
  fs path = Parsed data ->
  load_pyproject_config int_of_str float_of_str cwd fs (Some path) =
  (gate ← toml_get (default_or (data !! "tool") (TTable ∅)) "ai-gate"
            (TTable ∅);
   has_threshold ← toml_in "threshold" gate;
   result ←
     (if has_threshold : bool then
        v ← toml_index gate "threshold";
        n ← toml_int int_of_str v;
        Ok (<["threshold" := Int n]> ∅)
      else Ok ∅);
   Py.fold_m (read_section float_of_str gate) Laws.sections result).
Proof. unfold load_pyproject_config. intros ->. reflexivity. Qed.

Lemma known_empty : Laws.known ∅.
Proof. intros k v H. rewrite lookup_empty in H. discriminate. Qed.

Lemma known_read_section gate acc sp acc' :
  sp ∈ Laws.sections -> Laws.known acc ->
  read_section float_of_str gate acc sp = Ok acc' -> Laws.known acc'.
Proof.
  destruct sp as [section prefix]. intros Hsp Hacc H.
  unfold read_section in H. step H. fold Laws.section_keys in H.
  revert H. apply fold_m_invariant; [|exact Hacc].
  intros b key b' Hkey Hb Hstep k v Hkv.
  destruct (override_key_known _ _ _ Hsp Hkey) as [Hin Hne].
  destruct (decide (k = Laws.override_key prefix key)) as [-> | Hk].
  - destruct (read_key_written _ _ _ _ _ Hstep) as [Hsame | [x Hx]].
    + apply Hb. rewrite <- Hsame. exact Hkv.
    + rewrite Hx in Hkv. injection Hkv as <-. split; [exact Hin|].
      right. eauto.
  - apply Hb. rewrite <- (read_key_frame _ _ _ _ _ Hstep k Hk). exact Hkv.
Qed.

Lemma load_cases cwd fs config_path :
  load_pyproject_config int_of_str float_of_str cwd fs config_path = Ok ∅ \/
  exists path data,
    fs path = Parsed data /\
    load_pyproject_config int_of_str float_of_str cwd fs config_path =
    load_pyproject_config int_of_str float_of_str cwd fs (Some path).
Proof.
  unfold load_pyproject_config. destruct config_path as [p|].
  - destruct (fs p) as [| |err|err|data] eqn:E; auto.
    right. exists p, data. rewrite E. auto.
  - destruct (fs (in_cwd cwd "pyproject.toml")) as [| |err|err|data] eqn:E;
      cbn [exists_ negb]; rewrite ?E; auto.
    right. exists (in_cwd cwd "pyproject.toml"), data. rewrite E. auto.
Qed.

(** X6.  Whatever the file holds, an override set that
    [load_pyproject_config] returns has none but the ten known keys, with
    an int under "threshold" and a float under each of the others. *)
Theorem config_overrides_known :
  forall cwd fs config_path cfg,
    load_pyproject_config int_of_str float_of_str cwd fs config_path =
      Ok cfg ->
    forall k v,
      cfg !! k = Some v ->
      k ∈ Laws.override_keys /\
      ((k = "threshold" /\ exists n, v = Int n) \/
       (k <> "threshold" /\ exists x, v = Float x)).
Proof.
  intros cwd fs config_path cfg H. change (Laws.known cfg).
  destruct (load_cases cwd fs config_path) as [E | (path & data & Hfs & E)];
    rewrite E in H; [injection H as <-; exact known_empty|].
  rewrite (load_parsed _ _ _ _ Hfs) in H.
  step H. step H. step H. fold Laws.sections in H.
  revert H. apply fold_m_invariant.
  - intros b sp b' Hsp Hb Hstep.
    exact (known_read_section _ _ _ _ Hsp Hb Hstep).
  - destruct a0.
    + step E2. step E2. injection E2 as <-.
      intros k v Hkv.
      destruct (decide (k = "threshold")) as [-> | Hk].
      * rewrite lookup_insert_eq in Hkv. injection Hkv as <-.
        split; [apply elem_of_cons; auto|]. left. eauto.
      * rewrite lookup_insert_ne, lookup_empty in Hkv by auto.
        discriminate.
    + injection E2 as <-. exact known_empty.
Qed.

Lemma in_sections_complexity : ("complexity", "complexity") ∈ Laws.sections.
Proof. apply elem_of_cons. auto. Qed.

Lemma in_sections_coverage : ("coverage", "coverage") ∈ Laws.sections.
Proof. apply elem_of_cons. right. apply elem_of_cons. auto. Qed.

Lemma in_sections_antipatterns :
  ("antipatterns", "antipattern") ∈ Laws.sections.
Proof.
  apply elem_of_cons. right. apply elem_of_cons. right.
  apply elem_of_cons. auto.
Qed.

(** Two sections that differ do not share an override key. *)
Lemma other_section s1 p1 k1 s2 p2 :
  (s1, p1) ∈ Laws.sections -> k1 ∈ Laws.section_keys ->
  (s2, p2) ∈ Laws.sections -> p1 <> p2 ->
  forall key, key ∈ Laws.section_keys ->
              Laws.override_key p1 k1 <> Laws.override_key p2 key.
Proof.
  intros H1 Hk1 H2 Hne key Hkey Heq.
  destruct (override_key_apart _ _ _ _ _ _ H1 Hk1 H2 Hkey Heq)
    as (_ & Hp & _).
  contradiction.
Qed.

(** X7.  For a gate section that is a table, the override set holds what
    the file says and nothing else: "threshold" is the file's threshold as
    an int, each section key is the file's value as a float, and what the
    file leaves out has no override. *)
Theorem config_overrides_values :
  forall cwd fs path data tool g cfg,
    fs path = Parsed data ->
    data !! "tool" = Some (TTable tool) ->
    tool !! "ai-gate" = Some (TTable g) ->
    load_pyproject_config int_of_str float_of_str cwd fs (Some path) =
      Ok cfg ->
    match g !! "threshold" with
    | None => cfg !! "threshold" = None
    | Some v =>
        exists n, toml_int int_of_str v = Ok n /\
                  cfg !! "threshold" = Some (Int n)
    end /\
    forall section prefix key,
      (section, prefix) ∈ Laws.sections -> key ∈ Laws.section_keys ->
      match g !! section with
      | None => cfg !! Laws.override_key prefix key = None
      | Some sub =>
          forall t, sub = TTable t ->
            match t !! key with
            | None => cfg !! Laws.override_key prefix key = None
            | Some v =>
                exists x, toml_float float_of_str v = Ok x /\
                          cfg !! Laws.override_key prefix key =
                          Some (Float x)
            end
      end.
Proof.
  intros cwd fs path data tool g cfg Hfs Htool Hgate H.
  rewrite (load_parsed _ _ _ _ Hfs), Htool in H.
  cbn [default_or toml_get mbind result_bind Py.bind] in H.
  rewrite Hgate in H.
  cbn [default_or toml_in toml_index mbind result_bind Py.bind] in H.
  step H. rename a into acc0.
  unfold Laws.sections in H. cbn [Py.fold_m] in H.
  destruct (read_section float_of_str (TTable g) acc0
              ("complexity", "complexity")) as [a1|] eqn:E1;
    [|discriminate H].
  destruct (read_section float_of_str (TTable g) a1
              ("coverage", "coverage")) as [a2|] eqn:E2;
    [|discriminate H].
  destruct (read_section float_of_str (TTable g) a2
              ("antipatterns", "antipattern")) as [a3|] eqn:E3;
    [|discriminate H].
  injection H as ->.
  destruct (read_section_spec _ _ _ _ _ E1) as [F1 S1].
  destruct (read_section_spec _ _ _ _ _ E2) as [F2 S2].
  destruct (read_section_spec _ _ _ _ _ E3) as [F3 S3].
  assert (Hthr : forall s p, (s, p) ∈ Laws.sections ->
            forall key, key ∈ Laws.section_keys ->
                        "threshold" <> Laws.override_key p key).
  { intros s p Hs key Hkey Heq.
    destruct (override_key_known _ _ _ Hs Hkey) as [_ Hne]. auto. }
  assert (Hacc0 : forall s p key,
            (s, p) ∈ Laws.sections -> key ∈ Laws.section_keys ->
            acc0 !! Laws.override_key p key = None).
  { intros s p key Hs Hkey.
    destruct (override_key_known _ _ _ Hs Hkey) as [_ Hne].
    destruct (bool_decide (is_Some (g !! "threshold")));
      cbv beta iota in E.
    - step E. step E. injection E as <-.
      rewrite lookup_insert_ne by auto. apply lookup_empty.
    - injection E as <-. apply lookup_empty. }
  split.
  - rewrite (F3 "threshold" (Hthr _ _ in_sections_antipatterns)),
      (F2 "threshold" (Hthr _ _ in_sections_coverage)),
      (F1 "threshold" (Hthr _ _ in_sections_complexity)).
    destruct (g !! "threshold") as [v|] eqn:Ev.
    + rewrite bool_decide_eq_true_2 in E by eauto.
      cbn [mbind result_bind Py.bind] in E.
      step E. injection E as <-. exists a. split; [reflexivity|].
      apply lookup_insert_eq.
    + rewrite bool_decide_eq_false_2 in E
        by (intros [v Hv]; discriminate).
      injection E as <-. apply lookup_empty.
  - intros section prefix key Hs Hkey.
    assert (H0 := Hacc0 _ _ _ Hs Hkey).
    assert (Hs' := Hs). unfold Laws.sections in Hs'.
    repeat (apply elem_of_cons in Hs' as [Hs' | Hs']);
      try (apply elem_of_nil in Hs'; destruct Hs');
      injection Hs' as -> ->.
    + rewrite (F3 _ (other_section _ _ _ _ _ Hs Hkey
                       in_sections_antipatterns ltac:(discriminate))),
        (F2 _ (other_section _ _ _ _ _ Hs Hkey
                 in_sections_coverage ltac:(discriminate))).
      specialize (S1 key Hkey). rewrite H0 in S1. exact S1.
    + rewrite (F3 _ (other_section _ _ _ _ _ Hs Hkey
                       in_sections_antipatterns ltac:(discriminate))).
      specialize (S2 key Hkey).
      rewrite (F1 _ (other_section _ _ _ _ _ Hs Hkey
                       in_sections_complexity ltac:(discriminate))), H0
        in S2.
      exact S2.
    + specialize (S3 key Hkey).
      rewrite (F2 _ (other_section _ _ _ _ _ Hs Hkey
                       in_sections_coverage ltac:(discriminate))),
        (F1 _ (other_section _ _ _ _ _ Hs Hkey
                 in_sections_complexity ltac:(discriminate))), H0 in S3.
      exact S3.
Qed.

(** X8.  Entries that the loader does not know are ignored: two gate
    tables that say the same under "threshold" and, in each of the three
    sections, under "excellent", "acceptable" and "poor", give the same
    result, be it an override set or an exception. *)
Theorem config_ignores_unknown :
  forall cwd fs fs' path data data' tool tool' g g',
    fs path = Parsed data -> fs' path = Parsed data' ->
    data !! "tool" = Some (TTable tool) ->
    data' !! "tool" = Some (TTable tool') ->
    tool !! "ai-gate" = Some (TTable g) ->
    tool' !! "ai-gate" = Some (TTable g') ->
    Laws.same_settings g g' ->
    load_pyproject_config int_of_str float_of_str cwd fs (Some path) =
    load_pyproject_config int_of_str float_of_str cwd fs' (Some path).
Proof.
  intros cwd fs fs' path data data' tool tool' g g'
    Hfs Hfs' Htool Htool' Hgate Hgate' [Hthr Hsec].
  rewrite (load_parsed _ _ _ _ Hfs), (load_parsed _ _ _ _ Hfs').
  rewrite Htool, Htool'. cbn [default_or toml_get mbind result_bind Py.bind].
  rewrite Hgate, Hgate'.
  cbn [default_or toml_in toml_index mbind result_bind Py.bind].
  rewrite Hthr.
  destruct (match bool_decide (is_Some (g' !! "threshold")) with
            | true => _ | false => _ end) as [acc0|]; [|reflexivity].
  cbn [mbind result_bind Py.bind].
  apply fold_m_ext. intros acc [section prefix] Hsp.
  unfold read_section. cbn [toml_get mbind result_bind Py.bind].
  destruct (Hsec section prefix Hsp) as [-> | (s & s' & -> & -> & Hsame)];
    [reflexivity|].
  cbn [default_or]. fold Laws.section_keys.
  apply fold_m_ext. intros b key Hkey.
  rewrite !read_key_table, (Hsame key Hkey). reflexivity.
Qed.






End Loader.

(** The sample gate table, loaded. *)
Lemma sample_loaded :
  load_pyproject_config Sample.no_int Sample.no_float "/repo"
    (Laws.one_file "pyproject.toml" (Laws.pyproject Laws.gate_sample))
    (Some "pyproject.toml") =
  Ok (<["threshold" := Int 80]>
      (<["coverage_excellent" := Float 95]>
       (<["coverage_poor" := Float 50.5]> ∅))).
Proof. vm_compute. reflexivity. Defined.

Lemma config_overrides_known_witness :
  "coverage_poor" ∈ Laws.override_keys /\
  (("coverage_poor" = "threshold" /\ exists n, Float 50.5 = Int n) \/
   ("coverage_poor" <> "threshold" /\ exists x, Float 50.5 = Float x)).
Proof.
  exact (config_overrides_known Sample.no_int Sample.no_float _ _ _ _
           sample_loaded "coverage_poor" (Float 50.5) eq_refl).
Defined.

Lemma config_overrides_values_witness :
  exists cfg,
    load_pyproject_config Sample.no_int Sample.no_float "/repo"
      (Laws.one_file "pyproject.toml" (Laws.pyproject Laws.gate_sample))
      (Some "pyproject.toml") = Ok cfg /\
    (exists n, toml_int Sample.no_int (TInt 80) = Ok n /\
               cfg !! "threshold" = Some (Int n)) /\
    cfg !! "complexity_poor" = None.
Proof.
  eexists. split; [exact sample_loaded|].
  pose proof (config_overrides_values Sample.no_int Sample.no_float "/repo"
                (Laws.one_file "pyproject.toml"
                   (Laws.pyproject Laws.gate_sample))
                "pyproject.toml" (Laws.pyproject Laws.gate_sample)
                {[ "ai-gate" := TTable Laws.gate_sample ]} Laws.gate_sample
                _ eq_refl eq_refl eq_refl sample_loaded) as [H1 H2].
  split.
  - exact H1.
  - exact (H2 "complexity" "complexity" "poor" in_sections_complexity
             ltac:(repeat (apply elem_of_cons; first [left; reflexivity
                                                     | right]))).
Defined.

Lemma sample_same_settings :
  Laws.same_settings Laws.gate_sample Laws.gate_sample_noisy.
Proof.
  split; [reflexivity|].
  intros section prefix Hs. unfold Laws.sections in Hs.
  repeat (apply elem_of_cons in Hs as [Hs | Hs]);
    try (apply elem_of_nil in Hs; destruct Hs);
    injection Hs as -> ->.
  - left. reflexivity.
  - right. do 2 eexists. split; [reflexivity|]. split; [reflexivity|].
    intros k Hk. unfold Laws.section_keys in Hk.
    repeat (apply elem_of_cons in Hk as [Hk | Hk]);
      try (apply elem_of_nil in Hk; destruct Hk); subst k; reflexivity.
  - left. reflexivity.
Defined.

Lemma config_ignores_unknown_witness :
  Laws.same_settings Laws.gate_sample Laws.gate_sample_noisy /\
  load_pyproject_config Sample.no_int Sample.no_float "/repo"
    (Laws.one_file "pyproject.toml" (Laws.pyproject Laws.gate_sample))
    (Some "pyproject.toml") =
  load_pyproject_config Sample.no_int Sample.no_float "/repo"
    (Laws.one_file "pyproject.toml"
       (Laws.pyproject Laws.gate_sample_noisy))
    (Some "pyproject.toml").
Proof.
  split; [exact sample_same_settings|].
  exact (config_ignores_unknown Sample.no_int Sample.no_float "/repo"
           _ _ "pyproject.toml" _ _ _ _ _ _
           eq_refl eq_refl
           (eq_refl : Laws.pyproject Laws.gate_sample !! "tool" =
                      Some (TTable {[ "ai-gate" :=
                                        TTable Laws.gate_sample ]}))
           (eq_refl : Laws.pyproject Laws.gate_sample_noisy !! "tool" =
                      Some (TTable {[ "ai-gate" :=
                                        TTable Laws.gate_sample_noisy ]}))
           eq_refl eq_refl sample_same_settings).
Defined.


End ConfigLaws.

(** ** Threshold resolution, from the config file to the scores *)

Module Resolution.

Import Score Spec ScoreProps.




Section Thresholds.

Variable int_of_str : string -> result Z.
Variable float_of_str : string -> result Q.
Variable str_float : Q -> string.
Variable str_container : json -> string.




End Thresholds.


End Resolution.

(** ** Further properties of the anti-pattern extractor *)

Module ExtractorLaws.

Import Score Spec ScoreProps.

(** *** The line count *)

Lemma count_loc_fold l acc :
  fold_left (fun total p =>
    if excluded p then total
    else match read_text p with
         | Some text => (total + count_lines text)%Z
         | None => total
         end) (rglob_py l) acc =
  (acc + Laws.source_lines l)%Z.
Proof.
  revert acc. unfold Laws.source_lines.
  induction l as [|p l IH]; intros acc; cbn [rglob_py List.filter map fold_right].
  - cbn. lia.
  - unfold Laws.source_lines_of at 1. fold (Laws.is_python p).
    fold (rglob_py l).
    destruct (Laws.is_python p); cbn [andb fold_left].
    + destruct (excluded p), (read_text p); cbn [negb]; rewrite IH; lia.
    + rewrite IH. lia.
Qed.

Lemma count_loc_sum tree : _count_loc tree = Z.max (Laws.source_lines tree) 1.
Proof. unfold _count_loc. rewrite count_loc_fold. reflexivity. Qed.

Lemma source_lines_app l1 l2 :
  Laws.source_lines (l1 ++ l2) =
  (Laws.source_lines l1 + Laws.source_lines l2)%Z.
Proof.
  unfold Laws.source_lines. induction l1 as [|p l1 IH]; cbn; [reflexivity|].
  cbn in IH. rewrite IH. lia.
Qed.

Lemma source_lines_perm l1 l2 :
  l1 ≡ₚ l2 -> Laws.source_lines l1 = Laws.source_lines l2.
Proof.
  unfold Laws.source_lines.
  induction 1 as [|p l1 l2 _ IH|p q l|l1 l2 l3 _ IH1 _ IH2]; cbn;
    [reflexivity|rewrite IH; reflexivity|lia|congruence].
Qed.

(** X9.  [_count_loc] is the sum, over the entries of the tree, of the
    source lines of the readable Python files outside the excluded
    top-level directories, or 1 if that sum is smaller; so the order in
    which the tree is walked does not matter. *)
Theorem count_loc_order :
  (forall tree, _count_loc tree = Z.max (Laws.source_lines tree) 1) /\
  (forall tree tree', tree ≡ₚ tree' -> _count_loc tree = _count_loc tree').
Proof.
  split; [exact count_loc_sum|].
  intros tree tree' H.
  rewrite !count_loc_sum, (source_lines_perm _ _ H). reflexivity.
Qed.

(** The sample tree, walked backwards. *)
Lemma count_loc_order_witness :
  Sample.hundred_line_tree ≡ₚ rev Sample.hundred_line_tree /\
  _count_loc Sample.hundred_line_tree =
  _count_loc (rev Sample.hundred_line_tree).
Proof.
  assert (H : Sample.hundred_line_tree ≡ₚ rev Sample.hundred_line_tree)
    by apply Permutation_rev.
  split; [exact H|]. exact (proj2 count_loc_order _ _ H).
Defined.

(** X10.  An entry that is under an excluded top-level directory, is not
    a Python file or cannot be read does not change the count.  Only the
    first component of a path excludes it: a Python file whose first
    component is not excluded counts, whatever the names of the
    directories below. *)
Theorem count_loc_ignores :
  (forall l1 p l2,
     excluded p = true \/ Laws.is_python p = false \/ read_text p = None ->
     _count_loc (l1 ++ p :: l2) = _count_loc (l1 ++ l2)) /\
  (forall l1 l2 first rest text,
     first ∉ LOC_EXCLUDE_DIRS ->
     let p := {| rel_parts := first :: rest; read_text := Some text |} in
     Laws.is_python p = true ->
     _count_loc (l1 ++ p :: l2) =
     Z.max (Laws.source_lines (l1 ++ l2) + count_lines text) 1).
Proof.
  split.
  - intros l1 p l2 H. rewrite !count_loc_sum, !source_lines_app.
    change (p :: l2) with ([p] ++ l2). rewrite source_lines_app.
    assert (Hp : Laws.source_lines [p] = 0%Z).
    { unfold Laws.source_lines, Laws.source_lines_of. cbn [map fold_right].
      destruct H as [-> | [-> | ->]].
      - rewrite andb_false_r. reflexivity.
      - reflexivity.
      - destruct (_ && _); reflexivity. }
    rewrite Hp. f_equal; lia.
  - intros l1 l2 first rest text Hfirst p Hpy.
    rewrite count_loc_sum, !source_lines_app.
    change (p :: l2) with ([p] ++ l2). rewrite source_lines_app.
    assert (Hp : Laws.source_lines [p] = count_lines text).
    { unfold Laws.source_lines, Laws.source_lines_of. cbn [map fold_right].
      rewrite Hpy. unfold excluded. cbn [rel_parts read_text p].
      rewrite bool_decide_eq_false_2 by exact Hfirst. cbn. lia. }
    rewrite Hp. f_equal; lia.
Qed.

(** A file under src/tests counts; one under tests does not. *)
Lemma count_loc_ignores_witness :
  _count_loc (Sample.hundred_line_tree ++ [Laws.nested_tests_file]) = 105%Z /\
  _count_loc
    ([{| rel_parts := ["tests"; "helpers.py"];
         read_text := Some (Sample.source_text 5) |}] ++
     Sample.hundred_line_tree) = 100%Z.
Proof.
  split.
  - unfold Laws.nested_tests_file.
    rewrite (proj2 count_loc_ignores Sample.hundred_line_tree [] "src"
               ["tests"; "helpers.py"] (Sample.source_text 5)
               ltac:(vm_compute; intros H; discriminate H) eq_refl).
    vm_compute. reflexivity.
  - pose proof (proj1 count_loc_ignores []
                  {| rel_parts := ["tests"; "helpers.py"];
                     read_text := Some (Sample.source_text 5) |}
                  Sample.hundred_line_tree (or_introl eq_refl)) as H.
    cbn [app] in H |- *. rewrite H. vm_compute. reflexivity.
Defined.

(** *** Findings *)

Section Findings.

Variable str_float : Q -> string.
Variable str_container : json -> string.

Lemma json_len_nonneg v n : json_len v = Ok n -> (0 <= n)%Z.
Proof. destruct v; cbn; intros [= <-]; lia. Qed.

Lemma json_slice_to_length n v l :
  json_slice_to n v = Ok l -> (length l <= n)%nat.
Proof.
  destruct v; cbn; try discriminate; intros [= <-].
  - rewrite length_map.
    clear. revert s. induction n as [|n IH]; intros [|c s]; cbn; try lia.
    specialize (IH s). lia.
  - rewrite length_take. lia.
Qed.

(** X11.  Whatever the findings file and the tree, when the extractor
    returns, the density is not negative and there are 11 warnings at
    most. *)
Theorem antipatterns_bounded :
  forall semgrep_json tree density detail ws,
    measure_antipatterns str_float str_container semgrep_json tree =
      Ok (density, detail, ws) ->
    0 <= density /\ (length ws <= 11)%nat.
Proof.
  intros f tree density detail ws H.
  destruct f as [| |err|err|data]; try discriminate H.
  - injection H as <- _ <-. split; [discriminate|cbn; lia].
  - injection H as <- _ <-. split; [discriminate|cbn; lia].
  - destruct (measure_antipatterns_parsed _ _ _ _ _ _ _ H)
      as (results & n & first & individual & _ & Hn & -> & Hfirst & Heach &
          ->).
    split.
    + assert (Hloc := count_loc_floor tree).
      apply json_len_nonneg in Hn.
      assert (H0 : 0 <= inject_Z n) by (rewrite <- (Zle_Qle 0); exact Hn).
      assert (H1 : 0 < inject_Z (_count_loc tree)).
      { rewrite <- (Zlt_Qlt 0). lia. }
      apply Qmult_le_0_compat; [|discriminate].
      apply Qle_shift_div_l; [exact H1|]. lra.
    + apply for_each_ok, Forall2_length in Heach.
      apply json_slice_to_length in Hfirst.
      rewrite length_app, <- Heach.
      destruct (10 <? n)%Z; cbn [length]; lia.
Qed.

(** X12.  With no finding, the "results" key absent or its list empty,
    the extractor returns density 0 and no warning at all. *)
Theorem antipatterns_none :
  forall (d : gmap string json) tree,
    d !! "results" = None \/ d !! "results" = Some (JArr []) ->
    exists density detail,
      measure_antipatterns str_float str_container (Parsed (JObj d)) tree =
        Ok (density, detail, []) /\
      density == 0.
Proof.
  intros d tree H. unfold measure_antipatterns. cbn [json_get].
  assert (Hres : default_or (d !! "results") (JArr []) = JArr [])
    by (destruct H as [-> | ->]; reflexivity).
  rewrite Hres.
  cbn [json_len json_slice_to length take Py.for_each mbind result_bind
       Py.bind].
  assert (Hloc := count_loc_floor tree).
  destruct (0 <? _count_loc tree)%Z eqn:E; [|apply Z.ltb_ge in E; lia].
  change (Z.of_nat 0) with 0%Z.
  rewrite div_by_loc. cbn [mbind result_bind Py.bind Z.ltb Z.compare].
  do 2 eexists. split; [reflexivity|].
  unfold Qdiv. rewrite Qmult_0_l. reflexivity.
Qed.

(** X13.  The extractor looks at the first ten findings and at the
    number of findings, and at nothing else: two findings lists of one
    length with the same first ten give the same result, whatever the
    findings beyond the tenth are. *)
Theorem antipatterns_first_ten :
  forall (d d' : gmap string json) (l l' : list json) tree,
    d !! "results" = Some (JArr l) ->
    d' !! "results" = Some (JArr l') ->
    take 10 l = take 10 l' -> length l = length l' ->
    measure_antipatterns str_float str_container (Parsed (JObj d)) tree =
    measure_antipatterns str_float str_container (Parsed (JObj d')) tree.
Proof.
  intros d d' l l' tree Hd Hd' Htake Hlen.
  unfold measure_antipatterns. cbn [json_get]. rewrite Hd, Hd'.
  cbn [default_or json_len json_slice_to mbind result_bind Py.bind].
  rewrite Htake, Hlen. reflexivity.
Qed.

End Findings.

(** No "results" key at all. *)
Lemma antipatterns_none_witness :
  exists density detail,
    measure_antipatterns Sample.no_str_float Sample.no_str_container
      (Parsed (JObj {[ "errors" := JArr [] ]})) Sample.hundred_line_tree =
      Ok (density, detail, []) /\
    density == 0.
Proof.
  exact (antipatterns_none Sample.no_str_float Sample.no_str_container
           {[ "errors" := JArr [] ]} Sample.hundred_line_tree
           (or_introl eq_refl)).
Defined.

(** Fifteen findings: eleven warnings, the bound. *)
Lemma antipatterns_bounded_witness :
  exists density detail ws,
    measure_antipatterns Sample.no_str_float Sample.no_str_container
      (Sample.findings_file 15) Sample.hundred_line_tree =
      Ok (density, detail, ws) /\
    0 <= density /\ (length ws <= 11)%nat.
Proof.
  assert (exists density detail ws,
            measure_antipatterns Sample.no_str_float Sample.no_str_container
              (Sample.findings_file 15) Sample.hundred_line_tree =
            Ok (density, detail, ws)) as (density & detail & ws & E)
    by (vm_compute; do 3 eexists; reflexivity).
  exists density, detail, ws. split; [exact E|].
  exact (antipatterns_bounded _ _ _ _ _ _ _ E).
Defined.

(** An eleventh finding that is not even an object does no harm. *)
Lemma antipatterns_first_ten_witness :
  take 10 Laws.eleven_findings = take 10 Laws.ten_findings_and_null /\
  measure_antipatterns Sample.no_str_float Sample.no_str_container
    (Laws.findings Laws.eleven_findings) Sample.hundred_line_tree =
  measure_antipatterns Sample.no_str_float Sample.no_str_container
    (Laws.findings Laws.ten_findings_and_null) Sample.hundred_line_tree.
Proof.
  assert (H : take 10 Laws.eleven_findings =
              take 10 Laws.ten_findings_and_null) by reflexivity.
  split; [exact H|].
  exact (antipatterns_first_ten Sample.no_str_float Sample.no_str_container
           {[ "results" := JArr Laws.eleven_findings ]}
           {[ "results" := JArr Laws.ten_findings_and_null ]}
           Laws.eleven_findings Laws.ten_findings_and_null
           Sample.hundred_line_tree eq_refl eq_refl H eq_refl).
Defined.

End ExtractorLaws.

(** ** Further properties of the score history store *)

Module StoreLaws.

Import ScoreStore Spec StoreProps.

(** *** Recording leaves the other repositories alone *)

Lemma rows_of_record db now score_ repo_ branch_ pr_ sha_ thr cs cov ap other :
  repo_ <> other ->
  rows_of other (fst (record_run db now score_ repo_ branch_ pr_ sha_ thr
                        cs cov ap)) = rows_of other db.
Proof.
  intros Hne. unfold record_run, get_connection. cbn [fst].
  rewrite rows_of_app. cbn [rows_of List.filter repo].
  apply String.eqb_neq in Hne. rewrite Hne. apply app_nil_r.
Qed.

(** X14.  Recording a run for one repository changes nothing for any
    other: its trend, its latest run, with or without a branch, and its
    statistics are the same before and after. *)
Theorem record_leaves_others :
  forall db now score_ repo_ branch_ pr_ sha_ thr cs cov ap other limit b,
    repo_ <> other ->
    let db' := fst (record_run db now score_ repo_ branch_ pr_ sha_ thr
                      cs cov ap) in
    query_trend db' other limit = query_trend db other limit /\
    query_latest db' other b = query_latest db other b /\
    query_stats db' other = query_stats db other.
Proof.
  intros db now score_ repo_ branch_ pr_ sha_ thr cs cov ap other limit b
    Hne db'.
  assert (Hrows : rows_of other db' = rows_of other db)
    by (apply rows_of_record; exact Hne).
  split; [|split].
  - rewrite !query_trend_eq, Hrows. reflexivity.
  - unfold query_latest, get_connection. fold (rows_of other db').
    fold (rows_of other db). rewrite Hrows.
    destruct (given b) as [b'|]; [|reflexivity].
    subst db'. unfold record_run, get_connection. cbn [fst].
    rewrite List.filter_app. cbn [List.filter repo branch].
    apply String.eqb_neq in Hne. rewrite Hne. cbn [andb].
    rewrite app_nil_r. reflexivity.
  - unfold query_stats, get_connection. fold (rows_of other db').
    fold (rows_of other db). rewrite Hrows. reflexivity.
Qed.

(** A run for org/other, seen from org/repo. *)
Lemma record_leaves_others_witness :
  let db := fst (record [] "2026-01-01T09:00:00+00:00" 60 "org/repo") in
  let db' := fst (record db "2026-01-02T09:00:00+00:00" 90 "org/other") in
  "org/other" <> "org/repo" /\
  query_trend db' "org/repo" 30 = query_trend db "org/repo" 30 /\
  query_latest db' "org/repo" None = query_latest db "org/repo" None /\
  query_stats db' "org/repo" = query_stats db "org/repo".
Proof.
  intros db db'.
  assert (H : "org/other" <> "org/repo") by discriminate.
  split; [exact H|].
  exact (record_leaves_others db "2026-01-02T09:00:00+00:00" 90 "org/other"
           "" None "" 70 None None None "org/repo" 30 None H).
Defined.

(** *** The stores that recording builds *)

Lemma next_rowid_app db r :
  (forall x, x ∈ db -> (id x < id r)%Z) -> (0 < id r)%Z ->
  next_rowid (db ++ [r]) = (id r + 1)%Z.
Proof.
  unfold next_rowid. intros Hdb Hr. f_equal.
  induction db as [|x db IH]; cbn.
  - lia.
  - assert (Hx : (id x < id r)%Z) by (apply Hdb, elem_of_cons; auto).
    rewrite IH; [lia|]. intros y Hy. apply Hdb, elem_of_cons. auto.
Qed.

Lemma recorded_ids db :
  Laws.recorded db ->
  map id db = map Z.of_nat (seq 1 (length db)) /\
  next_rowid db = Z.of_nat (S (length db)).
Proof.
  induction 1 as [|db now score_ repo_ branch_ pr_ sha_ thr cs cov ap _
                   [IH1 IH2]].
  - split; reflexivity.
  - unfold record_run, get_connection. cbn [fst].
    rewrite map_app, length_app, IH1. cbn [map length id].
    rewrite Nat.add_1_r, seq_S, map_app. cbn [map]. rewrite IH2.
    split; [reflexivity|].
    rewrite next_rowid_app; cbn [id]; rewrite ?IH2; try lia.
    intros x Hx. apply next_rowid_above in Hx. rewrite IH2 in Hx. exact Hx.
Qed.

(** X15.  In a store built by [record_run] from the empty one, the row
    ids are 1, 2, 3, ... in the order of recording: the n-th run recorded
    has id n, and no two rows share an id. *)
Theorem recorded_row_ids :
  forall db : list Row,
    Laws.recorded db ->
    map id db = map Z.of_nat (seq 1 (length db)) /\
    NoDup (map id db) /\
    forall i r, db !! i = Some r -> id r = Z.of_nat (S i).
Proof.
  intros db H. destruct (recorded_ids db H) as [Hids _].
  split; [exact Hids|]. split.
  - rewrite Hids. apply NoDup_fmap_2; [intros x y; lia|].
    apply NoDup_ListNoDup, seq_NoDup.
  - intros i r Hi.
    assert (Hm : map id db !! i = Some (id r)).
    { change (map id db) with (id <$> db).
      rewrite list_lookup_fmap, Hi. reflexivity. }
    rewrite Hids in Hm. change (map Z.of_nat ?l) with (Z.of_nat <$> l) in Hm.
    rewrite list_lookup_fmap in Hm.
    destruct (seq 1 (length db) !! i) as [k|] eqn:Ek; [|discriminate Hm].
    apply lookup_seq in Ek as [-> _]. cbn in Hm. injection Hm as ->.
    f_equal.
Qed.

Lemma three_runs_recorded : Laws.recorded Laws.three_runs.
Proof.
  unfold Laws.three_runs. repeat apply Laws.recorded_run.
  apply Laws.recorded_empty.
Defined.

Lemma recorded_row_ids_witness :
  map id Laws.three_runs = [1; 2; 3]%Z /\ NoDup (map id Laws.three_runs).
Proof.
  destruct (recorded_row_ids _ three_runs_recorded) as (H1 & H2 & _).
  split; [exact H1|exact H2].
Defined.

(** *** The trend and the latest run *)

Lemma query_latest_eq db repo_ b :
  query_latest db repo_ b =
  head (sql_limit 1 (order_by_recorded_at_desc (Laws.candidates repo_ b db))).
Proof.
  unfold query_latest, Laws.candidates, get_connection, rows_of.
  destruct (given b); reflexivity.
Qed.

Lemma candidates_elem repo_ b db r :
  r ∈ Laws.candidates repo_ b db <->
  r ∈ db /\ repo r = repo_ /\ forall br, given b = Some br -> branch r = br.
Proof.
  unfold Laws.candidates. destruct (given b) as [b'|].
  - rewrite list_elem_of_In, filter_In, andb_true_iff, !String.eqb_eq,
      <- list_elem_of_In.
    split.
    + intros (H1 & H2 & H3). repeat split; auto. intros br [= <-]. exact H3.
    + intros (H1 & H2 & H3). repeat split; auto.
  - rewrite rows_of_elem. split.
    + intros [H1 H2]. repeat split; auto. discriminate.
    + intros (H1 & H2 & _). auto.
Qed.

Lemma head_sql_limit n (l : list Row) :
  (n < 0 \/ 1 <= n)%Z -> head (sql_limit n l) = head l.
Proof.
  intros Hn. unfold sql_limit. destruct (n <? 0)%Z eqn:E; [reflexivity|].
  apply Z.ltb_ge in E. destruct (Z.to_nat n) as [|k] eqn:Ek; [lia|].
  destruct l; reflexivity.
Qed.

(** X16.  [query_latest] returns a stored run of the repository, and of
    the branch when one is asked for, with the latest timestamp among
    them; it returns nothing exactly when there is no such run. *)
Theorem query_latest_is_latest :
  forall (db : list Row) repo_ b,
    match query_latest db repo_ b with
    | Some row =>
        row ∈ db /\ repo row = repo_ /\
        (forall br, given b = Some br -> branch row = br) /\
        forall r,
          r ∈ db -> repo r = repo_ ->
          (forall br, given b = Some br -> branch r = br) ->
          not_later (recorded_at r) (recorded_at row)
    | None =>
        forall r,
          r ∈ db -> repo r = repo_ ->
          ~ (forall br, given b = Some br -> branch r = br)
    end.
Proof.
  intros db repo_ b. rewrite query_latest_eq, head_sql_limit by lia.
  assert (Hperm := order_by_perm (Laws.candidates repo_ b db)).
  assert (Hsorted := order_by_sorted (Laws.candidates repo_ b db)).
  destruct (order_by_recorded_at_desc (Laws.candidates repo_ b db))
    as [|row rest]; cbn [head].
  - intros r Hr Hrepo Hbranch.
    assert (Hin : r ∈ Laws.candidates repo_ b db)
      by (apply candidates_elem; auto).
    rewrite <- Hperm in Hin. apply elem_of_nil in Hin. exact Hin.
  - assert (Hrow : row ∈ Laws.candidates repo_ b db).
    { rewrite <- Hperm. apply elem_of_cons. auto. }
    apply candidates_elem in Hrow as (H1 & H2 & H3).
    repeat split; auto.
    intros r Hr Hrepo Hbranch.
    assert (Hin : r ∈ Laws.candidates repo_ b db)
      by (apply candidates_elem; auto).
    rewrite <- Hperm in Hin.
    apply StronglySorted_inv in Hsorted as [_ Hall].
    apply elem_of_cons in Hin as [-> | Hin].
    + apply not_later_cases. auto.
    + rewrite Forall_forall in Hall. apply Hall. exact Hin.
Qed.

(** X17.  A limit keeps the most recent runs: the runs of the repository
    split into those [query_trend] returns and those it leaves out, and
    none that is left out is later than one that is returned. *)
Theorem query_trend_keeps_latest :
  forall (db : list Row) repo_ limit,
    (0 <= limit)%Z ->
    exists kept dropped,
      kept ++ dropped ≡ₚ rows_of repo_ db /\
      query_trend db repo_ limit = map select_trend (rev kept) /\
      length kept = Nat.min (Z.to_nat limit) (length (rows_of repo_ db)) /\
      forall x y,
        x ∈ kept -> y ∈ dropped ->
        not_later (recorded_at y) (recorded_at x).
Proof.
  intros db repo_ limit Hl.
  set (s := order_by_recorded_at_desc (rows_of repo_ db)).
  exists (take (Z.to_nat limit) s), (drop (Z.to_nat limit) s).
  assert (Hlim : sql_limit limit s = take (Z.to_nat limit) s).
  { unfold sql_limit. destruct (limit <? 0)%Z eqn:E; [|reflexivity].
    apply Z.ltb_lt in E. lia. }
  split; [rewrite take_drop; apply order_by_perm|].
  split; [rewrite query_trend_eq; fold s; rewrite Hlim; reflexivity|].
  split.
  - rewrite length_take. unfold s.
    rewrite (Permutation_length (order_by_perm _)). reflexivity.
  - intros x y Hx Hy.
    assert (Hs := order_by_sorted (rows_of repo_ db)). fold s in Hs.
    rewrite <- (take_drop (Z.to_nat limit) s) in Hs.
    exact (StronglySorted_app_1_elem_of _ _ _ _ _ Hs Hx Hy).
Qed.

(** The two most recent of three runs. *)
Lemma query_trend_keeps_latest_witness :
  exists kept dropped,
    kept ++ dropped ≡ₚ rows_of "org/repo" Laws.three_runs /\
    query_trend Laws.three_runs "org/repo" 1 = map select_trend (rev kept) /\
    length kept = 1%nat.
Proof.
  destruct (query_trend_keeps_latest Laws.three_runs "org/repo" 1
              ltac:(discriminate))
    as (kept & dropped & H1 & H2 & H3 & _).
  exists kept, dropped. split; [exact H1|]. split; [exact H2|exact H3].
Defined.



(** The latest run of org/repo on the branch dev. *)
Lemma query_latest_is_latest_witness :
  exists row,
    query_latest Laws.three_runs "org/repo" (Some "dev") = Some row /\
    row ∈ Laws.three_runs /\ repo row = "org/repo" /\ branch row = "dev".
Proof.
  pose proof (query_latest_is_latest Laws.three_runs "org/repo" (Some "dev"))
    as H.
  destruct (query_latest Laws.three_runs "org/repo" (Some "dev"))
    as [row|] eqn:E; [|discriminate E].
  destruct H as (H1 & H2 & H3 & _).
  exists row. split; [reflexivity|]. split; [exact H1|].
  split; [exact H2|]. apply H3. reflexivity.
Defined.

(** *** The statistics *)

Lemma stats_lookups db repo_ stats :
  query_stats db repo_ = Ok stats -> rows_of repo_ db <> [] ->
  stats !! "total_runs" = Some (VInt (sql_count (rows_of repo_ db))) /\
  stats !! "avg_score" = Some (sql_avg_score (rows_of repo_ db)) /\
  stats !! "best_score" = Some (sql_max_score (rows_of repo_ db)) /\
  stats !! "worst_score" = Some (sql_min_score (rows_of repo_ db)) /\
  stats !! "passed_runs" = Some (sql_sum_passed (rows_of repo_ db)) /\
  stats !! "blocked_runs" =
    Some (sql_sub (VInt (sql_count (rows_of repo_ db)))
                  (sql_sum_passed (rows_of repo_ db))) /\
  exists rate,
    percent (sql_sum_passed (rows_of repo_ db))
            (VInt (sql_count (rows_of repo_ db))) = Ok rate /\
    stats !! "pass_rate" = Some (VReal (Py.round rate 1)).
Proof.
  unfold query_stats, get_connection. fold (rows_of repo_ db).
  intros H Hrows.
  destruct (sql_count (rows_of repo_ db) =? 0)%Z eqn:E.
  - apply Z.eqb_eq in E. unfold sql_count in E.
    destruct (rows_of repo_ db); [congruence|cbn in E; lia].
  - destruct (percent _ _) as [rate|] eqn:Er;
      cbn [mbind result_bind Py.bind] in H; [|discriminate H].
    injection H as <-.
    repeat split; try reflexivity.
    exists rate. split; [reflexivity|]. apply lookup_insert_eq.
Qed.

Lemma percent_returns (l : list Row) :
  l <> [] ->
  percent (sql_sum_passed l) (VInt (sql_count l)) =
  Ok (inject_Z (fold_right Z.add 0%Z (map passed l)) /
      inject_Z (sql_count l) * 100).
Proof.
  intros Hl. destruct l as [|x l]; [congruence|].
  cbn [sql_sum_passed percent].
  rewrite ScoreProps.div_nonzero; [reflexivity|].
  unfold sql_count. cbn [length]. intros H.
  assert (H0 : 0 < inject_Z (Z.of_nat (S (length l)))).
  { rewrite <- (Zlt_Qlt 0). lia. }
  lra.
Qed.

Lemma query_stats_returns db repo_ :
  rows_of repo_ db <> [] -> exists stats, query_stats db repo_ = Ok stats.
Proof.
  intros Hrows. unfold query_stats, get_connection. fold (rows_of repo_ db).
  destruct (sql_count (rows_of repo_ db) =? 0)%Z eqn:E.
  - apply Z.eqb_eq in E. unfold sql_count in E.
    destruct (rows_of repo_ db); [congruence|cbn in E; lia].
  - rewrite (percent_returns _ Hrows). cbn [mbind result_bind Py.bind].
    eauto.
Qed.

Lemma max_score_above first (rest : list Row) :
  score first <= fold_right Qmax (score first) (map score rest) /\
  forall r, r ∈ rest ->
            score r <= fold_right Qmax (score first) (map score rest).
Proof.
  induction rest as [|x rest [IH1 IH2]]; cbn [map fold_right].
  - split; [apply Qle_refl|]. intros r Hr. apply elem_of_nil in Hr.
    destruct Hr.
  - split.
    + eapply Qle_trans; [exact IH1|apply Q.le_max_r].
    + intros r Hr. apply elem_of_cons in Hr as [-> | Hr].
      * apply Q.le_max_l.
      * eapply Qle_trans; [apply IH2; exact Hr|apply Q.le_max_r].
Qed.

Lemma min_score_below first (rest : list Row) :
  fold_right Qmin (score first) (map score rest) <= score first /\
  forall r, r ∈ rest ->
            fold_right Qmin (score first) (map score rest) <= score r.
Proof.
  induction rest as [|x rest [IH1 IH2]]; cbn [map fold_right].
  - split; [apply Qle_refl|]. intros r Hr. apply elem_of_nil in Hr.
    destruct Hr.
  - split.
    + eapply Qle_trans; [apply Q.le_min_r|exact IH1].
    + intros r Hr. apply elem_of_cons in Hr as [-> | Hr].
      * apply Q.le_min_l.
      * eapply Qle_trans; [apply Q.le_min_r|apply IH2; exact Hr].
Qed.

Lemma max_score_attained first (rest : list Row) :
  exists r,
    r ∈ first :: rest /\
    score r == fold_right Qmax (score first) (map score rest).
Proof.
  induction rest as [|x rest (r & Hr & IH)]; cbn [map fold_right].
  - exists first. split; [apply elem_of_cons; auto|reflexivity].
  - destruct (Q.max_spec (score x)
                (fold_right Qmax (score first) (map score rest)))
      as [[_ Hm] | [_ Hm]].
    + exists r. split; [|rewrite Hm; exact IH].
      apply elem_of_cons in Hr as [-> | Hr];
        rewrite !elem_of_cons; auto.
    + exists x. split; [rewrite !elem_of_cons; auto|].
      rewrite Hm. reflexivity.
Qed.

Lemma min_score_attained first (rest : list Row) :
  exists r,
    r ∈ first :: rest /\
    score r == fold_right Qmin (score first) (map score rest).
Proof.
  induction rest as [|x rest (r & Hr & IH)]; cbn [map fold_right].
  - exists first. split; [apply elem_of_cons; auto|reflexivity].
  - destruct (Q.min_spec (score x)
                (fold_right Qmin (score first) (map score rest)))
      as [[_ Hm] | [_ Hm]].
    + exists x. split; [rewrite !elem_of_cons; auto|].
      rewrite Hm. reflexivity.
    + exists r. split; [|rewrite Hm; exact IH].
      apply elem_of_cons in Hr as [-> | Hr];
        rewrite !elem_of_cons; auto.
Qed.

(** X19.  For a repository with runs, the worst and the best score of
    the statistics are scores of runs of the repository, and every score
    of the repository lies between the two. *)
Theorem stats_extremes :
  forall (db : list Row) repo_,
    rows_of repo_ db <> [] ->
    exists stats worst best,
      query_stats db repo_ = Ok stats /\
      stats !! "worst_score" = Some (VReal worst) /\
      stats !! "best_score" = Some (VReal best) /\
      (forall r, r ∈ db -> repo r = repo_ ->
                 worst <= score r /\ score r <= best) /\
      (exists r, r ∈ db /\ repo r = repo_ /\ score r == worst) /\
      (exists r, r ∈ db /\ repo r = repo_ /\ score r == best).
Proof.
  intros db repo_ Hrows.
  destruct (query_stats_returns db repo_ Hrows) as [stats Hstats].
  destruct (stats_lookups _ _ _ Hstats Hrows)
    as (_ & _ & Hbest & Hworst & _).
  destruct (rows_of repo_ db) as [|first rest] eqn:E; [congruence|].
  cbn [sql_max_score sql_min_score] in Hbest, Hworst.
  do 3 eexists. split; [exact Hstats|]. split; [exact Hworst|].
  split; [exact Hbest|].
  destruct (max_score_above first rest) as [M1 M2].
  destruct (min_score_below first rest) as [N1 N2].
  destruct (max_score_attained first rest) as (rmax & Hmax & Emax).
  destruct (min_score_attained first rest) as (rmin & Hmin & Emin).
  rewrite <- E in Hmax, Hmin.
  apply rows_of_elem in Hmax as [Hmax1 Hmax2].
  apply rows_of_elem in Hmin as [Hmin1 Hmin2].
  split; [|split; [exists rmin; auto|exists rmax; auto]].
  intros r Hr Hrepo.
  assert (Hin : r ∈ first :: rest).
  { rewrite <- E. apply rows_of_elem. auto. }
  apply elem_of_cons in Hin as [-> | Hin]; auto.
Qed.

(** Two runs of one repository, at 60 and 85. *)
Lemma stats_extremes_witness :
  rows_of "org/repo" Laws.three_runs <> [] /\
  exists stats worst best,
    query_stats Laws.three_runs "org/repo" = Ok stats /\
    stats !! "worst_score" = Some (VReal worst) /\
    stats !! "best_score" = Some (VReal best) /\
    exists r, r ∈ Laws.three_runs /\ score r == best.
Proof.
  assert (H : rows_of "org/repo" Laws.three_runs <> []) by discriminate.
  split; [exact H|].
  destruct (stats_extremes Laws.three_runs "org/repo" H)
    as (stats & worst & best & H1 & H2 & H3 & _ & _ & (r & H4 & _ & H5)).
  exists stats, worst, best. repeat split; try assumption.
  exists r. split; assumption.
Defined.

Lemma recorded_passed (db : list Row) :
  Laws.recorded db ->
  Forall (fun r => passed r =
                   if Py.ge (score r) (threshold r) then 1%Z else 0%Z) db.
Proof.
  induction 1 as [|db now score_ repo_ branch_ pr_ sha_ thr cs cov ap _ IH].
  - constructor.
  - unfold record_run, get_connection. cbn [fst].
    apply Forall_app. split; [exact IH|]. repeat constructor.
Qed.

Lemma sum_passed_count (l : list Row) :
  Forall (fun r => passed r =
                   if Py.ge (score r) (threshold r) then 1%Z else 0%Z) l ->
  fold_right Z.add 0%Z (map passed l) = Z.of_nat (length (Laws.passing l)).
Proof.
  unfold Laws.passing. induction 1 as [|r l Hr _ IH]; [reflexivity|].
  cbn [map fold_right List.filter]. rewrite IH, Hr.
  destruct (Py.ge (score r) (threshold r)); cbn [length]; lia.
Qed.

Lemma passing_length (l : list Row) : (length (Laws.passing l) <= length l)%nat.
Proof.
  unfold Laws.passing. induction l as [|r l IH]; cbn; [lia|].
  destruct (Py.ge _ _); cbn; lia.
Qed.

Lemma tenth_in_range x r :
  rounded_to_tenth x r -> 0 <= x -> x <= 100 -> 0 <= r /\ r <= 100.
Proof.
  intros [[k Hk] [H1 H2]] Hx0 Hx1.
  assert (Hr : r == inject_Z k * (1 # 10)) by (rewrite Hk; field).
  split.
  - destruct (Z_lt_le_dec k 0) as [Hneg | Hpos].
    + assert (Hk1 : inject_Z k <= inject_Z (-1))
        by (rewrite <- Zle_Qle; lia).
      change (inject_Z (-1)) with (-(1)) in Hk1. lra.
    + assert (Hk0 : inject_Z 0 <= inject_Z k) by (rewrite <- Zle_Qle; lia).
      change (inject_Z 0) with 0 in Hk0. lra.
  - destruct (Z_lt_le_dec 1000 k) as [Hbig | Hok].
    + assert (Hk1 : inject_Z 1001 <= inject_Z k)
        by (rewrite <- Zle_Qle; lia).
      change (inject_Z 1001) with 1001 in Hk1. lra.
    + assert (Hk0 : inject_Z k <= inject_Z 1000)
        by (rewrite <- Zle_Qle; lia).
      change (inject_Z 1000) with 1000 in Hk0. lra.
Qed.

(** X20.  In a store built by [record_run], the statistics of a
    repository with runs count as passed the runs whose score reached
    their threshold and as blocked the others, and the pass rate is a
    number between 0 and 100. *)
Theorem recorded_pass_rate :
  forall (db : list Row) repo_,
    Laws.recorded db -> rows_of repo_ db <> [] ->
    let total_runs := Z.of_nat (length (rows_of repo_ db)) in
    let passed_runs :=
      Z.of_nat (length (Laws.passing (rows_of repo_ db))) in
    exists stats rate,
      query_stats db repo_ = Ok stats /\
      stats !! "total_runs" = Some (VInt total_runs) /\
      stats !! "passed_runs" = Some (VInt passed_runs) /\
      stats !! "blocked_runs" = Some (VInt (total_runs - passed_runs)) /\
      stats !! "pass_rate" = Some (VReal rate) /\
      0 <= rate /\ rate <= 100.
Proof.
  intros db repo_ Hrec Hrows total_runs passed_runs.
  destruct (query_stats_returns db repo_ Hrows) as [stats Hstats].
  destruct (stats_lookups _ _ _ Hstats Hrows)
    as (Htotal & _ & _ & _ & Hpassed & Hblocked & rate & Hrate & Hpr).
  assert (Hall : Forall (fun r => passed r =
              if Py.ge (score r) (threshold r) then 1%Z else 0%Z)
              (rows_of repo_ db)).
  { apply Forall_forall. intros r Hr. apply rows_of_elem in Hr as [Hr _].
    pose proof (recorded_passed db Hrec) as Hdb.
    rewrite Forall_forall in Hdb. apply Hdb. exact Hr. }
  assert (Hsum : sql_sum_passed (rows_of repo_ db) = VInt passed_runs).
  { subst passed_runs. rewrite <- (sum_passed_count _ Hall).
    unfold sql_sum_passed.
    destruct (rows_of repo_ db); [congruence|reflexivity]. }
  rewrite Hsum in Hpassed, Hblocked.
  rewrite (percent_returns _ Hrows), (sum_passed_count _ Hall) in Hrate.
  injection Hrate as <-.
  exists stats, (Py.round (inject_Z passed_runs / inject_Z total_runs * 100) 1).
  split; [exact Hstats|]. split; [exact Htotal|]. split; [exact Hpassed|].
  split; [exact Hblocked|]. split; [exact Hpr|].
  apply (tenth_in_range _ _ (round_tenth _)).
  - assert (Hp : 0 <= inject_Z passed_runs)
      by (rewrite <- (Zle_Qle 0); subst passed_runs; lia).
    assert (Ht : 0 < inject_Z total_runs).
    { rewrite <- (Zlt_Qlt 0). subst total_runs.
      destruct (rows_of repo_ db); [congruence|cbn [length]; lia]. }
    apply Qmult_le_0_compat; [|discriminate].
    apply Qle_shift_div_l; [exact Ht|lra].
  - assert (Hpt : inject_Z passed_runs <= inject_Z total_runs).
    { rewrite <- Zle_Qle. subst passed_runs total_runs.
      pose proof (passing_length (rows_of repo_ db)). lia. }
    assert (Ht : 0 < inject_Z total_runs).
    { rewrite <- (Zlt_Qlt 0). subst total_runs.
      destruct (rows_of repo_ db); [congruence|cbn [length]; lia]. }
    assert (Hq : inject_Z passed_runs / inject_Z total_runs <= 1)
      by (apply Qle_shift_div_r; [exact Ht|lra]).
    lra.
Qed.

Lemma recorded_pass_rate_witness :
  Laws.recorded Laws.three_runs /\
  rows_of "org/repo" Laws.three_runs <> [] /\
  exists stats rate,
    query_stats Laws.three_runs "org/repo" = Ok stats /\
    stats !! "passed_runs" = Some (VInt 1) /\
    stats !! "blocked_runs" = Some (VInt 1) /\
    stats !! "pass_rate" = Some (VReal rate) /\ 0 <= rate /\ rate <= 100.
Proof.
  assert (H : rows_of "org/repo" Laws.three_runs <> []) by discriminate.
  split; [exact three_runs_recorded|]. split; [exact H|].
  destruct (recorded_pass_rate Laws.three_runs "org/repo"
              three_runs_recorded H)
    as (stats & rate & H1 & _ & H3 & H4 & H5 & H6 & H7).
  exists stats, rate. repeat split; assumption.
Defined.

End StoreLaws.

(** ** Properties of the complexity and coverage extractors *)

Module SignalLaws.

Import Score Spec ScoreProps.
Import Signals.

Lemma gt_true a b : Py.gt a b = true <-> b < a.
Proof. unfold Py.gt. rewrite negb_true_iff. apply (ge_false b a). Qed.

Lemma gt_false a b : Py.gt a b = false <-> a <= b.
Proof. unfold Py.gt. rewrite negb_false_iff. apply (ge_true b a). Qed.

Lemma float_of_digits_like : Laws.float_like Laws.float_of_digits.
Proof.
  intros s e. unfold Laws.float_of_digits.
  destruct (strip s); [intros [= <-]; reflexivity|].
  destruct (Laws.digits_value _ _); [discriminate|].
  intros [= <-]. reflexivity.
Qed.


Section Extractors.

Variable int_of_str : string -> result Z.
Variable float_of_str : string -> result Q.
Variable float_error : string -> string.
Variable str_float : Q -> string.
Variable str_container : json -> string.

(** *** The Python analyzer *)

(** One turn of the loop over the analyzer's lines. *)
Lemma scan_line_step cs ws line :
  Laws.float_like float_of_str ->
  exists w,
    scan_line float_of_str (cs, ws) line =
    Ok (match Laws.complexity_of float_of_str line with
        | Some cc => (cs ++ [cc], if Py.gt cc 20 then ws ++ [w] else ws)
        | None => (cs, ws)
        end).
Proof.
  intros Hf. unfold scan_line, Laws.complexity_of.
  destruct (length (split line ",") <? 3)%nat; [exists ""; reflexivity|].
  destruct (float_of_str (nth 2 (split line ",") "")) as [cc|e] eqn:E.
  - eexists. reflexivity.
  - apply Hf in E. subst e. exists "". reflexivity.
Qed.

Lemma omap_cons {A B} (f : A -> option B) x l :
  omap f (x :: l) =
  match f x with
  | Some y => y :: omap f l
  | None => omap f l
  end.
Proof. reflexivity. Qed.

(** The loop collects the complexities of the lines, in order, and one
    warning for each that is above 20. *)
Lemma scan_lines lines :
  Laws.float_like float_of_str ->
  forall cs ws,
  exists ws',
    fold_m (scan_line float_of_str) lines (cs, ws) =
      Ok (cs ++ omap (Laws.complexity_of float_of_str) lines, ws ++ ws') /\
    length ws' =
    length (Laws.very_high (omap (Laws.complexity_of float_of_str) lines)).
Proof.
  intros Hf. induction lines as [|line lines IH]; intros cs ws.
  - exists []. cbn [fold_m]. rewrite !app_nil_r. split; reflexivity.
  - cbn [fold_m]. destruct (scan_line_step cs ws line Hf) as [w ->].
    rewrite omap_cons.
    destruct (Laws.complexity_of float_of_str line) as [cc|].
    + unfold Laws.very_high. cbn [List.filter]. fold (Laws.very_high).
      destruct (Py.gt cc 20).
      * destruct (IH (cs ++ [cc]) (ws ++ [w])) as (ws' & -> & Hlen).
        exists (w :: ws'). rewrite <- !app_assoc. cbn [app length].
        split; [reflexivity|]. f_equal. exact Hlen.
      * destruct (IH (cs ++ [cc]) ws) as (ws' & -> & Hlen).
        exists ws'. rewrite <- !app_assoc. cbn [app].
        split; [reflexivity|exact Hlen].
    + apply IH.
Qed.


Lemma count_positive {A} (x : A) l :
  0 < inject_Z (Z.of_nat (length (x :: l))).
Proof.
  change 0 with (inject_Z 0). rewrite <- Zlt_Qlt. cbn [length]. lia.
Qed.

(** What the extractor returns, by the complexities of the run. *)
Lemma python_complexity_result run :
  Laws.float_like float_of_str ->
  exists avg detail warnings,
    _measure_python_complexity float_of_str run =
      Ok (avg, detail, warnings) /\
    match Laws.complexities_of float_of_str run with
    | [] => avg = 0.0
    | first :: rest =>
        avg = sum_of (first :: rest) /
              inject_Z (Z.of_nat (length (first :: rest))) /\
        length warnings = length (Laws.very_high (first :: rest))
    end.
Proof.
  intros Hf. destruct run as [| |rc out err];
    try (do 3 eexists; split; reflexivity).
  unfold _measure_python_complexity, Laws.complexities_of.
  destruct ((rc =? 0)%Z || (rc =? 1)%Z); cbn [negb];
    [|do 3 eexists; split; reflexivity].
  change (List.filter (fun ln => negb (String.eqb ln ""))
            (splitlines (strip out))) with (Laws.analyzer_lines out).
  destruct (Laws.analyzer_lines out) as [|l0 ls];
    [do 3 eexists; split; reflexivity|].
  destruct (scan_lines (l0 :: ls) Hf [] []) as (ws' & -> & Hlen).
  cbn [mbind result_bind Py.bind app].
  destruct (omap (Laws.complexity_of float_of_str) (l0 :: ls))
    as [|first rest]; [do 3 eexists; split; reflexivity|].
  rewrite div_nonzero.
  - cbn [mbind result_bind Py.bind]. do 3 eexists.
    split; [reflexivity|]. split; [reflexivity|exact Hlen].
  - intros H. pose proof (count_positive first rest) as Hp.
    rewrite H in Hp. exact (Qlt_irrefl _ Hp).
Qed.


(** X22.  For a run of the analyzer that completes, the Python
    extractor returns as many warnings as its lines carry complexities
    above 20, so none when no complexity is above 20.  The bound is the
    constant 20: the extractor takes no threshold. *)
Theorem python_complexity_warnings :
  forall returncode stdout stderr,
    Laws.float_like float_of_str ->
    let run := Completed returncode stdout stderr in
    exists avg detail warnings,
      _measure_python_complexity float_of_str run =
        Ok (avg, detail, warnings) /\
      length warnings =
      length (Laws.very_high (Laws.complexities_of float_of_str run)).
Proof.
  intros rc out err Hf run.
  destruct (python_complexity_result run Hf)
    as (avg & detail & warnings & E & H).
  exists avg, detail, warnings. split; [exact E|].
  destruct (Laws.complexities_of float_of_str run) as [|first rest] eqn:Ec;
    [|exact (proj2 H)].
  (* no complexity: the early returns, all without a warning *)
  clear H. revert E Ec. subst run.
  unfold _measure_python_complexity, Laws.complexities_of.
  destruct ((rc =? 0)%Z || (rc =? 1)%Z); cbn [negb];
    [|intros [= _ _ <-]; reflexivity].
  change (List.filter (fun ln => negb (String.eqb ln ""))
            (splitlines (strip out))) with (Laws.analyzer_lines out).
  destruct (Laws.analyzer_lines out) as [|l0 ls];
    [intros [= _ _ <-]; reflexivity|].
  destruct (scan_lines (l0 :: ls) Hf [] []) as (ws' & -> & Hlen).
  cbn [mbind result_bind Py.bind app]. intros E Ec. rewrite Ec in E.
  injection E as _ _ <-. reflexivity.
Qed.

(** *** The blend with the JS/TS report *)




(** X24.  When both extractors return, the complexity value lies between
    the Python average and the JS/TS average, and it is positive exactly
    when one of them is.  The warnings are those of the Python analyzer,
    except that they are dropped when only the JS/TS average is
    positive. *)
Theorem complexity_blend :
  forall run fs js p pd pw j jd,
    _measure_python_complexity float_of_str run = Ok (p, pd, pw) ->
    _load_js_complexity int_of_str float_of_str str_float str_container
      fs js = Ok (j, jd) ->
    exists v d w,
      Signals.measure_complexity int_of_str float_of_str str_float
        str_container run fs js = Ok (v, d, w) /\
      ((p <= v /\ v <= j) \/ (j <= v /\ v <= p)) /\
      (0 < v <-> 0 < p \/ 0 < j) /\
      (0 < j -> p <= 0 -> v = j /\ d = jd /\ w = []) /\
      (~ (0 < j /\ p <= 0) -> w = pw).
Proof.
  intros run fs js p pd pw j jd Hp Hj.
  unfold Signals.measure_complexity. rewrite Hp, Hj.
  cbn [mbind result_bind Py.bind].
  destruct (Py.gt j 0) eqn:Gj; [apply gt_true in Gj|apply gt_false in Gj];
    (destruct (Py.gt p 0) eqn:Gp;
     [apply gt_true in Gp|apply gt_false in Gp]); cbn [andb].
  - rewrite div_nonzero by discriminate. cbn [mbind result_bind Py.bind].
    do 3 eexists. split; [reflexivity|].
    assert (Hv : (p + j) / 2 * 2 == p + j) by (field; discriminate).
    set (v := (p + j) / 2) in *.
    split; [destruct (Qlt_le_dec p j); [left|right]; split; lra|].
    split; [split; [auto|intros _; lra]|].
    split; [intros _ H; exfalso; lra|]. intros _. reflexivity.
  - do 3 eexists. split; [reflexivity|].
    split; [left; split; lra|].
    split; [split; [auto|intros _; lra]|].
    split; [auto|]. intros H. exfalso. apply H. split; assumption.
  - do 3 eexists. split; [reflexivity|].
    split; [right; split; lra|].
    split; [split; [auto|intros _; lra]|].
    split; [intros H; exfalso; lra|]. intros _. reflexivity.
  - do 3 eexists. split; [reflexivity|].
    split; [destruct (Qlt_le_dec p j); [left|right]; split; lra|].
    split; [split; [intros H; exfalso; lra|intros [H|H]; exfalso; lra]|].
    split; [intros H; exfalso; lra|]. intros _. reflexivity.
Qed.

(** *** Coverage *)

(** X25.  The coverage is the "percent_covered" of the report's totals
    whenever that entry is a number, whatever the display percentage
    says; the display percentage, a string that is read as a number, is
    used only when "percent_covered" is absent. *)
Theorem coverage_precedence :
  forall (d t : gmap string json),
    d !! "totals" = Some (JObj t) ->
    (forall x,
       t !! "percent_covered" = Some (JFloat x) ->
       measure_coverage float_of_str float_error (Parsed (JObj d)) =
       Ok (x, coverage_detail_of x)) /\
    (forall s x,
       t !! "percent_covered" = None ->
       t !! "percent_covered_display" = Some (JStr s) ->
       float_of_str s = Ok x ->
       measure_coverage float_of_str float_error (Parsed (JObj d)) =
       Ok (x, coverage_detail_of x)).
Proof.
  intros d t Ht. unfold measure_coverage, json_get. rewrite Ht.
  cbn [default_or mbind result_bind Py.bind]. split.
  - intros x ->. reflexivity.
  - intros s x -> -> Hx. cbn [default_or json_float]. rewrite Hx.
    reflexivity.
Qed.




(** *** The signals in [main] *)






(** X28.  [main] writes the files it is asked to write and no other, in
    the order report, score, badge, an empty path counting as none; the
    score file holds the total with two decimals; and the last thing
    printed is the report. *)
Theorem main_writes_requested :
  forall args b thr,
    let out := main_finish str_float args b thr in
    map fst (out_files out) = Laws.requested args /\
    (forall p,
       given (arg_score_output args) = Some p ->
       (p, Text (format_fixed 2 (total b))) ∈ out_files out) /\
    last (out_stdout out) = Some (build_report str_float b thr).
Proof.
  intros args b thr out. subst out. unfold main_finish, Laws.requested.
  rewrite !omap_cons.
  destruct (given (arg_output args)), (given (arg_score_output args)),
    (given (arg_badge_output args));
    cbn [out_files out_stdout map fst app last omap list_omap];
    (split; [reflexivity|]); (split; [|reflexivity]);
    intros p Hp; try discriminate Hp; injection Hp as <-;
    rewrite ?elem_of_app, ?elem_of_cons; auto.
Qed.

End Extractors.

(** *** Examples *)


(** Of the two functions, one is above 20. *)
Lemma python_complexity_warnings_witness :
  exists avg detail warnings,
    _measure_python_complexity Laws.float_of_digits
      (Completed 0 Laws.two_functions_csv "") =
      Ok (avg, detail, warnings) /\
    length warnings = 1%nat.
Proof.
  pose proof (python_complexity_warnings Laws.float_of_digits 0
                Laws.two_functions_csv "" float_of_digits_like) as H.
  cbv zeta in H. destruct H as (avg & detail & warnings & E & H).
  exists avg, detail, warnings. split; [exact E|].
  rewrite H. reflexivity.
Defined.


(** A Python average of 14.5 and a JS/TS average of 6.5. *)
Lemma complexity_blend_witness :
  exists v d w,
    Signals.measure_complexity Sample.no_int Laws.float_of_digits
      Sample.no_str_float Sample.no_str_container Laws.two_functions
      Laws.js_report (Some "js.json") = Ok (v, d, w) /\
    0 < v.
Proof.
  assert (Hp : exists p pd pw,
            _measure_python_complexity Laws.float_of_digits
              Laws.two_functions = Ok (p, pd, pw) /\ 0 < p)
    by (vm_compute; do 3 eexists; split; reflexivity).
  assert (Hj : exists j jd,
            _load_js_complexity Sample.no_int Laws.float_of_digits
              Sample.no_str_float Sample.no_str_container Laws.js_report
              (Some "js.json") = Ok (j, jd))
    by (vm_compute; do 2 eexists; reflexivity).
  destruct Hp as (p & pd & pw & Hp & Hpos). destruct Hj as (j & jd & Hj).
  destruct (complexity_blend Sample.no_int Laws.float_of_digits
              Sample.no_str_float Sample.no_str_container _ _ _ _ _ _ _ _
              Hp Hj) as (v & d & w & E & _ & Hv & _).
  exists v, d, w. split; [exact E|]. apply Hv. left. exact Hpos.
Defined.

(** A report with both percentages, and one with the display percentage
    only. *)
Lemma coverage_precedence_witness :
  measure_coverage Laws.float_of_digits Laws.no_float_error
    (Parsed (JObj Laws.coverage_report)) =
    Ok (87.5, coverage_detail_of 87.5) /\
  measure_coverage Laws.float_of_digits Laws.no_float_error
    (Parsed (JObj Laws.coverage_display_only)) =
    Ok (88, coverage_detail_of 88).
Proof.
  assert (H1 : Laws.coverage_report !! "totals" =
               Some (JObj Laws.coverage_totals)) by reflexivity.
  assert (H2 : Laws.coverage_display_only !! "totals" =
               Some (JObj Laws.coverage_display)) by reflexivity.
  split.
  - apply (proj1 (coverage_precedence Laws.float_of_digits
                    Laws.no_float_error _ _ H1)).
    reflexivity.
  - apply (proj2 (coverage_precedence Laws.float_of_digits
                    Laws.no_float_error _ _ H2) "88").
    + reflexivity.
    + reflexivity.
    + reflexivity.
Defined.



(** A score file and a badge, and an empty path for the report. *)
Lemma main_writes_requested_witness :
  map fst (out_files
             (main_finish Sample.no_str_float
                (Laws.args_writing (Some "") (Some "score.txt")
                   (Some "badge.json"))
                Sample.at_threshold (Int 70))) =
    ["score.txt"; "badge.json"] /\
  ("score.txt", Text (format_fixed 2 (total Sample.at_threshold))) ∈
    out_files
      (main_finish Sample.no_str_float
         (Laws.args_writing (Some "") (Some "score.txt")
            (Some "badge.json"))
         Sample.at_threshold (Int 70)).
Proof.
  pose proof (main_writes_requested Sample.no_str_float
                (Laws.args_writing (Some "") (Some "score.txt")
                   (Some "badge.json"))
                Sample.at_threshold (Int 70)) as H.
  cbv zeta in H. destruct H as (H1 & H2 & _).
  split; [exact H1|]. apply H2. reflexivity.
Defined.

End SignalLaws.
